(** * make-invoices: monthly attendance synchronisation and templating

    A shallow embedding of [main.go]: the work-day extraction
    ([getWorkDays]), the spreadsheet synchroniser
    ([updateAndDownloadWorkSpreadsheets]) and the document templater
    ([updateAndDownloadWorkDocuments]), together with the fragment of Go's
    [time], [strings], [strconv] and [fmt] packages these functions call and
    a small model of the remote Sheets and Drive stores they talk to. *)

From Stdlib Require Import ZArith List String Ascii Bool Lia DecimalString Sorted.
From stdpp Require Import gmap strings list.
Import ListNotations.

Local Open Scope string_scope.
Local Open Scope Z_scope.

(** ** Go's [time] package: civil dates

    A [Time] is kept by its civil fields in its own location.  Every [Time]
    the program handles is midnight in a zone without daylight saving
    (Asia/Tokyo) or the result of [time.Parse], so the clock part never
    takes part in a computation and is left out. *)

Module GoTime.

Inductive Weekday :=
  Sunday | Monday | Tuesday | Wednesday | Thursday | Friday | Saturday.

Record Time := mkTime { Year : Z; Month : Z; Day : Z }.

Definition Time_eqb (a b : Time) : bool :=
  (Year a =? Year b) && (Month a =? Month b) && (Day a =? Day b).

Definition daysPer400Years : Z := 365 * 400 + 97.
Definition daysPer100Years : Z := 365 * 100 + 24.
Definition daysPer4Years : Z := 365 * 4 + 1.

Definition isLeap (year : Z) : bool :=
  (year mod 4 =? 0) && (negb (year mod 100 =? 0) || (year mod 400 =? 0)).

(** [daysBefore m] counts the days of a non-leap year before month [m+1]. *)
Definition daysBefore (m : Z) : Z :=
  nth (Z.to_nat m)
      [0; 31; 59; 90; 120; 151; 181; 212; 243; 273; 304; 334; 365] 0.

(** Days from 1 January of year 1 to 1 January of [year].  Go counts from
    a year congruent to 1 modulo 400 far in the past; the cycles are the
    same. *)
Definition daysSinceEpoch (year : Z) : Z :=
  let y := year - 1 in
  let n400 := y / 400 in
  let y := y - 400 * n400 in
  let n100 := y / 100 in
  let y := y - 100 * n100 in
  let n4 := y / 4 in
  let y := y - 4 * n4 in
  daysPer400Years * n400 + daysPer100Years * n100 + daysPer4Years * n4
  + 365 * y.

(** The day number [time.Date] computes, month overflow normalised into the
    year first. *)
Definition absDays (year month day : Z) : Z :=
  let m := month - 1 in
  let year := year + m / 12 in
  let m := m mod 12 in
  let month := m + 1 in
  daysSinceEpoch year + daysBefore (month - 1)
  + (if isLeap year && (3 <=? month) then 1 else 0)
  + (day - 1).

(** [absDate]: from a day number back to year, month and day. *)
Definition absDate (abs : Z) : Time :=
  let d := abs in
  let n := d / daysPer400Years in
  let y := 400 * n in
  let d := d - daysPer400Years * n in
  let n := d / daysPer100Years in
  let n := n - n / 4 in
  let y := y + 100 * n in
  let d := d - daysPer100Years * n in
  let n := d / daysPer4Years in
  let y := y + 4 * n in
  let d := d - daysPer4Years * n in
  let n := d / 365 in
  let n := n - n / 4 in
  let y := y + n in
  let d := d - 365 * n in
  let year := y + 1 in
  let day := d in
  if isLeap year && (day =? 31 + 29 - 1) then mkTime year 2 29
  else
    let day := if isLeap year && (31 + 29 - 1 <? day) then day - 1 else day in
    let month := day / 31 in
    let e := daysBefore (month + 1) in
    let '(month, begin) :=
      if e <=? day then (month + 1, e) else (month, daysBefore month) in
    mkTime year (month + 1) (day - begin + 1).

Definition Date (year month day : Z) : Time := absDate (absDays year month day).

Definition AddDate (t : Time) (years months days : Z) : Time :=
  Date (Year t + years) (Month t + months) (Day t + days).

Definition weekdayOf (n : Z) : Weekday :=
  match n with
  | 0 => Sunday | 1 => Monday | 2 => Tuesday | 3 => Wednesday
  | 4 => Thursday | 5 => Friday | _ => Saturday
  end.

(** Day 0 (1 January of year 1) is a Monday. *)
Definition weekday (t : Time) : Weekday :=
  weekdayOf ((absDays (Year t) (Month t) (Day t) + 1) mod 7).

(** *** Formatting *)

Definition itoa (x : Z) : string := NilZero.string_of_int (Z.to_int x).

Fixpoint zeros (n : nat) : string :=
  match n with O => "" | S n => "0" ++ zeros n end.

(** [appendInt]: decimal, zero-padded to [width] digits, sign first. *)
Definition appendInt (x : Z) (width : nat) : string :=
  let u := itoa (Z.abs x) in
  (if x <? 0 then "-" else "") ++ zeros (width - String.length u) ++ u.

Definition Format_2006 (t : Time) : string := appendInt (Year t) 4.
Definition Format_1 (t : Time) : string := itoa (Month t).
Definition Format_2 (t : Time) : string := itoa (Day t).
Definition Format_1_2 (t : Time) : string :=
  itoa (Month t) ++ "/" ++ itoa (Day t).
Definition Format_200601 (t : Time) : string :=
  appendInt (Year t) 4 ++ appendInt (Month t) 2.
Definition Format_2006_01_02 (t : Time) : string :=
  appendInt (Year t) 4 ++ "/" ++ appendInt (Month t) 2 ++ "/"
  ++ appendInt (Day t) 2.

End GoTime.
Import GoTime.


(** ** Go's [strings], [strconv] and [fmt] fragments *)

(** [strings.Replace s old new 1] for a non-empty [old]: the first
    occurrence, scanning from the left. *)
Fixpoint strings_Replace1 (s old new : string) : string :=
  if String.prefix old s
  then new ++ substring (String.length old) (String.length s - String.length old) s
  else match s with
       | EmptyString => EmptyString
       | String c s' => String c (strings_Replace1 s' old new)
       end.

Definition strconv_Itoa (x : Z) : string := itoa x.

(** [fmt.Sprintf "{{day%d}}" i] and [fmt.Sprintf "{{day%dHours}}" i]. *)
Definition Sprintf_day (i : Z) : string := "{{day" ++ itoa i ++ "}}".
Definition Sprintf_dayHours (i : Z) : string := "{{day" ++ itoa i ++ "Hours}}".

(** ** Outcomes and the state monad of a run

    [log.Fatalf] ends the process: [Fatal].  A Go run-time panic (an index
    out of range) is a different way to end: [Panic].  [Diverge] is the
    model's answer when a loop runs out of fuel.  Whatever was written to
    the remote store before the end stays written. *)

Inductive outcome (A : Type) : Type :=
| OK (a : A)
| Fatal (msg : string)
| Panic (msg : string)
| Diverge.
Arguments OK {A} a.
Arguments Fatal {A} msg.
Arguments Panic {A} msg.
Arguments Diverge {A}.

Definition M (S A : Type) : Type := S -> S * outcome A.

Definition ret {S A} (a : A) : M S A := fun st => (st, OK a).

Definition bind {S A B} (c : M S A) (k : A -> M S B) : M S B :=
  fun st =>
    match c st with
    | (st', OK a) => k a st'
    | (st', Fatal msg) => (st', Fatal msg)
    | (st', Panic msg) => (st', Panic msg)
    | (st', Diverge) => (st', Diverge)
    end.

Definition log_Fatalf {S A} (msg : string) : M S A := fun st => (st, Fatal msg).
Definition panic {S A} (msg : string) : M S A := fun st => (st, Panic msg).
Definition diverge {S A} : M S A := fun st => (st, Diverge).

(** A remote call answers with a value or an error; the program turns
    every error into [log.Fatalf]. *)
Definition api (S A : Type) : Type := S -> S * option A.

Definition orFatal {S A} (msg : string) (c : api S A) : M S A :=
  fun st =>
    match c st with
    | (st', Some a) => (st', OK a)
    | (st', None) => (st', Fatal msg)
    end.

Notation "'let*' x ':=' c1 'in' c2" := (bind c1 (fun x => c2))
  (at level 10, x name, c1 at level 100, c2 at level 200).
Notation "c1 ';;;' c2" := (bind c1 (fun _ => c2))
  (at level 100, c2 at level 200, right associativity).

Definition exec {S A} (c : M S A) (st : S) : S := fst (c st).
Definition result {S A} (c : M S A) (st : S) : outcome A := snd (c st).

(** ** Configuration *)

Record Config := {
  CalendarID : string;
  WorkDayTitle : string;
  WorkStartTime : string;
  WorkSpreadsheetIDs : list string;
  WorkDocumentTemplateID : string
}.

(** ** WorkDayExtractor: [getWorkDays] *)

Record Event := {
  Start_DateTime : string;
  Start_Date : string;
  Summary : string
}.

Section GetWorkDays.

(** [time.Parse time.RFC3339] and [time.Parse "2006-01-02"]; [None] is
    Go's error. *)
Variable Parse_RFC3339 : string -> option Time.
Variable Parse_date : string -> option Time.

(** The date the loop body resolves for one calendar item. *)
Definition resolveDate (item : Event) : outcome Time :=
  if negb (String.eqb (Start_DateTime item) "") then
    match Parse_RFC3339 (Start_DateTime item) with
    | Some date => OK date
    | None => Fatal "Failed to parse calendar datetime"
    end
  else
    match Parse_date (Start_Date item) with
    | Some date => OK date
    | None => Fatal "Failed to parse calendar date"
    end.

(** The loop over [events.Items], [workDays] being the slice built so
    far. *)
Fixpoint collectWorkDays (targetTime : Time) (config : Config)
    (items : list Event) (workDays : list Time) : outcome (list Time) :=
  match items with
  | [] => OK workDays
  | item :: items =>
      match resolveDate item with
      | OK date =>
          if negb (Year date =? Year targetTime)
             || negb (Month date =? Month targetTime)
          then collectWorkDays targetTime config items workDays
          else if String.eqb (Summary item) (WorkDayTitle config)
          then collectWorkDays targetTime config items (workDays ++ [date])
          else collectWorkDays targetTime config items workDays
      | Fatal msg => Fatal msg
      | Panic msg => Panic msg
      | Diverge => Diverge
      end
  end.

(** [events] is the answer of [cal.Events.List ... Do()], [None] its
    error. *)
Definition getWorkDays (events : option (list Event)) (targetTime : Time)
    (config : Config) : outcome (list Time) :=
  match events with
  | None => Fatal "Failed to retrieve calendar"
  | Some items => collectWorkDays targetTime config items []
  end.

End GetWorkDays.

(** ** The remote Sheets store

    A spreadsheet is its display title and its ordered pages; a page has an
    identifier, a title and cells addressed by column letters and row
    number.  The store keeps a log of the calls it served. *)

Record Sheet := {
  SheetId : Z;
  Title : string;
  Cells : gmap (string * Z) string
}.

Record Spreadsheet := {
  SpreadsheetTitle : string;
  Sheets : list Sheet
}.

(** A one-column range in A1 notation, [A1] being the string the program
    sends: ["202402!D7:D37"]. *)
Record A1Range := {
  a1Sheet : string;
  a1Col : string;
  a1Row1 : Z;
  a1Row2 : Z
}.

Definition A1 (r : A1Range) : string :=
  a1Sheet r ++ "!" ++ a1Col r ++ itoa (a1Row1 r) ++ ":" ++ a1Col r
  ++ itoa (a1Row2 r).

Inductive SheetsCall :=
| CallGet (spreadsheetID : string)
| CallCopyTo (spreadsheetID : string) (sheetID : Z) (destination : string)
| CallUpdateSheetProperties (spreadsheetID : string) (sheetID : Z)
    (title : string) (index : Z)
| CallValuesUpdate (spreadsheetID : string) (range : string)
    (values : list (list string))
| CallExport (spreadsheetID : string) (gid : Z) (filename : string).

Record SheetsRemote := {
  Documents : gmap string Spreadsheet;
  SheetsLog : list SheetsCall
}.

Definition logCall (c : SheetsCall) (st : SheetsRemote) : SheetsRemote :=
  {| Documents := Documents st; SheetsLog := SheetsLog st ++ [c] |}.

Definition setDocument (id : string) (sp : Spreadsheet) (st : SheetsRemote)
    : SheetsRemote :=
  {| Documents := <[id := sp]> (Documents st); SheetsLog := SheetsLog st |}.

(** An identifier no page of the list has, and never 0. *)
Definition freshSheetId (l : list Sheet) : Z :=
  1 + fold_right Z.max 0 (map SheetId l).

Definition copyTitle (title : string) : string := "Copy of " ++ title.

Definition findSheetById (id : Z) (l : list Sheet) : option Sheet :=
  find (fun s => SheetId s =? id) l.

Definition findSheetByTitle (title : string) (l : list Sheet) : option Sheet :=
  find (fun s => String.eqb (Title s) title) l.

(** [Spreadsheets.Get]. *)
Definition Spreadsheets_Get (spreadsheetID : string) : api SheetsRemote Spreadsheet :=
  fun st =>
    (logCall (CallGet spreadsheetID) st, Documents st !! spreadsheetID).

(** [Spreadsheets.Sheets.CopyTo]: the copy, cells included, is appended to
    the destination under a fresh identifier. *)
Definition Sheets_CopyTo (spreadsheetID : string) (sheetID : Z)
    (destination : string) : api SheetsRemote Sheet :=
  fun st =>
    let st := logCall (CallCopyTo spreadsheetID sheetID destination) st in
    match Documents st !! spreadsheetID with
    | None => (st, None)
    | Some src =>
        match findSheetById sheetID (Sheets src), Documents st !! destination with
        | Some s, Some dst =>
            let dest := {| SheetId := freshSheetId (Sheets dst);
                           Title := copyTitle (Title s);
                           Cells := Cells s |} in
            (setDocument destination
               {| SpreadsheetTitle := SpreadsheetTitle dst;
                  Sheets := Sheets dst ++ [dest] |} st,
             Some dest)
        | _, _ => (st, None)
        end
    end.

(** [BatchUpdate] with one [UpdateSheetProperties] request on the fields
    title and index: refused when the page is unknown or another page has
    the title; otherwise the page is renamed and moved to [index]. *)
Definition BatchUpdate_UpdateSheetProperties (spreadsheetID : string)
    (sheetID : Z) (title : string) (index : Z) : api SheetsRemote unit :=
  fun st =>
    let st :=
      logCall (CallUpdateSheetProperties spreadsheetID sheetID title index) st in
    match Documents st !! spreadsheetID with
    | None => (st, None)
    | Some sp =>
        match findSheetById sheetID (Sheets sp) with
        | None => (st, None)
        | Some s =>
            let others :=
              List.filter (fun s' => negb (SheetId s' =? sheetID)) (Sheets sp) in
            if existsb (fun s' => String.eqb (Title s') title) others
            then (st, None)
            else
              let s' := {| SheetId := sheetID; Title := title; Cells := Cells s |} in
              let n := Z.to_nat index in
              (setDocument spreadsheetID
                 {| SpreadsheetTitle := SpreadsheetTitle sp;
                    Sheets := firstn n others ++ [s'] ++ skipn n others |} st,
               Some tt)
        end
    end.

(** Writing the rows of [values] down a column from [row] on. *)
Fixpoint writeColumn (col : string) (row : Z) (values : list (list string))
    (cells : gmap (string * Z) string) : gmap (string * Z) string :=
  match values with
  | [] => cells
  | r :: values =>
      writeColumn col (row + 1) values
        match r with
        | v :: _ => <[(col, row) := v]> cells
        | [] => cells
        end
  end.

Fixpoint updateSheetByTitle (title : string) (f : Sheet -> Sheet)
    (l : list Sheet) : list Sheet :=
  match l with
  | [] => []
  | s :: l =>
      if String.eqb (Title s) title then f s :: l
      else s :: updateSheetByTitle title f l
  end.

(** The page [s] with the rows of [values] written into [range]. *)
Definition writeRange (range : A1Range) (values : list (list string))
    (s : Sheet) : Sheet :=
  {| SheetId := SheetId s; Title := Title s;
     Cells := writeColumn (a1Col range) (a1Row1 range) values (Cells s) |}.

(** [Spreadsheets.Values.Update]: refused when no page has the title of the
    range or when the values do not fit the range; the first page with the
    title is written.  A cell keeps the string it was sent; how the sheet
    reads it under [USER_ENTERED] is not modelled. *)
Definition Values_Update (spreadsheetID : string) (range : A1Range)
    (values : list (list string)) : api SheetsRemote unit :=
  fun st =>
    let st := logCall (CallValuesUpdate spreadsheetID (A1 range) values) st in
    match Documents st !! spreadsheetID with
    | None => (st, None)
    | Some sp =>
        match findSheetByTitle (a1Sheet range) (Sheets sp) with
        | None => (st, None)
        | Some _ =>
            if (a1Row2 range - a1Row1 range + 1 <? Z.of_nat (length values))
               || existsb (fun r => (1 <? length r)%nat) values
            then (st, None)
            else
              (setDocument spreadsheetID
                 {| SpreadsheetTitle := SpreadsheetTitle sp;
                    Sheets :=
                      updateSheetByTitle (a1Sheet range)
                        (writeRange range values) (Sheets sp) |} st,
               Some tt)
        end
    end.

(** The PDF export of one page and the file it is saved to. *)
Definition exportSpreadsheet (spreadsheetID : string) (gid : Z)
    (filename : string) : api SheetsRemote unit :=
  fun st => (logCall (CallExport spreadsheetID gid filename) st, Some tt).

(** ** SpreadsheetSynchronizer: [updateAndDownloadWorkSpreadsheets] *)

(** The first loop over [spreadsheet.Sheets]: no [break], the last page
    with the title wins; 0 when there is none. *)
Definition findTargetSheetID (targetTime : Time) (sheets : list Sheet) : Z :=
  fold_left
    (fun targetSheetID s =>
       if String.eqb (Format_200601 targetTime) (Title s) then SheetId s
       else targetSheetID)
    sheets 0.

(** The second loop, with its [break]: the first page titled as the month
    before. *)
Definition findCopyFrom (targetTime : Time) (sheets : list Sheet) : option Sheet :=
  find
    (fun s => String.eqb (Format_200601 (AddDate targetTime 0 (-1) 0)) (Title s))
    sheets.

(** The inner loop over [workDays] for the day index [i]. *)
Fixpoint workTimeValue (targetTime : Time) (workDays : list Time)
    (WorkStartTime : string) (i : Z) : string :=
  match workDays with
  | [] => ""
  | d :: workDays =>
      if (Year targetTime =? Year d) && (Month targetTime =? Month d)
         && (i =? Day d)
      then WorkStartTime
      else workTimeValue targetTime workDays WorkStartTime i
  end.

(** The loop [for i := 1; i <= 31; i++], [n] iterations being left. *)
Fixpoint workTimeRows (targetTime : Time) (workDays : list Time)
    (WorkStartTime : string) (n : nat) (i : Z) (values : list (list string))
    : list (list string) :=
  match n with
  | O => values
  | S n =>
      workTimeRows targetTime workDays WorkStartTime n (i + 1)
        (values ++ [[workTimeValue targetTime workDays WorkStartTime i]])
  end.

Definition workTimeValues (targetTime : Time) (workDays : list Time)
    (config : Config) : list (list string) :=
  workTimeRows targetTime workDays (WorkStartTime config)
    (Z.to_nat (31 - 1 + 1)) 1 [].

Definition rangeM3 (targetTime : Time) : A1Range :=
  {| a1Sheet := Format_200601 targetTime; a1Col := "M"; a1Row1 := 3; a1Row2 := 3 |}.

Definition rangeD7D37 (targetTime : Time) : A1Range :=
  {| a1Sheet := Format_200601 targetTime; a1Col := "D"; a1Row1 := 7; a1Row2 := 37 |}.

(** The body of the loop over [config.WorkSpreadsheetIDs]. *)
Definition syncSpreadsheet (targetTime : Time) (workDays : list Time)
    (config : Config) (spreadsheetID : string) : M SheetsRemote unit :=
  let* spreadsheet :=
    orFatal "Failed to get spreadsheet" (Spreadsheets_Get spreadsheetID) in
  let targetSheetID := findTargetSheetID targetTime (Sheets spreadsheet) in
  let* targetSheetID :=
    if targetSheetID =? 0 then
      match findCopyFrom targetTime (Sheets spreadsheet) with
      | None => log_Fatalf "Failed to determine sheet to copy"
      | Some copyFrom =>
          let* dest :=
            orFatal "Failed to copy sheet"
              (Sheets_CopyTo spreadsheetID (SheetId copyFrom) spreadsheetID) in
          let targetSheetID := SheetId dest in
          orFatal "Failed to update sheet position"
            (BatchUpdate_UpdateSheetProperties spreadsheetID targetSheetID
               (Format_200601 targetTime) 0) ;;;
          ret targetSheetID
      end
    else ret targetSheetID in
  orFatal "Failed to set work month to sheet"
    (Values_Update spreadsheetID (rangeM3 targetTime)
       [[Format_2006_01_02 targetTime]]) ;;;
  orFatal "Failed to set work times to sheet"
    (Values_Update spreadsheetID (rangeD7D37 targetTime)
       (workTimeValues targetTime workDays config)) ;;;
  orFatal "Failed to export spreadsheet"
    (exportSpreadsheet spreadsheetID targetSheetID
       (Format_200601 targetTime ++ SpreadsheetTitle spreadsheet ++ ".pdf")).

Fixpoint syncSpreadsheets (targetTime : Time) (workDays : list Time)
    (config : Config) (ids : list string) : M SheetsRemote unit :=
  match ids with
  | [] => ret tt
  | spreadsheetID :: ids =>
      syncSpreadsheet targetTime workDays config spreadsheetID ;;;
      syncSpreadsheets targetTime workDays config ids
  end.

Definition updateAndDownloadWorkSpreadsheets (targetTime : Time)
    (workDays : list Time) (config : Config) : M SheetsRemote unit :=
  syncSpreadsheets targetTime workDays config (WorkSpreadsheetIDs config).

(** ** The remote Drive and Docs store *)

Record File := {
  Id : string;
  Name : string;
  Parents : list string
}.

(** One [ReplaceAllText] request, as [makeReplaceRequest] builds it. *)
Record Request := {
  ContainsText : string;
  ReplaceText : string
}.

Definition makeReplaceRequest (key value : string) : Request :=
  {| ContainsText := key; ReplaceText := value |}.

(** [PageSize] files at most come with one page of a listing (one at
    least).  [DocUpdates] are the batches applied to documents and
    [Downloads] the PDF files written, both in order. *)
Record DriveRemote := {
  DriveFiles : list File;
  PageSize : nat;
  DocUpdates : list (string * list Request);
  Downloads : list string
}.

Definition setDriveFiles (l : list File) (st : DriveRemote) : DriveRemote :=
  {| DriveFiles := l; PageSize := PageSize st;
     DocUpdates := DocUpdates st; Downloads := Downloads st |}.

Definition inFolder (folderID : string) (f : File) : bool :=
  existsb (String.eqb folderID) (Parents f).

Definition folderFiles (folderID : string) (st : DriveRemote) : list File :=
  List.filter (inFolder folderID) (DriveFiles st).

(** A page token is an opaque cursor into a listing: the model keeps the
    part of the listing not returned yet, the empty list standing for the
    empty token. *)
Definition PageToken : Type := list File.

Record FileList := {
  Files : list File;
  NextPageToken : PageToken
}.

(** [Files.Get]. *)
Definition Files_Get (fileID : string) : api DriveRemote File :=
  fun st => (st, find (fun f => String.eqb (Id f) fileID) (DriveFiles st)).

(** [Files.List] with the query ['folderID' in parents]: a new listing on
    the empty token, the next page of a running one otherwise. *)
Definition Files_List (folderID : string) (pageToken : PageToken)
    : api DriveRemote FileList :=
  fun st =>
    let listing :=
      match pageToken with
      | [] => folderFiles folderID st
      | _ => pageToken
      end in
    let n := Nat.max 1 (PageSize st) in
    (st, Some {| Files := firstn n listing; NextPageToken := skipn n listing |}).

(** [Files.Delete]: an error when there is no such file. *)
Definition Files_Delete (fileID : string) : api DriveRemote unit :=
  fun st =>
    if existsb (fun f => String.eqb (Id f) fileID) (DriveFiles st)
    then (setDriveFiles
            (List.filter (fun f => negb (String.eqb (Id f) fileID)) (DriveFiles st))
            st, Some tt)
    else (st, None).

(** An identifier longer than every identifier in use. *)
Definition freshFileId (l : list File) : string :=
  String "f" (fold_right (fun f acc => Id f ++ acc) "" l).

(** [Files.Copy]: an error when the source is gone. *)
Definition Files_Copy (fileID : string) (name : string) (parents : list string)
    : api DriveRemote File :=
  fun st =>
    if existsb (fun f => String.eqb (Id f) fileID) (DriveFiles st)
    then
      let f := {| Id := freshFileId (DriveFiles st); Name := name;
                  Parents := parents |} in
      (setDriveFiles (DriveFiles st ++ [f]) st, Some f)
    else (st, None).

(** [Documents.BatchUpdate]. *)
Definition Documents_BatchUpdate (documentID : string) (req : list Request)
    : api DriveRemote unit :=
  fun st =>
    ({| DriveFiles := DriveFiles st; PageSize := PageSize st;
        DocUpdates := DocUpdates st ++ [(documentID, req)];
        Downloads := Downloads st |}, Some tt).

(** [Files.Export] to PDF and the file it is saved to. *)
Definition exportDocument (fileID : string) (filename : string)
    : api DriveRemote unit :=
  fun st =>
    ({| DriveFiles := DriveFiles st; PageSize := PageSize st;
        DocUpdates := DocUpdates st;
        Downloads := Downloads st ++ [filename] |}, Some tt).

(** ** DocumentTemplater: [updateAndDownloadWorkDocuments] *)

(** [template.Parents[0]]: the index expression panics on an empty
    slice. *)
Definition index0 {S} (l : list string) : M S string :=
  match l with
  | x :: _ => ret x
  | [] => panic "runtime error: index out of range [0] with length 0"
  end.

(** The loop over the files of one page. *)
Fixpoint deleteMatching (targetDocumentName : string) (files : list File)
    : M DriveRemote unit :=
  match files with
  | [] => ret tt
  | f :: files =>
      (if String.eqb (Name f) targetDocumentName
       then orFatal "Failed to delete existing document" (Files_Delete (Id f))
       else ret tt) ;;;
      deleteMatching targetDocumentName files
  end.

(** The pagination loop, one page per unit of fuel. *)
Fixpoint deleteExisting (fuel : nat) (folderID targetDocumentName : string)
    (nextPageToken : PageToken) : M DriveRemote unit :=
  match fuel with
  | O => diverge
  | S fuel =>
      let* files :=
        orFatal "Failed to retrieve files from drive"
          (Files_List folderID nextPageToken) in
      deleteMatching targetDocumentName (Files files) ;;;
      match NextPageToken files with
      | [] => ret tt
      | nextPageToken =>
          deleteExisting fuel folderID targetDocumentName nextPageToken
      end
  end.

Definition isWorkWeekday (w : Weekday) : bool :=
  match w with
  | Monday | Wednesday | Friday => true
  | _ => false
  end.

(** The weekday-slot walk, one day per unit of fuel; the result is the
    final [i] and [req]. *)
Fixpoint walkDays (fuel : nat) (targetTime d : Time) (i : Z)
    (req : list Request) : option (Z * list Request) :=
  match fuel with
  | O => None
  | S fuel =>
      if (12 <? i) || negb (Month d =? Month targetTime) then Some (i, req)
      else
        match weekday d with
        | Monday | Wednesday | Friday =>
            walkDays fuel targetTime (AddDate d 0 0 1) (i + 1)
              (req ++ [makeReplaceRequest (Sprintf_day i) (Format_1_2 d);
                       makeReplaceRequest (Sprintf_dayHours i) "8"])
        | _ => walkDays fuel targetTime (AddDate d 0 0 1) i req
        end
  end.

(** The loop [for i <= 12], [n] iterations being left. *)
Fixpoint blankSlots (n : nat) (i : Z) (req : list Request) : list Request :=
  match n with
  | O => req
  | S n =>
      blankSlots n (i + 1)
        (req ++ [makeReplaceRequest (Sprintf_day i) "";
                 makeReplaceRequest (Sprintf_dayHours i) ""])
  end.

(** The whole batch [req] handed to [Documents.BatchUpdate]. *)
Definition placeholderRequests (fuel : nat) (targetTime : Time)
    : option (list Request) :=
  let req :=
    [makeReplaceRequest "{{year}}" (Format_2006 targetTime);
     makeReplaceRequest "{{month}}" (Format_1 targetTime);
     makeReplaceRequest "{{day}}" (Format_2 (AddDate targetTime 0 1 (-1)))] in
  match walkDays fuel targetTime targetTime 1 req with
  | None => None
  | Some (i, req) =>
      let req : list Request :=
        (req ++ [makeReplaceRequest "{{totalHours}}" (strconv_Itoa ((i - 1) * 8))])%list in
      Some (blankSlots (Z.to_nat (12 - i + 1)) i req)
  end.

Definition updateAndDownloadWorkDocuments (fuel : nat) (targetTime : Time)
    (config : Config) : M DriveRemote unit :=
  let* template :=
    orFatal "Failed to get template" (Files_Get (WorkDocumentTemplateID config)) in
  let* folderID := index0 (Parents template) in
  let targetDocumentName :=
    strings_Replace1 (Name template) "yyyymm" (Format_200601 targetTime) in
  deleteExisting fuel folderID targetDocumentName [] ;;;
  let* f :=
    orFatal "Failed to copy template"
      (Files_Copy (WorkDocumentTemplateID config) targetDocumentName [folderID]) in
  let* req :=
    match placeholderRequests fuel targetTime with
    | Some req => ret req
    | None => diverge
    end in
  orFatal "Failed to update document" (Documents_BatchUpdate (Id f) req) ;;;
  orFatal "Failed to export document" (exportDocument (Id f) (Name f ++ ".pdf")).

(** ** The driver's normalisation of the target month

    [time.Date(targetTime.Year(), targetTime.Month(), 1, 0, 0, 0, 0, jst)]. *)
Definition normalizeTargetTime (targetTime : Time) : Time :=
  Date (Year targetTime) (Month targetTime) 1.

(** ** Specification-side calendar and slot vocabulary

    What the statements below are phrased with: the month table, the list
    of a month's dates, and the request lists spelled out slot by slot. *)

(** [lo; lo+1; ...], [n] numbers. *)
Definition zrange (lo : Z) (n : nat) : list Z :=
  map (fun k => lo + Z.of_nat k) (seq 0 n).

Definition shiftYears (k : Z) (t : Time) : Time :=
  mkTime (Year t + k) (Month t) (Day t).

(** The length of month [m] of year [y] in the Gregorian calendar. *)
Definition daysIn (y m : Z) : Z :=
  match m with
  | 2 => if isLeap y then 29 else 28
  | 4 | 6 | 9 | 11 => 30
  | _ => 31
  end.

(** The month before [(y, m)]. *)
Definition previousMonth (y m : Z) : Time :=
  if m =? 1 then mkTime (y - 1) 12 1 else mkTime y (m - 1) 1.

(** The calendar facts the proofs use, as tests on one day, one month and
    one year: [Date] is the identity on the dates of each month, leaves the
    month one day after its last day, and reaches the last day and the
    month before as the program asks for them. *)
Definition dayCheck (y m d : Z) : bool :=
  (daysIn y m <? d) || Time_eqb (Date y m d) (mkTime y m d).

Definition monthCheck (y m : Z) : bool :=
  Time_eqb (Date y (m + 1) (1 - 1)) (mkTime y m (daysIn y m))
  && Time_eqb (Date y (m - 1) 1) (previousMonth y m)
  && negb (Month (Date y m (daysIn y m + 1)) =? m)
  && forallb (dayCheck y m) (zrange 1 31).

Definition calendarCheck (y : Z) : bool :=
  forallb (monthCheck y) (zrange 1 12).

(** The dates of month [m] of year [y], first to last. *)
Definition monthDays (y m : Z) : list Time :=
  map (mkTime y m) (zrange 1 (Z.to_nat (daysIn y m))).

(** The dates the templater gives a slot: the Mondays, Wednesdays and
    Fridays of the month in date order, twelve at most. *)
Definition slotDates (y m : Z) : list Time :=
  firstn 12 (List.filter (fun d => isWorkWeekday (weekday d)) (monthDays y m)).

(** The requests of the slots [i], [i+1], ... filled with the texts
    [texts], one per slot. *)
Fixpoint filledSlots (i : Z) (texts : list string) : list Request :=
  match texts with
  | [] => []
  | t :: texts =>
      makeReplaceRequest (Sprintf_day i) t
      :: makeReplaceRequest (Sprintf_dayHours i) "8"
      :: filledSlots (i + 1) texts
  end.

(** The requests blanking the [n] slots [i], [i+1], ... *)
Fixpoint blankedSlots (n : nat) (i : Z) : list Request :=
  match n with
  | O => []
  | S n =>
      makeReplaceRequest (Sprintf_day i) ""
      :: makeReplaceRequest (Sprintf_dayHours i) ""
      :: blankedSlots n (i + 1)
  end.

(** The walk over an explicit list of dates. *)
Fixpoint walkList (ds : list Time) (i : Z) (req : list Request)
    : Z * list Request :=
  match ds with
  | [] => (i, req)
  | d :: ds =>
      if 12 <? i then (i, req)
      else if isWorkWeekday (weekday d)
      then walkList ds (i + 1)
             (req ++ [makeReplaceRequest (Sprintf_day i) (Format_1_2 d);
                      makeReplaceRequest (Sprintf_dayHours i) "8"])
      else walkList ds i req
  end.

(** What slot [i] shows for a list of slot dates: the date and ["8"] when
    there is an [i]-th date, nothing otherwise. *)
Definition slotDayText (dates : list Time) (i : Z) : string :=
  match nth_error dates (Z.to_nat (i - 1)) with
  | Some d => Format_1_2 d
  | None => ""
  end.

Definition slotHoursText (dates : list Time) (i : Z) : string :=
  match nth_error dates (Z.to_nat (i - 1)) with
  | Some _ => "8"
  | None => ""
  end.

(** The batch of a month whose slot dates are [dates]. *)
Definition batchFor (targetTime : Time) (dates : list Time) : list Request :=
  ([makeReplaceRequest "{{year}}" (Format_2006 targetTime);
    makeReplaceRequest "{{month}}" (Format_1 targetTime);
    makeReplaceRequest "{{day}}" (Format_2 (AddDate targetTime 0 1 (-1)))]
   ++ filledSlots 1 (map Format_1_2 dates)
   ++ [makeReplaceRequest "{{totalHours}}"
         (strconv_Itoa (8 * Z.of_nat (length dates)))]
   ++ blankedSlots (12 - length dates) (Z.of_nat (length dates) + 1))%list.

(** The replacement texts of all requests of [req] for the token [key]. *)
Definition textsFor (key : string) (req : list Request) : list string :=
  map ReplaceText (List.filter (fun r => String.eqb (ContainsText r) key) req).

(** The number a decimal string denotes. *)
Definition atoi (s : string) : option Z :=
  option_map Z.of_int (NilZero.int_of_string s).

(** The test that the year [y] is printed with four digits that read [y]. *)
Definition yearTextCheck (y : Z) : bool :=
  (String.length (appendInt y 4) =? 4)%nat
  && match atoi (appendInt y 4) with
     | Some v => v =? y
     | None => false
     end.

(** The test the synchroniser makes of one work day for the day index
    [i]. *)
Definition isWorkDayAt (targetTime : Time) (i : Z) (d : Time) : bool :=
  (Year targetTime =? Year d) && (Month targetTime =? Month d) && (i =? Day d).

(** What one calendar item adds to the work days. *)
Definition selectWorkDay (Parse_RFC3339 Parse_date : string -> option Time)
    (targetTime : Time) (config : Config) (item : Event) : list Time :=
  match resolveDate Parse_RFC3339 Parse_date item with
  | OK date =>
      if (Year date =? Year targetTime) && (Month date =? Month targetTime)
         && String.eqb (Summary item) (WorkDayTitle config)
      then [date] else []
  | _ => []
  end.

(** What one run writes into the target page, and the spreadsheets a run
    leaves as they are: those with a target page of non-zero identifier
    that already holds what the run writes. *)
Definition writeTarget (targetTime : Time) (workDays : list Time)
    (config : Config) (s : Sheet) : Sheet :=
  writeRange (rangeD7D37 targetTime) (workTimeValues targetTime workDays config)
    (writeRange (rangeM3 targetTime) [[Format_2006_01_02 targetTime]] s).

Definition settled (targetTime : Time) (workDays : list Time)
    (config : Config) (sp : Spreadsheet) : Prop :=
  findTargetSheetID targetTime (Sheets sp) <> 0
  /\ updateSheetByTitle (Format_200601 targetTime)
       (writeTarget targetTime workDays config) (Sheets sp)
     = Sheets sp.

(** Reading one cell of the first page with a title. *)
Definition cellOf (st : SheetsRemote) (spreadsheetID title col : string)
    (row : Z) : option string :=
  match Documents st !! spreadsheetID with
  | None => None
  | Some sp =>
      match findSheetByTitle title (Sheets sp) with
      | None => None
      | Some s => Cells s !! (col, row)
      end
  end.

(** The files left of [files] when those of the listing [listing] named
    [targetDocumentName] are deleted one after the other. *)
Fixpoint deleteListed (targetDocumentName : string) (listing files : list File)
    : list File :=
  match listing with
  | [] => files
  | f :: listing =>
      deleteListed targetDocumentName listing
        (if String.eqb (Name f) targetDocumentName
         then List.filter (fun g => negb (String.eqb (Id g) (Id f))) files
         else files)
  end.

(** The files of the folder that carry the name. *)
Definition namedInFolder (folderID name : string) (files : list File)
    : list File :=
  List.filter (fun f => inFolder folderID f && String.eqb (Name f) name) files.

(** ** Example stores *)

Definition exampleConfig : Config :=
  {| CalendarID := "cal"; WorkDayTitle := "work"; WorkStartTime := "09:00";
     WorkSpreadsheetIDs := ["doc1"]; WorkDocumentTemplateID := "tpl" |}.

(** A spreadsheet with the page of January 2024 only: the first run clones
    it, the second finds the clone. *)
Definition exampleSheets : SheetsRemote :=
  {| Documents :=
       {[ "doc1" :=
            {| SpreadsheetTitle := "Attendance";
               Sheets := [ {| SheetId := 7; Title := "202401";
                              Cells := {[ ("D", 8) := "10:00" ]} |} ] |} ]};
     SheetsLog := [] |}.

(** A spreadsheet whose latest page is the one of December 2023. *)
Definition exampleSheetsStale : SheetsRemote :=
  {| Documents :=
       {[ "doc1" :=
            {| SpreadsheetTitle := "Attendance";
               Sheets := [ {| SheetId := 7; Title := "202312"; Cells := ∅ |};
                           {| SheetId := 0; Title := "202311"; Cells := ∅ |} ] |} ]};
     SheetsLog := [] |}.

(** The first, default page of a spreadsheet has the identifier 0. *)
Definition exampleZeroSpreadsheet : Spreadsheet :=
  {| SpreadsheetTitle := "Attendance";
     Sheets := [ {| SheetId := 0; Title := "202402";
                    Cells := {[ ("D", 8) := "10:00" ]} |};
                 {| SheetId := 5; Title := "202401"; Cells := ∅ |} ] |}.

Definition exampleSheetsZero : SheetsRemote :=
  {| Documents := {[ "doc1" := exampleZeroSpreadsheet ]}; SheetsLog := [] |}.

(** A folder with two files of the target name, listed two files a page;
    a file of the same name elsewhere stays. *)
Definition exampleTemplate : File :=
  {| Id := "tpl"; Name := "Invoice yyyymm"; Parents := ["folder"] |}.

Definition exampleDrive : DriveRemote :=
  {| DriveFiles :=
       [ {| Id := "a"; Name := "Invoice 202402"; Parents := ["folder"] |};
         exampleTemplate;
         {| Id := "b"; Name := "Invoice 202401"; Parents := ["folder"] |};
         {| Id := "c"; Name := "Invoice 202402"; Parents := ["elsewhere"] |};
         {| Id := "d"; Name := "Invoice 202402"; Parents := ["folder"] |} ];
     PageSize := 2; DocUpdates := []; Downloads := [] |}.

(** A template that has no parent folder. *)
Definition exampleDriveOrphan : DriveRemote :=
  {| DriveFiles := [ {| Id := "tpl"; Name := "Invoice yyyymm"; Parents := [] |} ];
     PageSize := 100; DocUpdates := []; Downloads := [] |}.

(** The spreadsheets of [ids] are all there and settled. *)
Definition allSettled (targetTime : Time) (workDays : list Time)
    (config : Config) (docs : gmap string Spreadsheet) (ids : list string)
    : Prop :=
  forall id, In id ids ->
    exists sp, docs !! id = Some sp /\ settled targetTime workDays config sp.

(** ** The earlier extractor: [getCalendarSchedules]

    The first version of the program reads the calendar through a
    function that takes the label test as an argument; [None] is Go's
    [nil] filter. *)

Section GetCalendarSchedules.

Variable Parse_RFC3339 : string -> option Time.
Variable Parse_date : string -> option Time.

(** The loop over [events.Items], [items] being the slice built so far. *)
Fixpoint collectSchedules (targetTime : Time) (filter : option (Event -> bool))
    (events : list Event) (items : list Time) : outcome (list Time) :=
  match events with
  | [] => OK items
  | item :: events =>
      match resolveDate Parse_RFC3339 Parse_date item with
      | OK date =>
          if negb (Year date =? Year targetTime)
             || negb (Month date =? Month targetTime)
          then collectSchedules targetTime filter events items
          else if match filter with
                  | Some f => negb (f item)
                  | None => false
                  end
          then collectSchedules targetTime filter events items
          else collectSchedules targetTime filter events (items ++ [date])
      | Fatal msg => Fatal msg
      | Panic msg => Panic msg
      | Diverge => Diverge
      end
  end.

Definition getCalendarSchedules (events : option (list Event))
    (calendarID : string) (targetTime : Time)
    (filter : option (Event -> bool)) : outcome (list Time) :=
  match events with
  | None => Fatal "Failed to retrieve calendar items"
  | Some events => collectSchedules targetTime filter events []
  end.

End GetCalendarSchedules.

(** The lower bound both extractors send with the query:
    [targetTime.AddDate(0, -1, -1)]. *)
Definition eventsTimeMin (targetTime : Time) : Time :=
  AddDate targetTime 0 (-1) (-1).

(** The month two months before [(y, m)]. *)
Definition twoMonthsBefore (y m : Z) : Time :=
  previousMonth (Year (previousMonth y m)) (Month (previousMonth y m)).

(** The test that the day before the first of the previous month is the
    last day of the month two months before. *)
Definition timeMinCheck (y m : Z) : bool :=
  Time_eqb (Date y (m - 1) (1 - 1))
    (mkTime (Year (twoMonthsBefore y m)) (Month (twoMonthsBefore y m))
       (daysIn (Year (twoMonthsBefore y m)) (Month (twoMonthsBefore y m)))).

Definition timeMinYearCheck (y : Z) : bool :=
  forallb (timeMinCheck y) (zrange 1 12).

(** Whether the calendar item [item] puts the start time into row [i] of
    the attendance column. *)
Definition eventMarksDay (Parse_RFC3339 Parse_date : string -> option Time)
    (targetTime : Time) (config : Config) (i : Z) (item : Event) : bool :=
  match resolveDate Parse_RFC3339 Parse_date item with
  | OK date =>
      (Year date =? Year targetTime) && (Month date =? Month targetTime)
      && String.eqb (Summary item) (WorkDayTitle config)
      && (Day date =? i)
  | _ => false
  end.

(** A table standing for [time.Parse] on the starts of the example
    events. *)
Definition exampleParseTime (s : string) : option Time :=
  if String.eqb s "2024-02-03T09:00:00+09:00" then Some (mkTime 2024 2 3)
  else if String.eqb s "2024-01-31T09:00:00+09:00" then Some (mkTime 2024 1 31)
  else None.

Definition exampleParseDay (s : string) : option Time :=
  if String.eqb s "2024-02-10" then Some (mkTime 2024 2 10)
  else if String.eqb s "2024-02-11" then Some (mkTime 2024 2 11)
  else None.

Definition exampleEvents : list Event :=
  [ {| Start_DateTime := "2024-01-31T09:00:00+09:00"; Start_Date := "";
       Summary := "work" |};
    {| Start_DateTime := "2024-02-03T09:00:00+09:00"; Start_Date := "";
       Summary := "work" |};
    {| Start_DateTime := ""; Start_Date := "2024-02-10"; Summary := "work" |};
    {| Start_DateTime := ""; Start_Date := "2024-02-11";
       Summary := "holiday" |} ].

(** An all-day event whose date cannot be read. *)
Definition exampleBadEvent : Event :=
  {| Start_DateTime := ""; Start_Date := "10 Feb"; Summary := "work" |}.

(** ** Frames of the synchroniser *)

(** A computation that leaves every spreadsheet but [id] as it is,
    however it ends. *)
Definition touchesOnly {A} (id : string) (c : SheetsRemote -> SheetsRemote * A)
    : Prop :=
  forall st id', id' <> id -> Documents (fst (c st)) !! id' = Documents st !! id'.

(** The cells one run writes: M3 and D7 to D37. *)
Definition writtenCell (col : string) (row : Z) : bool :=
  (String.eqb col "M" && (row =? 3))
  || (String.eqb col "D" && (7 <=? row) && (row <=? 37)).

(** ** The template's vocabulary *)

(** The vocabulary of the template: the 28 tokens a batch addresses. *)
Definition placeholderTokens : list string :=
  (["{{year}}"; "{{month}}"; "{{day}}"; "{{totalHours}}"]
   ++ flat_map (fun i => [Sprintf_day i; Sprintf_dayHours i]) (zrange 1 12))%list.

(** Tests on lists of strings: no repeat, and every element of the first
    among the second. *)
Fixpoint distinctStrings (l : list string) : bool :=
  match l with
  | [] => true
  | x :: l => negb (existsb (String.eqb x) l) && distinctStrings l
  end.

Definition allAmong (l1 l2 : list string) : bool :=
  forallb (fun x => existsb (String.eqb x) l2) l1.

(** ** Further example stores *)

(** Three spreadsheets, the second without a page to copy. *)
Definition exampleSheetsTwo : SheetsRemote :=
  {| Documents :=
       {[ "doc1" :=
            {| SpreadsheetTitle := "Attendance";
               Sheets := [ {| SheetId := 7; Title := "202401"; Cells := ∅ |} ] |};
          "doc2" :=
            {| SpreadsheetTitle := "Old";
               Sheets := [ {| SheetId := 3; Title := "202311"; Cells := ∅ |} ] |};
          "doc3" :=
            {| SpreadsheetTitle := "Later";
               Sheets := [ {| SheetId := 4; Title := "202401"; Cells := ∅ |} ] |} ]};
     SheetsLog := [] |}.

Definition exampleConfigThree : Config :=
  {| CalendarID := "cal"; WorkDayTitle := "work"; WorkStartTime := "09:00";
     WorkSpreadsheetIDs := ["doc1"; "doc2"; "doc3"];
     WorkDocumentTemplateID := "tpl" |}.

(** A template whose name holds no [yyyymm]. *)
Definition exampleDrivePlain : DriveRemote :=
  {| DriveFiles :=
       [ {| Id := "tpl"; Name := "Invoice"; Parents := ["folder"] |};
         {| Id := "b"; Name := "Invoice 202401"; Parents := ["folder"] |} ];
     PageSize := 2; DocUpdates := []; Downloads := [] |}.

(** ** The driver

    [main] from the point where the target month, the configuration and
    the HTTP client are at hand: the month is set to its first day, then
    the work days are read, the spreadsheets synchronised and the
    document made, in this order; a [log.Fatalf] in one step ends the
    process before the next.  The two remote stores sit side by side;
    [events] is the calendar's answer. *)

Record Remotes := { SheetsSide : SheetsRemote; DriveSide : DriveRemote }.

Definition onSheets {A} (c : M SheetsRemote A) : M Remotes A :=
  fun w =>
    let (st, o) := c (SheetsSide w) in
    ({| SheetsSide := st; DriveSide := DriveSide w |}, o).

Definition onDrive {A} (c : M DriveRemote A) : M Remotes A :=
  fun w =>
    let (st, o) := c (DriveSide w) in
    ({| SheetsSide := SheetsSide w; DriveSide := st |}, o).

(** A step that touches no store. *)
Definition ended {S A} (o : outcome A) : M S A := fun st => (st, o).

Definition main (Parse_RFC3339 Parse_date : string -> option Time)
    (fuel : nat) (events : option (list Event)) (targetTime : Time)
    (config : Config) : M Remotes unit :=
  let targetTime := normalizeTargetTime targetTime in
  let* days :=
    ended (getWorkDays Parse_RFC3339 Parse_date events targetTime config) in
  onSheets (updateAndDownloadWorkSpreadsheets targetTime days config) ;;;
  onDrive (updateAndDownloadWorkDocuments fuel targetTime config).

(** Two stores for a whole run. *)
Definition exampleRemotes : Remotes :=
  {| SheetsSide := exampleSheets; DriveSide := exampleDrive |}.

Arguments Date : simpl never.
Arguments AddDate : simpl never.
Arguments weekday : simpl never.
Arguments Format_200601 : simpl never.
Arguments Format_2006_01_02 : simpl never.
Arguments workTimeValues : simpl never.

(** * Theorems *)

(** ** The calendar *)

Example ex_feb_2024_thursday : weekday (mkTime 2024 2 1) = Thursday.
Proof. reflexivity. Qed.

Example ex_last_feb_2024 : AddDate (mkTime 2024 2 1) 0 1 (-1) = mkTime 2024 2 29.
Proof. reflexivity. Qed.

Example ex_prev_jan : Format_200601 (AddDate (mkTime 2024 1 1) 0 (-1) 0) = "202312".
Proof. reflexivity. Qed.

Example ex_fmt : Format_2006_01_02 (mkTime 2024 2 1) = "2024/02/01".
Proof. reflexivity. Qed.

Lemma In_zrange lo n x : lo <= x < lo + Z.of_nat n -> In x (zrange lo n).
Proof.
  intros H. unfold zrange. apply in_map_iff.
  exists (Z.to_nat (x - lo)). split; [lia|].
  apply in_seq. lia.
Qed.

Lemma zrange_S lo n : zrange lo (S n) = lo :: zrange (lo + 1) n.
Proof.
  unfold zrange. cbn [seq map]. f_equal; [lia|].
  rewrite <- seq_shift, map_map. apply map_ext. intros k. lia.
Qed.

Lemma Time_eqb_eq a b : Time_eqb a b = true -> a = b.
Proof.
  destruct a, b. unfold Time_eqb. cbn.
  rewrite !andb_true_iff, !Z.eqb_eq. intros [[-> ->] ->]. reflexivity.
Qed.

Lemma isLeap_shift y k : isLeap (y + 400 * k) = isLeap y.
Proof.
  unfold isLeap.
  replace (y + 400 * k) with (y + (100 * k) * 4) at 1 by lia.
  replace (y + 400 * k) with (y + (4 * k) * 100) at 1 by lia.
  replace (y + 400 * k) with (y + k * 400) by lia.
  rewrite !Z.mod_add by lia. reflexivity.
Qed.

Lemma daysSinceEpoch_shift y k :
  daysSinceEpoch (y + 400 * k) = daysSinceEpoch y + daysPer400Years * k.
Proof.
  unfold daysSinceEpoch. cbv zeta.
  replace (y + 400 * k - 1) with (y - 1 + k * 400) by lia.
  rewrite Z.div_add by lia.
  replace (y - 1 + k * 400 - 400 * ((y - 1) / 400 + k))
    with (y - 1 - 400 * ((y - 1) / 400)) by lia.
  lia.
Qed.

Lemma absDays_shift y m d k :
  absDays (y + 400 * k) m d = absDays y m d + daysPer400Years * k.
Proof.
  unfold absDays. cbv zeta.
  replace (y + 400 * k + (m - 1) / 12) with (y + (m - 1) / 12 + 400 * k) by lia.
  rewrite daysSinceEpoch_shift, isLeap_shift. lia.
Qed.

Lemma absDate_shift n k :
  absDate (n + daysPer400Years * k) = shiftYears (400 * k) (absDate n).
Proof.
  unfold absDate. cbv zeta.
  replace (n + daysPer400Years * k) with (n + k * daysPer400Years) by lia.
  rewrite Z.div_add by (unfold daysPer400Years; lia).
  replace (n + k * daysPer400Years - daysPer400Years * (n / daysPer400Years + k))
    with (n - daysPer400Years * (n / daysPer400Years)) by lia.
  set (d := n - daysPer400Years * (n / daysPer400Years)).
  set (q := n / daysPer400Years).
  set (n1 := d / daysPer100Years - d / daysPer100Years / 4).
  set (d1 := d - daysPer100Years * n1).
  set (n2 := d1 / daysPer4Years).
  set (d2 := d1 - daysPer4Years * n2).
  set (n3 := d2 / 365 - d2 / 365 / 4).
  set (d3 := d2 - 365 * n3).
  replace (400 * (q + k) + 100 * n1 + 4 * n2 + n3 + 1)
    with (400 * q + 100 * n1 + 4 * n2 + n3 + 1 + 400 * k) by lia.
  rewrite isLeap_shift.
  set (yr := 400 * q + 100 * n1 + 4 * n2 + n3 + 1).
  destruct (isLeap yr && (d3 =? 31 + 29 - 1)); [reflexivity|].
  destruct (isLeap yr && (31 + 29 - 1 <? d3));
    match goal with
    | |- context [if ?c then _ else _] => destruct c
    end; reflexivity.
Qed.

Lemma Date_shift y m d k :
  Date (y + 400 * k) m d = shiftYears (400 * k) (Date y m d).
Proof. unfold Date. rewrite absDays_shift. apply absDate_shift. Qed.

Lemma daysIn_shift y m k : daysIn (y + 400 * k) m = daysIn y m.
Proof. unfold daysIn. rewrite isLeap_shift. reflexivity. Qed.

Lemma previousMonth_shift y m k :
  previousMonth (y + 400 * k) m = shiftYears (400 * k) (previousMonth y m).
Proof.
  unfold previousMonth, shiftYears. destruct (m =? 1); cbn; f_equal; lia.
Qed.

Lemma forallb_pointwise {A} (f g : A -> bool) (l : list A) :
  (forall x, f x = g x) -> forallb f l = forallb g l.
Proof. intros H. induction l as [|x l IH]; cbn; [reflexivity|]. now rewrite H, IH. Qed.

Lemma Time_eqb_shift k a b :
  Time_eqb (shiftYears k a) (shiftYears k b) = Time_eqb a b.
Proof.
  destruct a as [ya ma da], b as [yb mb db]. unfold Time_eqb, shiftYears.
  cbn [Year Month Day]. f_equal; f_equal.
  apply eq_iff_eq_true. rewrite !Z.eqb_eq. lia.
Qed.

Lemma Month_shiftYears k t : Month (shiftYears k t) = Month t.
Proof. reflexivity. Qed.

Lemma mkTime_shiftYears y k m d :
  mkTime (y + k) m d = shiftYears k (mkTime y m d).
Proof. reflexivity. Qed.

Lemma dayCheck_shift y m d k : dayCheck (y + 400 * k) m d = dayCheck y m d.
Proof.
  unfold dayCheck.
  rewrite Date_shift, daysIn_shift, mkTime_shiftYears, Time_eqb_shift.
  reflexivity.
Qed.

Lemma monthCheck_shift y m k : monthCheck (y + 400 * k) m = monthCheck y m.
Proof.
  unfold monthCheck.
  rewrite !Date_shift, daysIn_shift, previousMonth_shift.
  rewrite mkTime_shiftYears, !Time_eqb_shift, Month_shiftYears.
  f_equal. apply forallb_pointwise. intros d. apply dayCheck_shift.
Qed.

Lemma calendarCheck_shift y k : calendarCheck (y + 400 * k) = calendarCheck y.
Proof.
  unfold calendarCheck. apply forallb_pointwise. intros m.
  apply monthCheck_shift.
Qed.

Lemma calendarCheck_cycle : forallb calendarCheck (zrange 0 400) = true.
Proof. vm_compute. reflexivity. Qed.

Lemma calendarCheck_all y : calendarCheck y = true.
Proof.
  replace y with (y mod 400 + 400 * (y / 400))
    by (pose proof (Z.div_mod y 400); lia).
  rewrite calendarCheck_shift.
  pose proof calendarCheck_cycle as H.
  rewrite forallb_forall in H. apply H.
  apply In_zrange. pose proof (Z.mod_pos_bound y 400). lia.
Qed.

(** The tests unfolded, as equations to rewrite with. *)
Lemma calendarCheck_unfold y :
  forallb (monthCheck y) (zrange 1 12) = calendarCheck y.
Proof. unfold calendarCheck. reflexivity. Qed.

Lemma monthCheck_unfold y m :
  Time_eqb (Date y (m + 1) (1 - 1)) (mkTime y m (daysIn y m))
  && Time_eqb (Date y (m - 1) 1) (previousMonth y m)
  && negb (Month (Date y m (daysIn y m + 1)) =? m)
  && forallb (dayCheck y m) (zrange 1 31) = monthCheck y m.
Proof. unfold monthCheck. reflexivity. Qed.

Lemma dayCheck_unfold y m d :
  (daysIn y m <? d) || Time_eqb (Date y m d) (mkTime y m d) = dayCheck y m d.
Proof. unfold dayCheck. reflexivity. Qed.

Lemma monthCheck_all y m : 1 <= m <= 12 -> monthCheck y m = true.
Proof.
  intros Hm.
  assert (In m (zrange 1 12)) as Hin by (apply In_zrange; lia).
  pose proof (calendarCheck_all y) as H.
  rewrite <- calendarCheck_unfold in H.
  rewrite forallb_forall in H.
  exact (H m Hin).
Qed.

Lemma monthCheck_parts y m :
  1 <= m <= 12 ->
  Date y (m + 1) (1 - 1) = mkTime y m (daysIn y m)
  /\ Date y (m - 1) 1 = previousMonth y m
  /\ Month (Date y m (daysIn y m + 1)) <> m
  /\ forallb (dayCheck y m) (zrange 1 31) = true.
Proof.
  intros Hm. pose proof (monthCheck_all y m Hm) as H.
  rewrite <- monthCheck_unfold in H.
  apply andb_prop in H. destruct H as [H H4].
  apply andb_prop in H. destruct H as [H H3].
  apply andb_prop in H. destruct H as [H1 H2].
  repeat split.
  - apply Time_eqb_eq, H1.
  - apply Time_eqb_eq, H2.
  - apply negb_true_iff, Z.eqb_neq in H3. exact H3.
  - exact H4.
Qed.

Lemma daysIn_bounds y m : 28 <= daysIn y m <= 31.
Proof.
  unfold daysIn. destruct (isLeap y).
  all: destruct m as [|p|p]; try lia.
  all: do 4 (try destruct p as [p|p|]); lia.
Qed.

Lemma Date_valid y m d :
  1 <= m <= 12 -> 1 <= d <= daysIn y m -> Date y m d = mkTime y m d.
Proof.
  intros Hm Hd. destruct (monthCheck_parts y m Hm) as (_ & _ & _ & H).
  pose proof (daysIn_bounds y m).
  assert (In d (zrange 1 31)) as Hin by (apply In_zrange; lia).
  pose proof (proj1 (forallb_forall (dayCheck y m) (zrange 1 31)) H d Hin) as Hc.
  rewrite <- dayCheck_unfold in Hc. apply orb_prop in Hc. destruct Hc as [Hc | Hc].
  - apply Z.ltb_lt in Hc. lia.
  - apply Time_eqb_eq, Hc.
Qed.

Lemma Date_last_day y m :
  1 <= m <= 12 -> Date y (m + 1) (1 - 1) = mkTime y m (daysIn y m).
Proof. intros Hm. apply (monthCheck_parts y m Hm). Qed.

Lemma Date_previous_month y m :
  1 <= m <= 12 -> Date y (m - 1) 1 = previousMonth y m.
Proof. intros Hm. apply (monthCheck_parts y m Hm). Qed.

Lemma Date_after_last y m :
  1 <= m <= 12 -> Month (Date y m (daysIn y m + 1)) <> m.
Proof. intros Hm. apply (monthCheck_parts y m Hm). Qed.

(** ** The weekday-slot walk *)

Lemma zrange_In lo n x : In x (zrange lo n) -> lo <= x < lo + Z.of_nat n.
Proof.
  unfold zrange. rewrite in_map_iff. intros (k & <- & Hk).
  apply in_seq in Hk. lia.
Qed.

(** The loop of the program walks the dates of the month one by one and
    leaves when the month is over. *)
Lemma walkDays_walkList n : forall y m a i req fuel,
  1 <= m <= 12 -> 1 <= a -> a + Z.of_nat n = daysIn y m + 1 ->
  (n < fuel)%nat ->
  walkDays fuel (mkTime y m 1) (Date y m a) i req
  = Some (walkList (map (mkTime y m) (zrange a n)) i req).
Proof.
  induction n as [|n IH]; intros y m a i req fuel Hm Ha Hn Hf.
  - destruct fuel as [|fuel]; [lia|]. cbn [walkDays zrange seq map walkList Month].
    replace a with (daysIn y m + 1) by lia.
    pose proof (Date_after_last y m Hm) as Hne.
    apply Z.eqb_neq in Hne. rewrite Hne, orb_true_r. reflexivity.
  - destruct fuel as [|fuel]; [lia|].
    rewrite zrange_S. cbn [map walkList walkDays Month].
    rewrite (Date_valid y m a) by lia. cbn [Month].
    rewrite Z.eqb_refl, orb_false_r.
    destruct (12 <? i); [reflexivity|].
    unfold AddDate. cbn [Year Month Day]. rewrite !Z.add_0_r.
    destruct (weekday (mkTime y m a)); cbn [isWorkWeekday];
      apply IH; lia.
Qed.

Lemma walkList_spec ds : forall i req,
  walkList ds i req
  = let sel :=
      firstn (Z.to_nat (13 - i))
        (List.filter (fun d => isWorkWeekday (weekday d)) ds) in
    (i + Z.of_nat (length sel),
     (req ++ filledSlots i (map Format_1_2 sel))%list).
Proof.
  induction ds as [|d ds IH]; intros i req; cbv zeta.
  - cbn [walkList List.filter]. rewrite firstn_nil.
    cbn [length map filledSlots Z.of_nat]. now rewrite app_nil_r, Z.add_0_r.
  - cbn [walkList List.filter]. destruct (12 <? i) eqn:Hi.
    + apply Z.ltb_lt in Hi. replace (Z.to_nat (13 - i)) with 0%nat by lia.
      cbn [firstn length map filledSlots Z.of_nat].
      now rewrite app_nil_r, Z.add_0_r.
    + apply Z.ltb_ge in Hi.
      destruct (isWorkWeekday (weekday d)).
      * rewrite IH. cbv zeta.
        replace (Z.to_nat (13 - i)) with (S (Z.to_nat (13 - (i + 1)))) by lia.
        cbn [firstn length map filledSlots].
        rewrite <- app_assoc. cbn [app]. f_equal. lia.
      * apply IH.
Qed.

Lemma blankSlots_spec n : forall i req,
  blankSlots n i req = (req ++ blankedSlots n i)%list.
Proof.
  induction n as [|n IH]; intros i req; cbn [blankSlots blankedSlots].
  - now rewrite app_nil_r.
  - rewrite IH, <- app_assoc. reflexivity.
Qed.

Lemma slotDates_length y m : (length (slotDates y m) <= 12)%nat.
Proof. unfold slotDates. rewrite length_firstn. lia. Qed.

(** The batch of the program, spelled out. *)
Lemma placeholderRequests_spec y m fuel :
  1 <= m <= 12 -> (32 <= fuel)%nat ->
  placeholderRequests fuel (mkTime y m 1)
  = Some (batchFor (mkTime y m 1) (slotDates y m)).
Proof.
  intros Hm Hf. unfold placeholderRequests.
  pose proof (daysIn_bounds y m) as Hb.
  pose proof (walkDays_walkList (Z.to_nat (daysIn y m)) y m 1 1
                [makeReplaceRequest "{{year}}" (Format_2006 (mkTime y m 1));
                 makeReplaceRequest "{{month}}" (Format_1 (mkTime y m 1));
                 makeReplaceRequest "{{day}}"
                   (Format_2 (AddDate (mkTime y m 1) 0 1 (-1)))]
                fuel Hm) as H.
  rewrite (Date_valid y m 1) in H by lia.
  rewrite H by lia. clear H.
  rewrite walkList_spec. cbv zeta.
  change (Z.to_nat (13 - 1)) with 12%nat.
  fold (monthDays y m). fold (slotDates y m).
  pose proof (slotDates_length y m) as Hl.
  cbv iota beta. rewrite blankSlots_spec. unfold batchFor, strconv_Itoa.
  replace (Z.to_nat (12 - (1 + Z.of_nat (length (slotDates y m))) + 1))
    with (12 - length (slotDates y m))%nat by lia.
  replace ((1 + Z.of_nat (length (slotDates y m)) - 1) * 8)
    with (8 * Z.of_nat (length (slotDates y m))) by lia.
  replace (1 + Z.of_nat (length (slotDates y m)))
    with (Z.of_nat (length (slotDates y m)) + 1) by lia.
  rewrite <- !app_assoc. reflexivity.
Qed.

(** Case analysis on a list of at most [n] elements. *)
Ltac split_list l n :=
  match n with
  | O => idtac
  | S ?k => destruct l as [|? l]; [ | split_list l k]
  end.

Lemma textsFor_app key l1 l2 :
  textsFor key (l1 ++ l2) = (textsFor key l1 ++ textsFor key l2)%list.
Proof. unfold textsFor. now rewrite List.filter_app, map_app. Qed.

(** Each of the 24 slot tokens and the total occur once in a batch, with
    the text of their slot. *)
Lemma textsFor_batch targetTime dates i :
  (length dates <= 12)%nat -> 1 <= i <= 12 ->
  textsFor (Sprintf_day i) (batchFor targetTime dates) = [slotDayText dates i]
  /\ textsFor (Sprintf_dayHours i) (batchFor targetTime dates)
     = [slotHoursText dates i].
Proof.
  intros Hl Hi. unfold batchFor.
  generalize (Format_2006 targetTime) (Format_1 targetTime)
    (Format_2 (AddDate targetTime 0 1 (-1))).
  intros h1 h2 h3.
  generalize (strconv_Itoa (8 * Z.of_nat (length dates))). intros tot.
  unfold slotDayText, slotHoursText.
  assert (forall n, nth_error (map Format_1_2 dates) n
                    = option_map Format_1_2 (nth_error dates n)) as Hn
    by (intros n; apply nth_error_map).
  assert (Hd : forall n, match nth_error dates n with
                         | Some d => Format_1_2 d | None => "" end
                         = nth n (map Format_1_2 dates) "").
  { intros n. specialize (Hn n). destruct (nth_error dates n) eqn:E.
    - symmetry. apply nth_error_nth with (d := ""). rewrite Hn. reflexivity.
    - symmetry. apply nth_overflow. rewrite length_map.
      apply nth_error_None. exact E. }
  assert (Hh : forall n, match nth_error dates n with
                         | Some _ => "8" | None => "" end
                         = if (n <? length (map Format_1_2 dates))%nat
                           then "8" else "").
  { intros n. rewrite length_map. destruct (nth_error dates n) eqn:E.
    - assert (n < length dates)%nat by (apply nth_error_Some; congruence).
      destruct (Nat.ltb_spec n (length dates)); [reflexivity | lia].
    - apply nth_error_None in E.
      destruct (Nat.ltb_spec n (length dates)); [lia | reflexivity]. }
  rewrite Hd, Hh. clear Hn Hd Hh.
  replace (length dates) with (length (map Format_1_2 dates))
    by apply length_map.
  assert (length (map Format_1_2 dates) <= 12)%nat as Hl'
    by (rewrite length_map; exact Hl).
  clear Hl. revert Hl'. generalize (map Format_1_2 dates). intros texts Hl.
  assert (i = 1 \/ i = 2 \/ i = 3 \/ i = 4 \/ i = 5 \/ i = 6 \/ i = 7
          \/ i = 8 \/ i = 9 \/ i = 10 \/ i = 11 \/ i = 12) as Hc by lia.
  clear Hi.
  split_list texts 13%nat.
  14: (cbn [length] in Hl; lia).
  all: clear Hl.
  all: repeat (destruct Hc as [-> | Hc]; [split; vm_compute; reflexivity|]).
  all: subst i; split; vm_compute; reflexivity.
Qed.

Lemma textsFor_totalHours targetTime dates :
  (length dates <= 12)%nat ->
  textsFor "{{totalHours}}" (batchFor targetTime dates)
  = [strconv_Itoa (8 * Z.of_nat (length dates))].
Proof.
  intros Hl. unfold batchFor.
  generalize (Format_2006 targetTime) (Format_1 targetTime)
    (Format_2 (AddDate targetTime 0 1 (-1))).
  intros h1 h2 h3.
  generalize (strconv_Itoa (8 * Z.of_nat (length dates))). intros tot.
  replace (length dates) with (length (map Format_1_2 dates))
    by apply length_map.
  assert (length (map Format_1_2 dates) <= 12)%nat as Hl'
    by (rewrite length_map; exact Hl).
  clear Hl. revert Hl'. generalize (map Format_1_2 dates). intros texts Hl.
  split_list texts 13%nat.
  14: (cbn [length] in Hl; lia).
  all: vm_compute; reflexivity.
Qed.

Lemma StronglySorted_monthDays y m lo n :
  StronglySorted (fun a b => Day a < Day b) (map (mkTime y m) (zrange lo n)).
Proof.
  revert lo. induction n as [|n IH]; intros lo.
  - constructor.
  - rewrite zrange_S. cbn [map]. constructor; [apply IH|].
    apply List.Forall_forall. intros d Hd. apply in_map_iff in Hd.
    destruct Hd as (j & <- & Hj). apply zrange_In in Hj. cbn [Day]. lia.
Qed.

Lemma StronglySorted_sublist {A} (R : A -> A -> Prop) (f : A -> bool) l :
  StronglySorted R l -> StronglySorted R (List.filter f l).
Proof.
  induction 1 as [|x l Hs IH Hx]; cbn [List.filter]; [constructor|].
  destruct (f x); [|exact IH]. constructor; [exact IH|].
  rewrite List.Forall_forall in *. intros z Hz. apply Hx.
  apply filter_In in Hz. tauto.
Qed.

Lemma In_firstn {A} (x : A) n l : In x (firstn n l) -> In x l.
Proof.
  revert l. induction n as [|n IH]; intros [|z l]; cbn [firstn In];
    try tauto.
  intros [-> | H]; [now left | right; now apply IH].
Qed.

Lemma StronglySorted_firstn {A} (R : A -> A -> Prop) n l :
  StronglySorted R l -> StronglySorted R (firstn n l).
Proof.
  revert l. induction n as [|n IH]; intros l Hs; [constructor|].
  destruct Hs as [|x l Hs Hx]; cbn [firstn]; [constructor|].
  constructor; [now apply IH|].
  rewrite List.Forall_forall in *. intros z Hz. apply Hx. now apply In_firstn in Hz.
Qed.

Lemma slotDates_sorted y m :
  StronglySorted (fun a b => Day a < Day b) (slotDates y m).
Proof.
  unfold slotDates, monthDays.
  apply StronglySorted_firstn, StronglySorted_sublist, StronglySorted_monthDays.
Qed.

Lemma slotDates_In y m d :
  In d (slotDates y m) ->
  Year d = y /\ Month d = m /\ 1 <= Day d <= daysIn y m
  /\ isWorkWeekday (weekday d) = true.
Proof.
  unfold slotDates, monthDays. intros H. apply In_firstn in H.
  apply filter_In in H. destruct H as [H Hw].
  apply in_map_iff in H. destruct H as (j & <- & Hj).
  apply zrange_In in Hj. pose proof (daysIn_bounds y m).
  cbn [Year Month Day]. repeat split; try lia. exact Hw.
Qed.

Lemma isWorkWeekday_spec w :
  isWorkWeekday w = true <-> w = Monday \/ w = Wednesday \/ w = Friday.
Proof.
  destruct w; cbn; split; intros H; try reflexivity; try discriminate;
    try tauto; destruct H as [H | [H | H]]; discriminate.
Qed.

Lemma slotDayText_cases dates i d0 :
  1 <= i ->
  slotDayText dates i
  = if i <=? Z.of_nat (length dates)
    then Format_1_2 (nth (Z.to_nat (i - 1)) dates d0) else "".
Proof.
  intros Hi. unfold slotDayText.
  destruct (nth_error dates (Z.to_nat (i - 1))) eqn:E.
  - assert (Z.to_nat (i - 1) < length dates)%nat
      by (apply nth_error_Some; congruence).
    destruct (Z.leb_spec i (Z.of_nat (length dates))); [|lia].
    f_equal. symmetry. now apply nth_error_nth.
  - apply nth_error_None in E.
    destruct (Z.leb_spec i (Z.of_nat (length dates))); [lia|reflexivity].
Qed.

Lemma slotHoursText_cases dates i :
  1 <= i ->
  slotHoursText dates i = if i <=? Z.of_nat (length dates) then "8" else "".
Proof.
  intros Hi. unfold slotHoursText.
  destruct (nth_error dates (Z.to_nat (i - 1))) eqn:E.
  - assert (Z.to_nat (i - 1) < length dates)%nat
      by (apply nth_error_Some; congruence).
    destruct (Z.leb_spec i (Z.of_nat (length dates))); [reflexivity|lia].
  - apply nth_error_None in E.
    destruct (Z.leb_spec i (Z.of_nat (length dates))); [lia|reflexivity].
Qed.

(** C1: for every target month the weekday-slot walk fills the slots
    1..k with the Mondays, Wednesdays and Fridays of that month in strictly
    increasing date order, k being the number of such dates capped at 12;
    the slots k+1..12 are blanked, each of the 24 slot tokens gets exactly
    one request, and the total is 8*k. *)
Theorem walk_fills_slots (y m : Z) (fuel : nat) :
  1 <= m <= 12 -> (32 <= fuel)%nat ->
  let targetTime := mkTime y m 1 in
  let dates := slotDates y m in
  let k := Z.of_nat (length dates) in
  exists req : list Request,
    placeholderRequests fuel targetTime = Some req
    /\ (forall d, In d dates ->
          Year d = y /\ Month d = m /\ 1 <= Day d <= daysIn y m
          /\ (weekday d = Monday \/ weekday d = Wednesday
              \/ weekday d = Friday))
    /\ StronglySorted (fun a b => Day a < Day b) dates
    /\ length dates
       = Nat.min 12
           (length (List.filter (fun d => isWorkWeekday (weekday d))
                      (monthDays y m)))
    /\ (forall i, 1 <= i <= 12 ->
          textsFor (Sprintf_day i) req
          = [if i <=? k
             then Format_1_2 (nth (Z.to_nat (i - 1)) dates targetTime)
             else ""]
          /\ textsFor (Sprintf_dayHours i) req = [if i <=? k then "8" else ""])
    /\ textsFor "{{totalHours}}" req = [strconv_Itoa (8 * k)].
Proof.
  intros Hm Hf targetTime dates k.
  exists (batchFor targetTime dates).
  pose proof (slotDates_length y m) as Hl.
  split; [apply placeholderRequests_spec; assumption|].
  split.
  { intros d Hd. apply slotDates_In in Hd.
    rewrite isWorkWeekday_spec in Hd. exact Hd. }
  split; [apply slotDates_sorted|].
  split.
  { unfold dates, slotDates. rewrite length_firstn. reflexivity. }
  split.
  - intros i Hi.
    destruct (textsFor_batch targetTime dates i Hl Hi) as [H1 H2].
    rewrite H1, H2.
    rewrite (slotDayText_cases dates i targetTime) by lia.
    rewrite slotHoursText_cases by lia. split; reflexivity.
  - apply textsFor_totalHours. exact Hl.
Qed.

(** A month of 31 days that starts on a Monday has 14 such dates; the walk
    keeps the first 12. *)
Example walk_caps_at_12 :
  length (List.filter (fun d => isWorkWeekday (weekday d)) (monthDays 2024 7))
  = 14%nat
  /\ map Format_1_2 (slotDates 2024 7)
     = ["7/1"; "7/3"; "7/5"; "7/8"; "7/10"; "7/12"; "7/15"; "7/17"; "7/19";
        "7/22"; "7/24"; "7/26"].
Proof. split; vm_compute; reflexivity. Qed.

Lemma walk_fills_slots_witness :
  exists req : list Request,
    placeholderRequests 32 (mkTime 2024 7 1) = Some req
    /\ textsFor (Sprintf_day 12) req = ["7/26"]
    /\ textsFor "{{totalHours}}" req = ["96"].
Proof.
  destruct (walk_fills_slots 2024 7 32) as (req & H1 & _ & _ & _ & H5 & H6);
    [lia | lia |].
  exists req. split; [exact H1|]. split.
  - destruct (H5 12) as [H _]; [lia|]. rewrite H. vm_compute. reflexivity.
  - rewrite H6. vm_compute. reflexivity.
Defined.

(** ** February 2024 *)

(** C5: for February 2024 the walk selects the twelve dates
    2, 5, 7, 9, 12, 14, 16, 19, 21, 23, 26 and 28 February, fills the
    slots 1..12 with them, blanks none, and the total is 96. *)
Theorem walk_february_2024 (fuel : nat) :
  (32 <= fuel)%nat ->
  map Day (slotDates 2024 2) = [2; 5; 7; 9; 12; 14; 16; 19; 21; 23; 26; 28]
  /\ placeholderRequests fuel (mkTime 2024 2 1)
     = Some
         [makeReplaceRequest "{{year}}" "2024";
          makeReplaceRequest "{{month}}" "2";
          makeReplaceRequest "{{day}}" "29";
          makeReplaceRequest "{{day1}}" "2/2";
          makeReplaceRequest "{{day1Hours}}" "8";
          makeReplaceRequest "{{day2}}" "2/5";
          makeReplaceRequest "{{day2Hours}}" "8";
          makeReplaceRequest "{{day3}}" "2/7";
          makeReplaceRequest "{{day3Hours}}" "8";
          makeReplaceRequest "{{day4}}" "2/9";
          makeReplaceRequest "{{day4Hours}}" "8";
          makeReplaceRequest "{{day5}}" "2/12";
          makeReplaceRequest "{{day5Hours}}" "8";
          makeReplaceRequest "{{day6}}" "2/14";
          makeReplaceRequest "{{day6Hours}}" "8";
          makeReplaceRequest "{{day7}}" "2/16";
          makeReplaceRequest "{{day7Hours}}" "8";
          makeReplaceRequest "{{day8}}" "2/19";
          makeReplaceRequest "{{day8Hours}}" "8";
          makeReplaceRequest "{{day9}}" "2/21";
          makeReplaceRequest "{{day9Hours}}" "8";
          makeReplaceRequest "{{day10}}" "2/23";
          makeReplaceRequest "{{day10Hours}}" "8";
          makeReplaceRequest "{{day11}}" "2/26";
          makeReplaceRequest "{{day11Hours}}" "8";
          makeReplaceRequest "{{day12}}" "2/28";
          makeReplaceRequest "{{day12Hours}}" "8";
          makeReplaceRequest "{{totalHours}}" "96"].
Proof.
  intros Hf. split; [vm_compute; reflexivity|].
  rewrite placeholderRequests_spec by (assumption || lia).
  vm_compute. reflexivity.
Qed.

Lemma walk_february_2024_witness :
  exists req, placeholderRequests 40 (mkTime 2024 2 1) = Some req
              /\ textsFor "{{day12}}" req = ["2/28"]
              /\ textsFor "{{totalHours}}" req = ["96"]
              /\ List.filter (fun r => String.eqb (ReplaceText r) "") req = [].
Proof.
  destruct (walk_february_2024 40) as [_ H]; [lia|].
  eexists. split; [exact H|]. repeat split; vm_compute; reflexivity.
Defined.

(** ** The target month and the header of the batch *)

Lemma yearTextCheck_unfold y :
  (String.length (appendInt y 4) =? 4)%nat
  && match atoi (appendInt y 4) with
     | Some v => v =? y
     | None => false
     end = yearTextCheck y.
Proof. unfold yearTextCheck. reflexivity. Qed.

Lemma yearTextCheck_all :
  forallb yearTextCheck (zrange 0 (Z.to_nat 10000)) = true.
Proof. vm_compute. reflexivity. Qed.

Lemma Format_2006_four_digits t :
  0 <= Year t <= 9999 ->
  String.length (Format_2006 t) = 4%nat /\ atoi (Format_2006 t) = Some (Year t).
Proof.
  intros Hy. unfold Format_2006.
  pose proof yearTextCheck_all as H. rewrite forallb_forall in H.
  assert (In (Year t) (zrange 0 (Z.to_nat 10000))) as Hin
    by (apply In_zrange; lia).
  specialize (H _ Hin). rewrite <- yearTextCheck_unfold in H.
  apply andb_prop in H. destruct H as [H1 H2].
  split; [now apply Nat.eqb_eq|].
  destruct (atoi (appendInt (Year t) 4)) as [v|]; [|discriminate].
  apply Z.eqb_eq in H2. now subst.
Qed.

Lemma textsFor_header targetTime dates :
  (length dates <= 12)%nat ->
  textsFor "{{year}}" (batchFor targetTime dates) = [Format_2006 targetTime]
  /\ textsFor "{{month}}" (batchFor targetTime dates) = [Format_1 targetTime]
  /\ textsFor "{{day}}" (batchFor targetTime dates)
     = [Format_2 (AddDate targetTime 0 1 (-1))].
Proof.
  intros Hl. unfold batchFor.
  generalize (Format_2006 targetTime) (Format_1 targetTime)
    (Format_2 (AddDate targetTime 0 1 (-1))).
  intros h1 h2 h3.
  generalize (strconv_Itoa (8 * Z.of_nat (length dates))). intros tot.
  replace (length dates) with (length (map Format_1_2 dates))
    by apply length_map.
  assert (length (map Format_1_2 dates) <= 12)%nat as Hl'
    by (rewrite length_map; exact Hl).
  clear Hl. revert Hl'. generalize (map Format_1_2 dates). intros texts Hl.
  split_list texts 13%nat.
  14: (cbn [length] in Hl; lia).
  all: repeat split; vm_compute; reflexivity.
Qed.

Lemma normalizeTargetTime_first t :
  1 <= Month t <= 12 ->
  normalizeTargetTime t = mkTime (Year t) (Month t) 1.
Proof.
  intros Hm. unfold normalizeTargetTime. apply Date_valid; [exact Hm|].
  pose proof (daysIn_bounds (Year t) (Month t)). lia.
Qed.

Lemma AddDate_last_day y m :
  1 <= m <= 12 ->
  AddDate (mkTime y m 1) 0 1 (-1) = mkTime y m (daysIn y m).
Proof.
  intros Hm. unfold AddDate. cbn [Year Month Day].
  rewrite Z.add_0_r. change (1 + -1) with (1 - 1).
  now apply Date_last_day.
Qed.

(** C8: the target month is normalised to day 1 of its month, and then
    [{{day}}] is replaced with the number of the last calendar day of the
    month, [{{year}}] with the year in four digits and [{{month}}] with the
    month number without a leading zero. *)
Theorem target_month_header (t : Time) (fuel : nat) :
  1 <= Month t <= 12 -> 0 <= Year t <= 9999 -> (32 <= fuel)%nat ->
  let targetTime := normalizeTargetTime t in
  targetTime = mkTime (Year t) (Month t) 1
  /\ AddDate targetTime 0 1 (-1)
     = mkTime (Year t) (Month t) (daysIn (Year t) (Month t))
  /\ exists req year month day,
       placeholderRequests fuel targetTime = Some req
       /\ textsFor "{{year}}" req = [year]
       /\ textsFor "{{month}}" req = [month]
       /\ textsFor "{{day}}" req = [day]
       /\ String.length year = 4%nat /\ atoi year = Some (Year t)
       /\ month = itoa (Month t) /\ atoi month = Some (Month t)
       /\ String.get 0 month <> Some "0"%char
       /\ day = itoa (daysIn (Year t) (Month t)).
Proof.
  intros Hm Hy Hf targetTime.
  assert (targetTime = mkTime (Year t) (Month t) 1) as Ht
    by (apply normalizeTargetTime_first; exact Hm).
  split; [exact Ht|]. rewrite Ht.
  split; [now apply AddDate_last_day|].
  pose proof (slotDates_length (Year t) (Month t)) as Hl.
  destruct (textsFor_header (mkTime (Year t) (Month t) 1)
              (slotDates (Year t) (Month t)) Hl) as (H1 & H2 & H3).
  eexists _, _, _, _.
  split; [now apply placeholderRequests_spec|].
  split; [exact H1|]. split; [exact H2|]. split; [exact H3|].
  destruct (Format_2006_four_digits (mkTime (Year t) (Month t) 1) Hy)
    as [Hlen Hval].
  split; [exact Hlen|]. split; [exact Hval|].
  unfold Format_1, Format_2. cbn [Month].
  rewrite AddDate_last_day by exact Hm. cbn [Day].
  split; [reflexivity|].
  assert (Month t = 1 \/ Month t = 2 \/ Month t = 3 \/ Month t = 4
          \/ Month t = 5 \/ Month t = 6 \/ Month t = 7 \/ Month t = 8
          \/ Month t = 9 \/ Month t = 10 \/ Month t = 11 \/ Month t = 12)
    as Hc by lia.
  split; [|split; [|reflexivity]].
  all: repeat (destruct Hc as [-> | Hc]; [vm_compute; congruence|]).
  all: rewrite Hc; vm_compute; congruence.
Qed.

Lemma target_month_header_witness :
  normalizeTargetTime (mkTime 2024 2 17) = mkTime 2024 2 1
  /\ AddDate (normalizeTargetTime (mkTime 2024 2 17)) 0 1 (-1)
     = mkTime 2024 2 29.
Proof.
  destruct (target_month_header (mkTime 2024 2 17) 32) as (H1 & H2 & _);
    cbn [Year Month]; try lia.
  split; [exact H1 | exact H2].
Defined.

(** ** The attendance column *)

Lemma workTimeValue_spec targetTime workDays start i :
  workTimeValue targetTime workDays start i
  = if existsb (isWorkDayAt targetTime i) workDays then start else "".
Proof.
  induction workDays as [|d l IH]; cbn [workTimeValue existsb]; [reflexivity|].
  unfold isWorkDayAt at 1.
  destruct ((Year targetTime =? Year d) && (Month targetTime =? Month d)
            && (i =? Day d)); [reflexivity | exact IH].
Qed.

Lemma workTimeRows_spec targetTime workDays start n : forall i values,
  workTimeRows targetTime workDays start n i values
  = (values
     ++ map (fun j => [workTimeValue targetTime workDays start j])
          (zrange i n))%list.
Proof.
  induction n as [|n IH]; intros i values; cbn [workTimeRows].
  - cbn. now rewrite app_nil_r.
  - rewrite IH, zrange_S, <- app_assoc. reflexivity.
Qed.

Lemma workTimeValues_spec targetTime workDays config :
  workTimeValues targetTime workDays config
  = map (fun j => [workTimeValue targetTime workDays (WorkStartTime config) j])
      (zrange 1 31).
Proof. unfold workTimeValues. now rewrite workTimeRows_spec. Qed.

Lemma nth_error_zrange lo n k :
  (k < n)%nat -> nth_error (zrange lo n) k = Some (lo + Z.of_nat k).
Proof.
  intros Hk. unfold zrange. rewrite nth_error_map.
  rewrite (nth_error_nth' (seq 0 n) 0%nat) by (now rewrite length_seq).
  rewrite seq_nth by exact Hk. reflexivity.
Qed.

Lemma existsb_same_elements {A} (f : A -> bool) l1 l2 :
  (forall x, In x l1 <-> In x l2) -> existsb f l1 = existsb f l2.
Proof.
  intros H. apply eq_iff_eq_true. rewrite !existsb_exists.
  split; intros (x & Hx & Hf); exists x; split; auto; now apply H.
Qed.

(** C2: the column has 31 cells; cell [i] is the work start time when some
    work day has the day index [i] and the year and month of the target
    month, and empty otherwise; the result depends on the dates in the
    list only, not on how often or where they occur. *)
Theorem attendance_column (targetTime : Time) (workDays : list Time)
    (config : Config) :
  let column := workTimeValues targetTime workDays config in
  length column = 31%nat
  /\ (forall i, 1 <= i <= 31 ->
        exists cell,
          nth_error column (Z.to_nat (i - 1)) = Some [cell]
          /\ ((exists d, In d workDays /\ Year d = Year targetTime
                         /\ Month d = Month targetTime /\ Day d = i)
              -> cell = WorkStartTime config)
          /\ (~ (exists d, In d workDays /\ Year d = Year targetTime
                           /\ Month d = Month targetTime /\ Day d = i)
              -> cell = ""))
  /\ (forall workDays',
        (forall d, In d workDays <-> In d workDays') ->
        workTimeValues targetTime workDays' config = column).
Proof.
  cbv zeta. rewrite workTimeValues_spec. split; [|split].
  - rewrite length_map. unfold zrange. now rewrite length_map, length_seq.
  - intros i Hi.
    exists (workTimeValue targetTime workDays (WorkStartTime config) i).
    split.
    + rewrite nth_error_map, nth_error_zrange by lia. cbn [option_map].
      do 3 f_equal. lia.
    + rewrite workTimeValue_spec.
      destruct (existsb (isWorkDayAt targetTime i) workDays) eqn:E.
      * split; [reflexivity|]. intros Hn. exfalso. apply Hn.
        apply existsb_exists in E. destruct E as (d & Hd & Hc).
        unfold isWorkDayAt in Hc. rewrite !andb_true_iff, !Z.eqb_eq in Hc.
        exists d. intuition congruence.
      * split; [|reflexivity]. intros (d & Hd & Hy & Hmo & Hday).
        assert (existsb (isWorkDayAt targetTime i) workDays = true) as E'.
        { apply existsb_exists. exists d. split; [exact Hd|].
          unfold isWorkDayAt. rewrite !andb_true_iff, !Z.eqb_eq. auto. }
        congruence.
  - intros workDays' Hsame. rewrite workTimeValues_spec.
    apply map_ext. intros j. rewrite !workTimeValue_spec.
    now rewrite (existsb_same_elements _ workDays' workDays)
      by (intros x; symmetry; apply Hsame).
Qed.

(** The scenario of two work days in February 2024, one of them twice. *)
Lemma attendance_column_witness :
  let targetTime := mkTime 2024 2 1 in
  let config :=
    {| CalendarID := "cal"; WorkDayTitle := "work"; WorkStartTime := "09:00";
       WorkSpreadsheetIDs := []; WorkDocumentTemplateID := "tpl" |} in
  workTimeValues targetTime
    [mkTime 2024 2 10; mkTime 2024 2 3; mkTime 2024 2 10] config
  = workTimeValues targetTime [mkTime 2024 2 3; mkTime 2024 2 10] config
  /\ workTimeValues targetTime [mkTime 2024 2 3; mkTime 2024 2 10] config
     = [[""]; [""]; ["09:00"]; [""]; [""]; [""]; [""]; [""]; [""]; ["09:00"];
        [""]; [""]; [""]; [""]; [""]; [""]; [""]; [""]; [""]; [""];
        [""]; [""]; [""]; [""]; [""]; [""]; [""]; [""]; [""]; [""]; [""]].
Proof.
  cbv zeta. split; [|vm_compute; reflexivity].
  apply (attendance_column (mkTime 2024 2 1)
           [mkTime 2024 2 3; mkTime 2024 2 10]).
  intros d. cbn [In]. tauto.
Defined.

(** ** The work days *)

Section GetWorkDaysFacts.

Variable Parse_RFC3339 : string -> option Time.
Variable Parse_date : string -> option Time.

Lemma collectWorkDays_spec targetTime config items : forall workDays,
  (forall item, In item items ->
     exists date, resolveDate Parse_RFC3339 Parse_date item = OK date) ->
  collectWorkDays Parse_RFC3339 Parse_date targetTime config items workDays
  = OK (workDays
        ++ flat_map (selectWorkDay Parse_RFC3339 Parse_date targetTime config)
             items)%list.
Proof.
  induction items as [|item items IH]; intros workDays Hall.
  - cbn. now rewrite app_nil_r.
  - cbn [collectWorkDays flat_map]. unfold selectWorkDay at 1.
    destruct (Hall item) as [date Hd]; [now left|]. rewrite Hd.
    assert (forall it, In it items ->
              exists date, resolveDate Parse_RFC3339 Parse_date it = OK date)
      as Hall' by (intros it Hit; apply Hall; now right).
    destruct (Year date =? Year targetTime); cbn [negb orb andb].
    + destruct (Month date =? Month targetTime); cbn [negb andb].
      * destruct (String.eqb (Summary item) (WorkDayTitle config)).
        -- rewrite IH by exact Hall'. now rewrite <- app_assoc.
        -- now rewrite IH by exact Hall'.
      * now rewrite IH by exact Hall'.
    + now rewrite IH by exact Hall'.
Qed.

(** C3: when every returned event has a date, the result holds a date
    exactly when it is the date of an event of the target month (year
    and month) whose label is the configured marker; events outside the
    month or with another label add nothing, and every matching event
    adds its date, repeated or not. *)
Theorem getWorkDays_membership (events : list Event) (targetTime : Time)
    (config : Config) :
  (forall item, In item events ->
     exists date, resolveDate Parse_RFC3339 Parse_date item = OK date) ->
  exists workDays,
    getWorkDays Parse_RFC3339 Parse_date (Some events) targetTime config
    = OK workDays
    /\ workDays
       = flat_map (selectWorkDay Parse_RFC3339 Parse_date targetTime config)
           events
    /\ (forall date,
          In date workDays <->
          exists item,
            In item events
            /\ resolveDate Parse_RFC3339 Parse_date item = OK date
            /\ Year date = Year targetTime
            /\ Month date = Month targetTime
            /\ Summary item = WorkDayTitle config).
Proof using Type.
  intros Hall. eexists. split; [|split; [reflexivity|]].
  - cbn [getWorkDays]. rewrite collectWorkDays_spec by exact Hall.
    reflexivity.
  - intros date. rewrite in_flat_map. split.
    + intros (item & Hin & Hsel). exists item. split; [exact Hin|].
      unfold selectWorkDay in Hsel.
      destruct (resolveDate Parse_RFC3339 Parse_date item) as [d| | |];
        cbn [In] in Hsel; try tauto.
      destruct ((Year d =? Year targetTime) && (Month d =? Month targetTime)
                && String.eqb (Summary item) (WorkDayTitle config)) eqn:E;
        cbn [In] in Hsel; [|tauto].
      destruct Hsel as [-> | []].
      rewrite !andb_true_iff, !Z.eqb_eq, String.eqb_eq in E. tauto.
    + intros (item & Hin & Hres & Hy & Hm & Hs). exists item.
      split; [exact Hin|]. unfold selectWorkDay. rewrite Hres.
      rewrite Hy, Hm, Hs, !Z.eqb_refl, String.eqb_refl. now left.
Qed.

End GetWorkDaysFacts.

(** A toy calendar answer: two formats of start, both parsed by table. *)
Lemma getWorkDays_membership_witness :
  let parseTime := fun s : string =>
    if String.eqb s "2024-02-03T09:00:00+09:00" then Some (mkTime 2024 2 3)
    else if String.eqb s "2024-01-31T09:00:00+09:00" then Some (mkTime 2024 1 31)
    else None in
  let parseDay := fun s : string =>
    if String.eqb s "2024-02-10" then Some (mkTime 2024 2 10)
    else if String.eqb s "2024-02-11" then Some (mkTime 2024 2 11)
    else None in
  let config :=
    {| CalendarID := "cal"; WorkDayTitle := "work"; WorkStartTime := "09:00";
       WorkSpreadsheetIDs := []; WorkDocumentTemplateID := "tpl" |} in
  getWorkDays parseTime parseDay
    (Some [ {| Start_DateTime := "2024-01-31T09:00:00+09:00"; Start_Date := "";
               Summary := "work" |};
            {| Start_DateTime := "2024-02-03T09:00:00+09:00"; Start_Date := "";
               Summary := "work" |};
            {| Start_DateTime := ""; Start_Date := "2024-02-10";
               Summary := "work" |};
            {| Start_DateTime := ""; Start_Date := "2024-02-11";
               Summary := "holiday" |};
            {| Start_DateTime := ""; Start_Date := "2024-02-10";
               Summary := "work" |} ])
    (mkTime 2024 2 1) config
  = OK [mkTime 2024 2 3; mkTime 2024 2 10; mkTime 2024 2 10].
Proof.
  cbv zeta.
  match goal with
  | |- getWorkDays ?p1 ?p2 (Some ?ev) ?t ?c = _ =>
      destruct (getWorkDays_membership p1 p2 ev t c) as (w & Hw & Heq & _)
  end.
  - intros item Hin. cbn [In] in Hin.
    repeat (destruct Hin as [<- | Hin]; [eexists; vm_compute; reflexivity|]).
    destruct Hin.
  - rewrite Hw, Heq. vm_compute. reflexivity.
Defined.


(** ** The spreadsheet synchroniser *)

Lemma fold_target_cases targetTime sheets : forall acc,
  let r := fold_left
             (fun targetSheetID s =>
                if String.eqb (Format_200601 targetTime) (Title s)
                then SheetId s else targetSheetID)
             sheets acc in
  r = acc
  \/ exists s, In s sheets /\ Title s = Format_200601 targetTime /\ SheetId s = r.
Proof.
  induction sheets as [|s l IH]; intros acc; cbn [fold_left]; [now left|].
  destruct (String.eqb_spec (Format_200601 targetTime) (Title s)) as [E|E].
  - destruct (IH (SheetId s)) as [H | (s' & Hin & Ht & Hid)].
    + right. exists s. cbv zeta in H. rewrite H. split; [now left|]. auto.
    + right. exists s'. split; [now right|]. auto.
  - destruct (IH acc) as [H | (s' & Hin & Ht & Hid)].
    + now left.
    + right. exists s'. split; [now right|]. auto.
Qed.

Lemma findTargetSheetID_cases targetTime sheets :
  findTargetSheetID targetTime sheets = 0
  \/ exists s, In s sheets /\ Title s = Format_200601 targetTime
               /\ SheetId s = findTargetSheetID targetTime sheets.
Proof. apply (fold_target_cases targetTime sheets 0). Qed.

Lemma fold_target_no_match targetTime sheets : forall acc,
  (forall s, In s sheets -> Title s <> Format_200601 targetTime) ->
  fold_left
    (fun targetSheetID s =>
       if String.eqb (Format_200601 targetTime) (Title s)
       then SheetId s else targetSheetID)
    sheets acc = acc.
Proof.
  induction sheets as [|s l IH]; intros acc H; cbn [fold_left]; [reflexivity|].
  destruct (String.eqb_spec (Format_200601 targetTime) (Title s)) as [E|E].
  - exfalso. apply (H s); [now left | now symmetry].
  - apply IH. intros s' Hs'. apply H. now right.
Qed.

Lemma findSheetByTitle_In title sheets s :
  In s sheets -> Title s = title ->
  exists s', findSheetByTitle title sheets = Some s'.
Proof.
  intros Hin Ht. unfold findSheetByTitle.
  destruct (find (fun s0 => String.eqb (Title s0) title) sheets) eqn:E;
    [eauto|].
  exfalso. apply (find_none _ _ E) in Hin. rewrite Ht, String.eqb_refl in Hin.
  discriminate.
Qed.

(** Writing into the first page with a title keeps the identifiers and the
    titles of all pages. *)
Lemma fold_target_update targetTime title f sheets : forall acc,
  (forall s, SheetId (f s) = SheetId s /\ Title (f s) = Title s) ->
  fold_left
    (fun targetSheetID s =>
       if String.eqb (Format_200601 targetTime) (Title s)
       then SheetId s else targetSheetID)
    (updateSheetByTitle title f sheets) acc
  = fold_left
      (fun targetSheetID s =>
         if String.eqb (Format_200601 targetTime) (Title s)
         then SheetId s else targetSheetID)
      sheets acc.
Proof.
  intros acc Hf. revert acc.
  induction sheets as [|s l IH]; intros acc; cbn [updateSheetByTitle];
    [reflexivity|].
  destruct (String.eqb (Title s) title); cbn [fold_left].
  - destruct (Hf s) as [-> ->]. reflexivity.
  - apply IH.
Qed.

Lemma findSheetByTitle_update title f sheets s :
  (forall s, Title (f s) = Title s) ->
  findSheetByTitle title sheets = Some s ->
  findSheetByTitle title (updateSheetByTitle title f sheets) = Some (f s).
Proof.
  intros Hf. unfold findSheetByTitle.
  induction sheets as [|s0 l IH]; cbn [find updateSheetByTitle]; [discriminate|].
  destruct (String.eqb (Title s0) title) eqn:E; cbn [find].
  - intros [= ->]. now rewrite Hf, E.
  - rewrite E. exact IH.
Qed.

Lemma updateSheetByTitle_twice title f g sheets :
  (forall s, Title (f s) = Title s) ->
  updateSheetByTitle title g (updateSheetByTitle title f sheets)
  = updateSheetByTitle title (fun s => g (f s)) sheets.
Proof.
  intros Hf.
  induction sheets as [|s0 l IH]; cbn [updateSheetByTitle]; [reflexivity|].
  destruct (String.eqb (Title s0) title) eqn:E; cbn [updateSheetByTitle].
  - now rewrite Hf, E.
  - now rewrite E, IH.
Qed.

Lemma updateSheetByTitle_ext title f g sheets :
  (forall s, f s = g s) ->
  updateSheetByTitle title f sheets = updateSheetByTitle title g sheets.
Proof.
  intros H. induction sheets as [|s0 l IH]; cbn [updateSheetByTitle];
    [reflexivity|].
  destruct (String.eqb (Title s0) title); now rewrite ?H, ?IH.
Qed.

(** A column written over cells is the written column laid over them, so
    writing it again changes nothing. *)
Lemma writeColumn_union col values : forall row (cells : gmap (string * Z) string),
  writeColumn col row values cells = writeColumn col row values ∅ ∪ cells.
Proof.
  induction values as [|r values IH]; intros row cells; cbn [writeColumn].
  - now rewrite (left_id ∅ (∪)).
  - destruct r as [|v r].
    + apply IH.
    + rewrite (IH _ (<[(col, row):=v]> cells)), (IH _ (<[(col, row):=v]> ∅)).
      rewrite insert_empty, insert_union_singleton_l.
      now rewrite (assoc (∪)).
Qed.

Lemma writeTarget_idempotent targetTime workDays config s :
  writeTarget targetTime workDays config
    (writeTarget targetTime workDays config s)
  = writeTarget targetTime workDays config s.
Proof.
  unfold writeTarget, writeRange. cbn [SheetId Title Cells a1Col a1Row1 rangeM3 rangeD7D37].
  f_equal.
  rewrite (writeColumn_union "D"), (writeColumn_union "M").
  rewrite (writeColumn_union "D" _ _ (writeColumn "M" _ _ (Cells s))).
  rewrite (writeColumn_union "M" _ _ (Cells s)).
  set (D := writeColumn "D" 7 _ ∅). set (Mc := writeColumn "M" 3 _ ∅).
  apply map_eq. intros k. rewrite !lookup_union.
  destruct (D !! k), (Mc !! k), (Cells s !! k); reflexivity.
Qed.

Lemma writeTarget_props targetTime workDays config s :
  SheetId (writeTarget targetTime workDays config s) = SheetId s
  /\ Title (writeTarget targetTime workDays config s) = Title s.
Proof. split; reflexivity. Qed.

Lemma Values_Update_eq id range values st sp :
  Documents st !! id = Some sp ->
  Values_Update id range values st
  = let st' := logCall (CallValuesUpdate id (A1 range) values) st in
    match findSheetByTitle (a1Sheet range) (Sheets sp) with
    | None => (st', None)
    | Some _ =>
        if (a1Row2 range - a1Row1 range + 1 <? Z.of_nat (length values))
           || existsb (fun r => (1 <? length r)%nat) values
        then (st', None)
        else (setDocument id
                {| SpreadsheetTitle := SpreadsheetTitle sp;
                   Sheets := updateSheetByTitle (a1Sheet range)
                               (writeRange range values) (Sheets sp) |} st',
              Some tt)
    end.
Proof.
  intros H. unfold Values_Update. cbn [logCall Documents]. rewrite H.
  reflexivity.
Qed.

Lemma workTimeValues_fit targetTime workDays config :
  (37 - 7 + 1 <? Z.of_nat (length (workTimeValues targetTime workDays config)))
  || existsb (fun r => (1 <? length r)%nat)
       (workTimeValues targetTime workDays config) = false.
Proof.
  rewrite workTimeValues_spec, length_map.
  apply orb_false_iff. split; [vm_compute; reflexivity|].
  generalize (zrange 1 31). intros l.
  induction l as [|j l IH]; cbn [map existsb]; [reflexivity|].
  rewrite IH. reflexivity.
Qed.

(** The three last steps of the loop body on a spreadsheet with a page
    titled as the target month. *)
Lemma write_phase targetTime workDays config id targetSheetID name st sp s :
  Documents st !! id = Some sp ->
  findSheetByTitle (Format_200601 targetTime) (Sheets sp) = Some s ->
  exists st',
    (orFatal "Failed to set work month to sheet"
       (Values_Update id (rangeM3 targetTime)
          [[Format_2006_01_02 targetTime]]) ;;;
     orFatal "Failed to set work times to sheet"
       (Values_Update id (rangeD7D37 targetTime)
          (workTimeValues targetTime workDays config)) ;;;
     orFatal "Failed to export spreadsheet"
       (exportSpreadsheet id targetSheetID name)) st
    = (st', OK tt)
    /\ Documents st'
       = <[id := {| SpreadsheetTitle := SpreadsheetTitle sp;
                    Sheets := updateSheetByTitle (Format_200601 targetTime)
                                (writeTarget targetTime workDays config)
                                (Sheets sp) |}]> (Documents st).
Proof.
  intros Hdoc Hfind. unfold bind, orFatal.
  rewrite (Values_Update_eq _ _ _ _ _ Hdoc). cbv zeta.
  cbn [rangeM3 a1Sheet a1Col a1Row1 a1Row2]. rewrite Hfind.
  cbn [length existsb Nat.ltb Nat.leb orb Z.of_nat].
  change (3 - 3 + 1 <? Z.of_nat 1) with false.
  cbn [orb]. cbv beta iota zeta.
  set (sp1 := {| SpreadsheetTitle := SpreadsheetTitle sp; Sheets := _ |}).
  set (st1 := setDocument id sp1 _).
  assert (Documents st1 !! id = Some sp1) as Hdoc1
    by (unfold st1; cbn [setDocument Documents logCall]; apply lookup_insert_eq).
  rewrite (Values_Update_eq _ _ _ _ _ Hdoc1). cbv zeta.
  cbn [rangeD7D37 a1Sheet a1Col a1Row1 a1Row2].
  assert (findSheetByTitle (Format_200601 targetTime) (Sheets sp1)
          = Some (writeRange (rangeM3 targetTime)
                    [[Format_2006_01_02 targetTime]] s)) as Hfind1.
  { unfold sp1. cbn [Sheets]. apply findSheetByTitle_update; [reflexivity|].
    exact Hfind. }
  rewrite Hfind1, workTimeValues_fit. cbv beta iota zeta.
  unfold exportSpreadsheet.
  eexists. split; [reflexivity|].
  cbn [logCall setDocument Documents Sheets SpreadsheetTitle].
  unfold st1. cbn [logCall setDocument Documents Sheets SpreadsheetTitle].
  rewrite insert_insert_eq. f_equal. unfold sp1. cbn [Sheets SpreadsheetTitle].
  f_equal. rewrite updateSheetByTitle_twice by reflexivity. reflexivity.
Qed.

Lemma bind_OK {S A B} (c : M S A) (k : A -> M S B) st st' a :
  c st = (st', OK a) -> bind c k st = k a st'.
Proof. intros H. unfold bind. now rewrite H. Qed.

Lemma bind_Fatal {S A B} (c : M S A) (k : A -> M S B) st st' msg :
  c st = (st', Fatal msg) -> bind c k st = (st', Fatal msg).
Proof. intros H. unfold bind. now rewrite H. Qed.

Lemma freshSheetId_above l s : In s l -> SheetId s < freshSheetId l.
Proof.
  unfold freshSheetId. induction l as [|x l IH]; cbn [In map fold_right];
    [tauto|].
  intros [-> | H]; [lia|]. specialize (IH H). lia.
Qed.

Lemma freshSheetId_pos l : 0 < freshSheetId l.
Proof.
  unfold freshSheetId. induction l as [|x l IH]; cbn [map fold_right]; lia.
Qed.

Lemma findSheetById_new f l dest :
  SheetId dest = f -> (forall s, In s l -> SheetId s < f) ->
  findSheetById f (l ++ [dest]) = Some dest
  /\ List.filter (fun s' => negb (SheetId s' =? f)) (l ++ [dest]) = l.
Proof.
  intros Hf Hab.
  unfold findSheetById. induction l as [|x l IH]; cbn [app find List.filter].
  - rewrite Hf, Z.eqb_refl. cbn. auto.
  - assert ((SheetId x =? f) = false) as ->
      by (apply Z.eqb_neq; specialize (Hab x (or_introl eq_refl)); lia).
    cbn [negb]. destruct IH as [IH1 IH2].
    + intros s Hs. apply Hab. now right.
    + split; [exact IH1 | now rewrite IH2].
Qed.

Lemma findSheetById_fresh l dest :
  SheetId dest = freshSheetId l ->
  findSheetById (freshSheetId l) (l ++ [dest]) = Some dest
  /\ List.filter (fun s' => negb (SheetId s' =? freshSheetId l)) (l ++ [dest])
     = l.
Proof.
  intros Hd. apply findSheetById_new; [exact Hd|]. apply freshSheetId_above.
Qed.

Lemma existsb_title_false title l :
  existsb (fun s' => String.eqb (Title s') title) l = false ->
  forall s, In s l -> Title s <> title.
Proof.
  intros H s Hs Ht.
  assert (existsb (fun s' => String.eqb (Title s') title) l = true) as H'
    by (apply existsb_exists; exists s; split; [exact Hs|];
        now rewrite Ht, String.eqb_refl).
  congruence.
Qed.

Lemma settled_after_write targetTime workDays config sp :
  findTargetSheetID targetTime (Sheets sp) <> 0 ->
  settled targetTime workDays config
    {| SpreadsheetTitle := SpreadsheetTitle sp;
       Sheets := updateSheetByTitle (Format_200601 targetTime)
                   (writeTarget targetTime workDays config) (Sheets sp) |}.
Proof.
  intros Hne. unfold settled. cbn [Sheets]. split.
  - unfold findTargetSheetID in *.
    rewrite fold_target_update; [exact Hne|].
    intros s. apply writeTarget_props.
  - rewrite updateSheetByTitle_twice by reflexivity.
    apply updateSheetByTitle_ext. intros s. apply writeTarget_idempotent.
Qed.

(** What a run of the loop body that ends well leaves behind: only the
    spreadsheet [id] has changed, and it is settled. *)
Lemma syncSpreadsheet_post targetTime workDays config id st :
  result (syncSpreadsheet targetTime workDays config id) st = OK tt ->
  exists sp',
    Documents (exec (syncSpreadsheet targetTime workDays config id) st)
    = <[id := sp']> (Documents st)
    /\ settled targetTime workDays config sp'.
Proof.
  unfold result, exec.
  destruct (syncSpreadsheet targetTime workDays config id st) as [stf o]
    eqn:Hrun.
  cbn [fst snd]. intros ->.
  unfold syncSpreadsheet in Hrun.
  unfold bind at 1 in Hrun. unfold orFatal at 1 in Hrun.
  unfold Spreadsheets_Get in Hrun.
  destruct (Documents st !! id) as [sp|] eqn:Hdoc; [|discriminate].
  set (st0 := logCall (CallGet id) st) in Hrun.
  assert (Documents st0 !! id = Some sp) as Hdoc0 by exact Hdoc.
  destruct (findTargetSheetID targetTime (Sheets sp) =? 0) eqn:Hz.
  - (* the clone branch *)
    destruct (findCopyFrom targetTime (Sheets sp)) as [copyFrom|];
      [|discriminate].
    unfold bind at 1 in Hrun. unfold bind at 1 in Hrun.
    unfold orFatal at 1 in Hrun.
    unfold Sheets_CopyTo in Hrun. cbn [logCall Documents] in Hrun.
    change (Documents st0) with (Documents st) in Hrun. rewrite Hdoc in Hrun.
    destruct (findSheetById (SheetId copyFrom) (Sheets sp)) as [s1|];
      [|discriminate].
    unfold bind at 1 in Hrun. unfold orFatal at 1 in Hrun.
    unfold BatchUpdate_UpdateSheetProperties in Hrun.
    cbn [logCall setDocument Documents SheetId Sheets SpreadsheetTitle] in Hrun.
    rewrite lookup_insert_eq in Hrun. cbn [Sheets SpreadsheetTitle] in Hrun.
    destruct (findSheetById_fresh (Sheets sp)
                {| SheetId := freshSheetId (Sheets sp);
                   Title := copyTitle (Title s1); Cells := Cells s1 |}
                eq_refl) as [Hf1 Hf2].
    rewrite Hf1, Hf2 in Hrun.
    destruct (existsb (fun s' => String.eqb (Title s') (Format_200601 targetTime))
                (Sheets sp)) eqn:Hdup; [discriminate|].
    change (Z.to_nat 0) with 0%nat in Hrun.
    cbn [firstn skipn app Cells] in Hrun.
    unfold ret at 1 in Hrun.
    set (dest' := {| SheetId := freshSheetId (Sheets sp);
                     Title := Format_200601 targetTime; Cells := Cells s1 |})
      in Hrun.
    set (sp3 := {| SpreadsheetTitle := SpreadsheetTitle sp;
                   Sheets := dest' :: Sheets sp |}) in Hrun.
    match type of Hrun with
    | ?f ?stx = _ =>
        destruct (write_phase targetTime workDays config id
                    (freshSheetId (Sheets sp))
                    (Format_200601 targetTime ++ SpreadsheetTitle sp ++ ".pdf")
                    stx sp3 dest') as (st' & Hw & Hdocs)
    end.
    + cbn [Documents setDocument logCall]. apply lookup_insert_eq.
    + unfold findSheetByTitle, sp3. cbn [Sheets find Title].
      now rewrite String.eqb_refl.
    + rewrite Hw in Hrun. injection Hrun as <-.
      eexists. split.
      * rewrite Hdocs. cbn [Documents setDocument logCall]. unfold st0.
        cbn [Documents setDocument logCall].
        rewrite !insert_insert_eq. reflexivity.
      * unfold settled, sp3. cbn [Sheets updateSheetByTitle Title].
        rewrite String.eqb_refl.
        pose proof (existsb_title_false _ _ Hdup) as Hno.
        split.
        -- unfold findTargetSheetID.
           cbn [fold_left Title SheetId writeTarget writeRange].
           rewrite String.eqb_refl.
           rewrite fold_target_no_match by exact Hno.
           pose proof (freshSheetId_pos (Sheets sp)).
           unfold dest'. cbn [SheetId]. lia.
        -- cbn [updateSheetByTitle].
           change (Title (writeTarget targetTime workDays config dest'))
             with (Format_200601 targetTime).
           rewrite String.eqb_refl, writeTarget_idempotent. reflexivity.
  - (* the page is there *)
    apply Z.eqb_neq in Hz. unfold bind at 1 in Hrun. unfold ret at 1 in Hrun.
    destruct (findTargetSheetID_cases targetTime (Sheets sp))
      as [H0 | (s & Hin & Ht & _)]; [contradiction|].
    destruct (findSheetByTitle_In _ _ _ Hin Ht) as [s' Hs'].
    destruct (write_phase targetTime workDays config id
                (findTargetSheetID targetTime (Sheets sp))
                (Format_200601 targetTime ++ SpreadsheetTitle sp ++ ".pdf")
                st0 sp s' Hdoc0 Hs') as (st' & Hw & Hdocs).
    rewrite Hw in Hrun. injection Hrun as <-.
    eexists. split; [exact Hdocs|].
    now apply settled_after_write.
Qed.

Lemma Spreadsheet_eta sp :
  {| SpreadsheetTitle := SpreadsheetTitle sp; Sheets := Sheets sp |} = sp.
Proof. destruct sp. reflexivity. Qed.

(** On a settled spreadsheet the loop body ends well and changes no
    page. *)
Lemma syncSpreadsheet_settled targetTime workDays config id st sp :
  Documents st !! id = Some sp ->
  settled targetTime workDays config sp ->
  result (syncSpreadsheet targetTime workDays config id) st = OK tt
  /\ Documents (exec (syncSpreadsheet targetTime workDays config id) st)
     = Documents st.
Proof.
  intros Hdoc [Hne Hfix]. unfold result, exec.
  destruct (syncSpreadsheet targetTime workDays config id st) as [stf o]
    eqn:Hrun.
  cbn [fst snd].
  unfold syncSpreadsheet in Hrun.
  unfold bind at 1 in Hrun. unfold orFatal at 1 in Hrun.
  unfold Spreadsheets_Get in Hrun. rewrite Hdoc in Hrun.
  set (st0 := logCall (CallGet id) st) in Hrun.
  assert (Documents st0 !! id = Some sp) as Hdoc0 by exact Hdoc.
  apply Z.eqb_neq in Hne. rewrite Hne in Hrun.
  unfold bind at 1 in Hrun. unfold ret at 1 in Hrun.
  apply Z.eqb_neq in Hne.
  destruct (findTargetSheetID_cases targetTime (Sheets sp))
    as [H0 | (s & Hin & Ht & _)]; [contradiction|].
  destruct (findSheetByTitle_In _ _ _ Hin Ht) as [s' Hs'].
  destruct (write_phase targetTime workDays config id
              (findTargetSheetID targetTime (Sheets sp))
              (Format_200601 targetTime ++ SpreadsheetTitle sp ++ ".pdf")
              st0 sp s' Hdoc0 Hs') as (st' & Hw & Hdocs).
  rewrite Hw in Hrun. injection Hrun as <- <-.
  split; [reflexivity|].
  rewrite Hdocs, Hfix, Spreadsheet_eta.
  change (Documents st0) with (Documents st). now apply insert_id.
Qed.

Lemma syncSpreadsheets_cons targetTime workDays config id ids st :
  syncSpreadsheets targetTime workDays config (id :: ids) st
  = match syncSpreadsheet targetTime workDays config id st with
    | (st', OK _) => syncSpreadsheets targetTime workDays config ids st'
    | (st', Fatal msg) => (st', Fatal msg)
    | (st', Panic msg) => (st', Panic msg)
    | (st', Diverge) => (st', Diverge)
    end.
Proof. reflexivity. Qed.

Lemma syncSpreadsheets_settles targetTime workDays config ids :
  forall st done,
    allSettled targetTime workDays config (Documents st) done ->
    result (syncSpreadsheets targetTime workDays config ids) st = OK tt ->
    allSettled targetTime workDays config
      (Documents (exec (syncSpreadsheets targetTime workDays config ids) st))
      (ids ++ done).
Proof.
  induction ids as [|id ids IH]; intros st done Hdone Hok.
  - exact Hdone.
  - unfold result, exec in *. rewrite syncSpreadsheets_cons in *.
    pose proof (syncSpreadsheet_post targetTime workDays config id st) as Hpost.
    unfold result, exec in Hpost.
    destruct (syncSpreadsheet targetTime workDays config id st) as [st1 [[]| | |]];
      cbn [fst snd] in *; try discriminate.
    destruct (Hpost eq_refl) as (sp' & Hdocs & Hset).
    assert (allSettled targetTime workDays config (Documents st1) (id :: done))
      as Hdone1.
    { intros id0 Hin. rewrite Hdocs.
      destruct (String.eqb_spec id0 id) as [-> | Hne].
      - exists sp'. split; [apply lookup_insert_eq | exact Hset].
      - destruct Hin as [-> | Hin]; [contradiction|].
        destruct (Hdone id0 Hin) as (sp0 & H0 & Hs0).
        exists sp0. split; [|exact Hs0].
        rewrite lookup_insert_ne by congruence. exact H0. }
    specialize (IH st1 (id :: done) Hdone1 Hok).
    intros id0 Hin. apply IH.
    rewrite in_app_iff in *. cbn [In] in *. tauto.
Qed.

Lemma syncSpreadsheets_stable targetTime workDays config ids :
  forall st,
    allSettled targetTime workDays config (Documents st) ids ->
    result (syncSpreadsheets targetTime workDays config ids) st = OK tt
    /\ Documents (exec (syncSpreadsheets targetTime workDays config ids) st)
       = Documents st.
Proof.
  induction ids as [|id ids IH]; intros st Hall.
  - split; reflexivity.
  - unfold result, exec in *. rewrite syncSpreadsheets_cons.
    destruct (Hall id (or_introl eq_refl)) as (sp & Hdoc & Hset).
    destruct (syncSpreadsheet_settled targetTime workDays config id st sp
                Hdoc Hset) as [Hr Hd].
    unfold result, exec in Hr, Hd.
    destruct (syncSpreadsheet targetTime workDays config id st) as [st1 o].
    cbn [fst snd] in Hr, Hd. subst o.
    assert (allSettled targetTime workDays config (Documents st1) ids) as H1.
    { rewrite Hd. intros id0 Hin. apply Hall. now right. }
    destruct (IH st1 H1) as [Hr1 Hd1]. split; [exact Hr1|].
    now rewrite Hd1.
Qed.

(** C6: when a run of the synchroniser ends well, a second run with the
    same target month, work days and document identifiers ends well too
    and leaves every page of every spreadsheet, and so the cell M3 and the
    cells D7 to D37 of the target pages, as the first run left them. *)
Theorem sync_twice_same_cells (targetTime : Time) (workDays : list Time)
    (config : Config) (st : SheetsRemote) :
  let run := updateAndDownloadWorkSpreadsheets targetTime workDays config in
  result run st = OK tt ->
  result run (exec run st) = OK tt
  /\ Documents (exec run (exec run st)) = Documents (exec run st)
  /\ (forall id row,
        cellOf (exec run (exec run st)) id (Format_200601 targetTime) "M" row
        = cellOf (exec run st) id (Format_200601 targetTime) "M" row
        /\ cellOf (exec run (exec run st)) id (Format_200601 targetTime) "D" row
           = cellOf (exec run st) id (Format_200601 targetTime) "D" row).
Proof.
  intros run Hok. unfold run, updateAndDownloadWorkSpreadsheets in *.
  assert (allSettled targetTime workDays config
            (Documents
               (exec (syncSpreadsheets targetTime workDays config
                        (WorkSpreadsheetIDs config)) st))
            (WorkSpreadsheetIDs config)) as Hall.
  { intros id Hin.
    apply (syncSpreadsheets_settles targetTime workDays config
             (WorkSpreadsheetIDs config) st []).
    - intros id0 [].
    - exact Hok.
    - rewrite app_nil_r. exact Hin. }
  destruct (syncSpreadsheets_stable _ _ _ _ _ Hall) as [Hr Hd].
  split; [exact Hr|]. split; [exact Hd|].
  intros id row. unfold cellOf. rewrite Hd. split; reflexivity.
Qed.

Lemma sync_twice_same_cells_witness :
  let run :=
    updateAndDownloadWorkSpreadsheets (mkTime 2024 2 1)
      [mkTime 2024 2 3; mkTime 2024 2 10] exampleConfig in
  result run exampleSheets = OK tt
  /\ result run (exec run exampleSheets) = OK tt
  /\ Documents (exec run (exec run exampleSheets))
     = Documents (exec run exampleSheets).
Proof.
  cbv zeta. split; [vm_compute; reflexivity|].
  destruct (sync_twice_same_cells (mkTime 2024 2 1)
              [mkTime 2024 2 3; mkTime 2024 2 10] exampleConfig exampleSheets)
    as (H1 & H2 & _); [vm_compute; reflexivity|].
  split; [exact H1 | exact H2].
Defined.

Example sync_twice_example :
  let run :=
    updateAndDownloadWorkSpreadsheets (mkTime 2024 2 1)
      [mkTime 2024 2 3; mkTime 2024 2 10] exampleConfig in
  let st2 := exec run (exec run exampleSheets) in
  cellOf st2 "doc1" "202402" "M" 3 = Some "2024/02/01"
  /\ cellOf st2 "doc1" "202402" "D" 8 = Some ""
  /\ cellOf st2 "doc1" "202402" "D" 9 = Some "09:00"
  /\ cellOf st2 "doc1" "202401" "D" 8 = Some "10:00"
  /\ SheetsLog (exec run exampleSheets)
     = [CallGet "doc1"; CallCopyTo "doc1" 7 "doc1";
        CallUpdateSheetProperties "doc1" 8 "202402" 0;
        CallValuesUpdate "doc1" "202402!M3:M3" [["2024/02/01"]];
        CallValuesUpdate "doc1" "202402!D7:D37"
          [[""]; [""]; ["09:00"]; [""]; [""]; [""]; [""]; [""]; [""];
           ["09:00"]; [""]; [""]; [""]; [""]; [""]; [""]; [""]; [""]; [""];
           [""]; [""]; [""]; [""]; [""]; [""]; [""]; [""]; [""]; [""]; [""];
           [""]];
        CallExport "doc1" 8 "202402Attendance.pdf"].
Proof. cbv zeta. repeat split; vm_compute; reflexivity. Qed.

(** ** What a run leaves in the target page *)

Lemma lookup_writeColumn_other col c values : forall row cells r,
  c <> col ->
  writeColumn col row values cells !! (c, r) = cells !! (c, r).
Proof.
  induction values as [|v values IH]; intros row cells r Hne;
    cbn [writeColumn]; [reflexivity|].
  rewrite IH by exact Hne. destruct v as [|x v]; [reflexivity|].
  apply lookup_insert_ne. congruence.
Qed.

Lemma lookup_writeColumn_before col values : forall row cells r,
  r < row ->
  writeColumn col row values cells !! (col, r) = cells !! (col, r).
Proof.
  induction values as [|v values IH]; intros row cells r Hr;
    cbn [writeColumn]; [reflexivity|].
  rewrite IH by lia. destruct v as [|x v]; [reflexivity|].
  apply lookup_insert_ne. intros [= E]. lia.
Qed.

Lemma lookup_writeColumn_at col values : forall row cells k x,
  nth_error values k = Some [x] ->
  writeColumn col row values cells !! (col, row + Z.of_nat k) = Some x.
Proof.
  induction values as [|v values IH]; intros row cells k x Hk.
  - destruct k; discriminate.
  - destruct k as [|k]; cbn [nth_error] in Hk; cbn [writeColumn].
    + injection Hk as ->. rewrite Z.add_0_r.
      rewrite lookup_writeColumn_before by lia. apply lookup_insert_eq.
    + replace (row + Z.of_nat (S k)) with (row + 1 + Z.of_nat k) by lia.
      now apply IH.
Qed.

Lemma updateSheetByTitle_fixed title f sheets s :
  findSheetByTitle title sheets = Some s ->
  updateSheetByTitle title f sheets = sheets ->
  f s = s.
Proof.
  unfold findSheetByTitle.
  induction sheets as [|s0 l IH]; cbn [find updateSheetByTitle]; [discriminate|].
  destruct (String.eqb (Title s0) title).
  - intros [= ->] [= E]. exact E.
  - intros Hf [= E]. now apply IH.
Qed.

(** A settled spreadsheet shows the month's first day in M3 and the
    attendance column in D7 to D37 of its target page. *)
Lemma settled_cells targetTime workDays config sp :
  settled targetTime workDays config sp ->
  exists s,
    findSheetByTitle (Format_200601 targetTime) (Sheets sp) = Some s
    /\ Cells s !! ("M", 3) = Some (Format_2006_01_02 targetTime)
    /\ forall i, 1 <= i <= 31 ->
         Cells s !! ("D", 6 + i)
         = Some (workTimeValue targetTime workDays (WorkStartTime config) i).
Proof.
  intros [Hne Hfix].
  destruct (findTargetSheetID_cases targetTime (Sheets sp))
    as [H0 | (s0 & Hin & Ht & _)]; [contradiction|].
  destruct (findSheetByTitle_In _ _ _ Hin Ht) as [s Hs].
  exists s. split; [exact Hs|].
  pose proof (updateSheetByTitle_fixed _ _ _ _ Hs Hfix) as Hw.
  assert (Cells s
          = writeColumn "D" 7 (workTimeValues targetTime workDays config)
              (writeColumn "M" 3 [[Format_2006_01_02 targetTime]] (Cells s)))
    as Hc by (rewrite <- Hw at 1; reflexivity).
  split.
  - rewrite Hc. rewrite lookup_writeColumn_other by discriminate.
    apply (lookup_writeColumn_at "M" _ 3 _ 0%nat). reflexivity.
  - intros i Hi. rewrite Hc.
    replace (6 + i) with (7 + Z.of_nat (Z.to_nat (i - 1))) by lia.
    apply lookup_writeColumn_at.
    rewrite workTimeValues_spec, nth_error_map, nth_error_zrange by lia.
    cbn [option_map]. do 3 f_equal. lia.
Qed.

(** After a run that ends well, in every spreadsheet of the configuration
    the cell M3 of the target page holds the first day of the month and
    the cells D7 to D37 hold the attendance column. *)
Theorem sync_writes_target_cells (targetTime : Time) (workDays : list Time)
    (config : Config) (st : SheetsRemote) (id : string) :
  let run := updateAndDownloadWorkSpreadsheets targetTime workDays config in
  result run st = OK tt ->
  In id (WorkSpreadsheetIDs config) ->
  cellOf (exec run st) id (Format_200601 targetTime) "M" 3
  = Some (Format_2006_01_02 targetTime)
  /\ forall i, 1 <= i <= 31 ->
       cellOf (exec run st) id (Format_200601 targetTime) "D" (6 + i)
       = Some (workTimeValue targetTime workDays (WorkStartTime config) i).
Proof.
  intros run Hok Hin. unfold run, updateAndDownloadWorkSpreadsheets in *.
  destruct (syncSpreadsheets_settles targetTime workDays config
              (WorkSpreadsheetIDs config) st []
              (fun id0 (H : In id0 []) => match H with end) Hok id)
    as (sp & Hdoc & Hset).
  { rewrite app_nil_r. exact Hin. }
  destruct (settled_cells _ _ _ _ Hset) as (s & Hs & HM & HD).
  unfold cellOf. rewrite Hdoc, Hs. split; [exact HM | exact HD].
Qed.

(** ** No page to clone from *)

Lemma AddDate_previous_month y m :
  1 <= m <= 12 -> AddDate (mkTime y m 1) 0 (-1) 0 = previousMonth y m.
Proof.
  intros Hm. unfold AddDate. cbn [Year Month Day].
  rewrite Z.add_0_r. change (1 + 0) with 1. change (m + -1) with (m - 1).
  now apply Date_previous_month.
Qed.

Lemma find_title_none title (l : list Sheet) :
  (forall s, In s l -> Title s <> title) ->
  find (fun s => String.eqb title (Title s)) l = None.
Proof.
  intros H. induction l as [|s l IH]; cbn [find]; [reflexivity|].
  destruct (String.eqb_spec title (Title s)) as [E|E].
  - exfalso. apply (H s); [now left | now symmetry].
  - apply IH. intros s' Hs'. apply H. now right.
Qed.

(** C4: when no page is titled as the target month and none as the month
    just before it, the synchroniser stops with the fatal error at that
    spreadsheet: after the page list was fetched no other call is made, so
    no page is cloned and nothing is written, whatever other pages there
    are; the page looked for is the one of the month before. *)
Theorem no_page_to_clone_is_fatal (y m : Z) (workDays : list Time)
    (config : Config) (id : string) (ids : list string) (st : SheetsRemote)
    (sp : Spreadsheet) :
  1 <= m <= 12 ->
  WorkSpreadsheetIDs config = id :: ids ->
  Documents st !! id = Some sp ->
  (forall s, In s (Sheets sp) -> Title s <> Format_200601 (mkTime y m 1)) ->
  (forall s, In s (Sheets sp) -> Title s <> Format_200601 (previousMonth y m)) ->
  updateAndDownloadWorkSpreadsheets (mkTime y m 1) workDays config st
  = (logCall (CallGet id) st, Fatal "Failed to determine sheet to copy")
  /\ findCopyFrom (mkTime y m 1) (Sheets sp)
     = find (fun s => String.eqb (Format_200601 (previousMonth y m)) (Title s))
         (Sheets sp).
Proof.
  intros Hm Hids Hdoc Hno Hprev.
  assert (findCopyFrom (mkTime y m 1) (Sheets sp)
          = find (fun s => String.eqb (Format_200601 (previousMonth y m)) (Title s))
              (Sheets sp)) as Hcf
    by (unfold findCopyFrom; now rewrite AddDate_previous_month).
  split; [|exact Hcf].
  unfold updateAndDownloadWorkSpreadsheets. rewrite Hids.
  rewrite syncSpreadsheets_cons.
  unfold syncSpreadsheet.
  unfold bind at 1. unfold orFatal at 1. unfold Spreadsheets_Get.
  rewrite Hdoc.
  unfold findTargetSheetID. rewrite fold_target_no_match by exact Hno.
  change (0 =? 0) with true. cbv iota.
  rewrite Hcf, find_title_none by exact Hprev.
  reflexivity.
Qed.

Lemma no_page_to_clone_is_fatal_witness :
  updateAndDownloadWorkSpreadsheets (mkTime 2024 2 1) [] exampleConfig
    exampleSheetsStale
  = (logCall (CallGet "doc1") exampleSheetsStale,
     Fatal "Failed to determine sheet to copy").
Proof.
  refine (proj1 (no_page_to_clone_is_fatal 2024 2 [] exampleConfig "doc1" []
                   exampleSheetsStale
                   {| SpreadsheetTitle := "Attendance";
                      Sheets := [ {| SheetId := 7; Title := "202312"; Cells := ∅ |};
                                  {| SheetId := 0; Title := "202311"; Cells := ∅ |} ] |}
                   _ eq_refl _ _ _)).
  - lia.
  - vm_compute. reflexivity.
  - cbn [Sheets In]. intros s [<- | [<- | []]]; vm_compute; discriminate.
  - cbn [Sheets In]. intros s [<- | [<- | []]]; vm_compute; discriminate.
Defined.

(** ** A target page with the identifier 0 *)

Lemma findTargetSheetID_zero targetTime sheets :
  (forall s, In s sheets -> Title s = Format_200601 targetTime -> SheetId s = 0) ->
  findTargetSheetID targetTime sheets = 0.
Proof.
  intros H.
  destruct (findTargetSheetID_cases targetTime sheets)
    as [H0 | (s & Hin & Ht & Hid)]; [exact H0|].
  rewrite <- Hid. now apply H.
Qed.

(** C10: a page titled as the target month whose identifier is 0 counts
    as absent: the loop body goes on to look for the page of the month
    before, stops with the fatal error when there is none, and otherwise
    asks for a copy of that page; the pages that were there, the one with
    identifier 0 among them, are left as they were. *)
Theorem zero_id_target_page_is_cloned_over (targetTime : Time)
    (workDays : list Time) (config : Config) (id : string)
    (st : SheetsRemote) (sp : Spreadsheet) :
  Documents st !! id = Some sp ->
  (exists s, In s (Sheets sp) /\ Title s = Format_200601 targetTime) ->
  (forall s, In s (Sheets sp) -> Title s = Format_200601 targetTime ->
             SheetId s = 0) ->
  let run := syncSpreadsheet targetTime workDays config id in
  findTargetSheetID targetTime (Sheets sp) = 0
  /\ match findCopyFrom targetTime (Sheets sp) with
     | None =>
         run st = (logCall (CallGet id) st,
                   Fatal "Failed to determine sheet to copy")
     | Some copyFrom =>
         (exists rest,
            SheetsLog (exec run st)
            = (SheetsLog st
               ++ CallGet id :: CallCopyTo id (SheetId copyFrom) id :: rest)%list)
         /\ (forall call, In call (SheetsLog (exec run st)) ->
               In call (SheetsLog st)
               \/ forall range values,
                    call <> CallValuesUpdate id range values)
         /\ exists sp', Documents (exec run st) !! id = Some sp'
                        /\ forall s, In s (Sheets sp) -> In s (Sheets sp')
     end.
Proof.
  intros Hdoc (s0 & Hin0 & Ht0) Hzero run.
  pose proof (findTargetSheetID_zero targetTime (Sheets sp) Hzero) as Hz.
  split; [exact Hz|].
  unfold run, exec.
  destruct (syncSpreadsheet targetTime workDays config id st) as [stf o]
    eqn:Hrun.
  cbn [fst]. unfold syncSpreadsheet in Hrun.
  unfold bind at 1 in Hrun. unfold orFatal at 1 in Hrun.
  unfold Spreadsheets_Get in Hrun.
  rewrite Hdoc, Hz in Hrun. change (0 =? 0) with true in Hrun.
  cbv iota in Hrun.
  destruct (findCopyFrom targetTime (Sheets sp)) as [copyFrom|];
    [|now rewrite <- Hrun].
  unfold bind at 1 in Hrun. unfold bind at 1 in Hrun.
  unfold orFatal at 1 in Hrun.
  unfold Sheets_CopyTo in Hrun. cbn [logCall Documents] in Hrun.
  rewrite Hdoc in Hrun.
  destruct (findSheetById (SheetId copyFrom) (Sheets sp)) as [s1|].
  - unfold bind at 1 in Hrun. unfold orFatal at 1 in Hrun.
    unfold BatchUpdate_UpdateSheetProperties in Hrun.
    cbn [logCall setDocument Documents SheetId Sheets SpreadsheetTitle] in Hrun.
    rewrite lookup_insert_eq in Hrun. cbn [Sheets SpreadsheetTitle] in Hrun.
    destruct (findSheetById_fresh (Sheets sp)
                {| SheetId := freshSheetId (Sheets sp);
                   Title := copyTitle (Title s1); Cells := Cells s1 |}
                eq_refl) as [Hf1 Hf2].
    rewrite Hf1, Hf2 in Hrun.
    assert (existsb (fun s' => String.eqb (Title s') (Format_200601 targetTime))
              (Sheets sp) = true) as Hdup.
    { apply existsb_exists. exists s0. split; [exact Hin0|].
      now rewrite Ht0, String.eqb_refl. }
    rewrite Hdup in Hrun. injection Hrun as <- <-.
    cbn [SheetsLog Documents logCall setDocument].
    split; [|split].
    + eexists. rewrite <- !app_assoc. cbn [app]. reflexivity.
    + intros call Hc. rewrite !in_app_iff in Hc. cbn [In] in Hc.
      destruct Hc as [[[Hc | [<- | []]] | [<- | []]] | [<- | []]];
        [now left | right; discriminate ..].
    + eexists. split; [apply lookup_insert_eq|]. cbn [Sheets].
      intros s Hs. apply in_or_app. now left.
  - injection Hrun as <- <-. cbn [SheetsLog Documents logCall setDocument].
    split; [|split].
    + eexists. rewrite <- !app_assoc. cbn [app]. reflexivity.
    + intros call Hc. rewrite !in_app_iff in Hc. cbn [In] in Hc.
      destruct Hc as [[Hc | [<- | []]] | [<- | []]];
        [now left | right; discriminate ..].
    + exists sp. split; [exact Hdoc | auto].
Qed.

Lemma zero_id_target_page_is_cloned_over_witness :
  Documents exampleSheetsZero !! "doc1" = Some exampleZeroSpreadsheet
  /\ findTargetSheetID (mkTime 2024 2 1) (Sheets exampleZeroSpreadsheet) = 0.
Proof.
  assert (Documents exampleSheetsZero !! "doc1" = Some exampleZeroSpreadsheet)
    as Hdoc by (vm_compute; reflexivity).
  assert (exists s, In s (Sheets exampleZeroSpreadsheet)
                    /\ Title s = Format_200601 (mkTime 2024 2 1)) as Hex
    by (eexists; split; [left; reflexivity | vm_compute; reflexivity]).
  assert (forall s, In s (Sheets exampleZeroSpreadsheet) ->
                    Title s = Format_200601 (mkTime 2024 2 1) -> SheetId s = 0)
    as Hzero.
  { cbn [Sheets exampleZeroSpreadsheet In].
    intros s [<- | [<- | []]]; [reflexivity|]. vm_compute. discriminate. }
  split; [exact Hdoc|].
  pose proof (zero_id_target_page_is_cloned_over (mkTime 2024 2 1) []
                exampleConfig "doc1" exampleSheetsZero exampleZeroSpreadsheet
                Hdoc Hex Hzero) as H.
  cbv zeta in H.
  apply proj1 in H.
  exact H.
Defined.

Example zero_id_target_page_example :
  syncSpreadsheet (mkTime 2024 2 1) [] exampleConfig "doc1" exampleSheetsZero
  = (exec (syncSpreadsheet (mkTime 2024 2 1) [] exampleConfig "doc1")
       exampleSheetsZero,
     Fatal "Failed to update sheet position")
  /\ cellOf (exec (syncSpreadsheet (mkTime 2024 2 1) [] exampleConfig "doc1")
               exampleSheetsZero) "doc1" "202402" "M" 3 = None
  /\ SheetsLog (exec (syncSpreadsheet (mkTime 2024 2 1) [] exampleConfig "doc1")
                  exampleSheetsZero)
     = [CallGet "doc1"; CallCopyTo "doc1" 5 "doc1";
        CallUpdateSheetProperties "doc1" 6 "202402" 0].
Proof. repeat split; vm_compute; reflexivity. Qed.


(** ** The document templater *)

Lemma setDriveFiles_twice a b st :
  setDriveFiles a (setDriveFiles b st) = setDriveFiles a st.
Proof. reflexivity. Qed.

Lemma setDriveFiles_same st : setDriveFiles (DriveFiles st) st = st.
Proof. destruct st. reflexivity. Qed.

Lemma Id_in_filter_other (x y : string) (files : list File) :
  x <> y -> In x (map Id files) ->
  In x (map Id (List.filter (fun g => negb (String.eqb (Id g) y)) files)).
Proof.
  intros Hne Hin. apply in_map_iff in Hin. destruct Hin as (g & <- & Hg).
  apply in_map. apply filter_In. split; [exact Hg|].
  destruct (String.eqb_spec (Id g) y); [contradiction | reflexivity].
Qed.

(** The loop over one page: every file with the name is deleted, and no
    deletion fails as long as the listed files are there, each once. *)
Lemma deleteMatching_spec target page : forall st,
  List.NoDup (map Id page) ->
  (forall f, In f page -> In (Id f) (map Id (DriveFiles st))) ->
  deleteMatching target page st
  = (setDriveFiles (deleteListed target page (DriveFiles st)) st, OK tt).
Proof.
  induction page as [|f page IH]; intros st Hnd Hin.
  - cbn [deleteMatching deleteListed]. unfold ret.
    now rewrite setDriveFiles_same.
  - cbn [deleteMatching deleteListed]. cbn [map] in Hnd.
    apply List.NoDup_cons_iff in Hnd. destruct Hnd as [Hf Hnd].
    destruct (String.eqb (Name f) target).
    + unfold bind at 1. unfold orFatal, Files_Delete.
      assert (existsb (fun g => String.eqb (Id g) (Id f)) (DriveFiles st) = true)
        as Hex.
      { specialize (Hin f (or_introl eq_refl)).
        apply in_map_iff in Hin. destruct Hin as (g & Hg & Hgin).
        apply existsb_exists. exists g. split; [exact Hgin|].
        now rewrite Hg, String.eqb_refl. }
      rewrite Hex. rewrite IH.
      * reflexivity.
      * exact Hnd.
      * intros g Hg. cbn [setDriveFiles DriveFiles].
        apply Id_in_filter_other.
        -- intros E. apply Hf. rewrite <- E. now apply in_map.
        -- apply Hin. now right.
    + unfold bind at 1. unfold ret at 1. apply IH; [exact Hnd|].
      intros g Hg. apply Hin. now right.
Qed.

Lemma deleteListed_app target l1 l2 files :
  deleteListed target (l1 ++ l2) files
  = deleteListed target l2 (deleteListed target l1 files).
Proof.
  revert files. induction l1 as [|f l1 IH]; intros files;
    cbn [app deleteListed]; [reflexivity | apply IH].
Qed.

Lemma deleteListed_Id target listing : forall files x,
  In x (map Id files) ->
  ~ In x (map Id listing) ->
  In x (map Id (deleteListed target listing files)).
Proof.
  induction listing as [|f listing IH]; intros files x Hx Hn;
    cbn [deleteListed]; [exact Hx|].
  cbn [map In] in Hn. apply IH; [|tauto].
  destruct (String.eqb (Name f) target); [|exact Hx].
  apply Id_in_filter_other; [|exact Hx]. intros E. apply Hn. now left.
Qed.

Lemma NoDup_app_disjoint {A} (l1 l2 : list A) x :
  List.NoDup (l1 ++ l2) -> In x l2 -> ~ In x l1.
Proof.
  induction l1 as [|a l1 IH]; cbn [app]; intros Hnd Hx; [tauto|].
  apply List.NoDup_cons_iff in Hnd. destruct Hnd as [Ha Hnd].
  intros [-> | Hin].
  - apply Ha. apply in_or_app. now right.
  - now apply (IH Hnd Hx).
Qed.

Lemma NoDup_app_right {A} (l1 l2 : list A) : List.NoDup (l1 ++ l2) -> List.NoDup l2.
Proof.
  induction l1 as [|a l1 IH]; cbn [app]; [tauto|].
  intros Hnd. apply List.NoDup_cons_iff in Hnd. tauto.
Qed.

Lemma NoDup_app_left {A} (l1 l2 : list A) : List.NoDup (l1 ++ l2) -> List.NoDup l1.
Proof.
  induction l1 as [|a l1 IH]; cbn [app]; intros Hnd; [constructor|].
  apply List.NoDup_cons_iff in Hnd. destruct Hnd as [Ha Hnd].
  constructor; [|now apply IH].
  intros Hin. apply Ha. apply in_or_app. now left.
Qed.

(** The pagination loop: with one unit of fuel per listed file and one
    more it ends well, having deleted the files of the listing that carry
    the name, whatever the page size. *)
Lemma deleteExisting_spec folderID target fuel : forall listing tok st,
  (length listing < fuel)%nat ->
  List.NoDup (map Id listing) ->
  (forall f, In f listing -> In (Id f) (map Id (DriveFiles st))) ->
  (tok = listing /\ listing <> []) \/ (tok = [] /\ listing = folderFiles folderID st) ->
  deleteExisting fuel folderID target tok st
  = (setDriveFiles (deleteListed target listing (DriveFiles st)) st, OK tt).
Proof.
  induction fuel as [|fuel IH]; intros listing tok st Hlen Hnd Hin Htok;
    [lia|].
  cbn [deleteExisting]. unfold bind at 1. unfold orFatal at 1.
  unfold Files_List.
  assert (match tok with [] => folderFiles folderID st | _ => tok end = listing)
    as Hl.
  { destruct Htok as [[-> Hne] | [-> ->]]; [|reflexivity].
    destruct listing; [contradiction | reflexivity]. }
  rewrite Hl. cbn [Files NextPageToken].
  set (n := Nat.max 1 (PageSize st)).
  assert (1 <= n)%nat as Hn by (unfold n; lia).
  rewrite <- (firstn_skipn n listing) in Hnd, Hin.
  rewrite map_app in Hnd.
  unfold bind at 1.
  rewrite deleteMatching_spec.
  2: { now apply NoDup_app_left in Hnd. }
  2: { intros f Hf. apply Hin. apply in_or_app. now left. }
  rewrite <- (firstn_skipn n listing) at 3.
  rewrite deleteListed_app.
  destruct (skipn n listing) as [|g rest] eqn:Hrest.
  - cbn [deleteListed]. reflexivity.
  - rewrite (IH (g :: rest) (g :: rest)).
    + cbn [setDriveFiles DriveFiles PageSize DocUpdates Downloads].
      reflexivity.
    + assert (length (skipn n listing) = length (g :: rest)) as E
        by now rewrite Hrest.
      rewrite length_skipn in E.
      destruct listing as [|x listing]; [rewrite skipn_nil in Hrest; discriminate|].
      cbn [length] in *. lia.
    + now apply NoDup_app_right in Hnd.
    + intros f Hf. cbn [setDriveFiles DriveFiles].
      apply deleteListed_Id.
      * apply Hin. apply in_or_app. now right.
      * apply (NoDup_app_disjoint _ _ _ Hnd). now apply in_map.
    + left. split; [reflexivity | discriminate].
Qed.

Lemma filter_all {A} (p : A -> bool) (l : list A) :
  (forall x, p x = true) -> List.filter p l = l.
Proof.
  intros H. induction l as [|x l IH]; cbn [List.filter]; [reflexivity|].
  now rewrite H, IH.
Qed.

Lemma List_filter_filter {A} (p q : A -> bool) (l : list A) :
  List.filter p (List.filter q l) = List.filter (fun x => q x && p x) l.
Proof.
  induction l as [|x l IH]; cbn [List.filter]; [reflexivity|].
  destruct (q x); cbn [List.filter andb]; [|exact IH].
  destruct (p x); now rewrite IH.
Qed.

Lemma deleteListed_filter target listing : forall files,
  deleteListed target listing files
  = List.filter
      (fun f => negb (existsb (fun g => String.eqb (Name g) target
                                        && String.eqb (Id f) (Id g)) listing))
      files.
Proof.
  induction listing as [|g listing IH]; intros files;
    cbn [deleteListed existsb].
  - symmetry. now apply filter_all.
  - rewrite IH. destruct (String.eqb (Name g) target); cbn [andb orb].
    + rewrite List_filter_filter. apply filter_ext. intros f.
      now rewrite negb_orb.
    + reflexivity.
Qed.

Lemma NoDup_Id_inj (files : list File) f g :
  List.NoDup (map Id files) -> In f files -> In g files -> Id f = Id g -> f = g.
Proof.
  induction files as [|x files IH]; cbn [map In]; [tauto|].
  intros Hnd Hf Hg E. apply List.NoDup_cons_iff in Hnd. destruct Hnd as [Hx Hnd].
  destruct Hf as [-> | Hf], Hg as [-> | Hg].
  - reflexivity.
  - exfalso. apply Hx. rewrite E. now apply in_map.
  - exfalso. apply Hx. rewrite <- E. now apply in_map.
  - now apply IH.
Qed.

Lemma NoDup_map_filter {A B} (h : A -> B) (p : A -> bool) (l : list A) :
  List.NoDup (map h l) -> List.NoDup (map h (List.filter p l)).
Proof.
  induction l as [|x l IH]; cbn [map List.filter]; [tauto|].
  intros Hnd. apply List.NoDup_cons_iff in Hnd. destruct Hnd as [Hx Hnd].
  destruct (p x); [|now apply IH]. cbn [map]. constructor; [|now apply IH].
  intros Hin. apply Hx. apply in_map_iff in Hin.
  destruct Hin as (z & Hz & Hzin). apply filter_In in Hzin.
  rewrite <- Hz. apply in_map. tauto.
Qed.

(** Deleting the files of the folder's own listing that carry the name
    removes exactly the files of the folder with that name. *)
Lemma deleteListed_folder folderID target st :
  List.NoDup (map Id (DriveFiles st)) ->
  deleteListed target (folderFiles folderID st) (DriveFiles st)
  = List.filter
      (fun f => negb (inFolder folderID f && String.eqb (Name f) target))
      (DriveFiles st).
Proof.
  intros Hnd. rewrite deleteListed_filter.
  apply filter_ext_in. intros f Hf. f_equal.
  apply eq_iff_eq_true. rewrite existsb_exists, andb_true_iff. split.
  - intros (g & Hg & Hc). apply andb_true_iff in Hc. destruct Hc as [Hn Hi].
    unfold folderFiles in Hg. apply filter_In in Hg. destruct Hg as [Hgin Hgf].
    apply String.eqb_eq in Hi.
    assert (f = g) as -> by (apply (NoDup_Id_inj (DriveFiles st)); assumption).
    auto.
  - intros [Hfo Hn]. exists f. split.
    + unfold folderFiles. apply filter_In. auto.
    + now rewrite Hn, String.eqb_refl.
Qed.

Lemma namedInFolder_deleted folderID name files :
  namedInFolder folderID name
    (List.filter
       (fun f => negb (inFolder folderID f && String.eqb (Name f) name)) files)
  = [].
Proof.
  unfold namedInFolder. induction files as [|f files IH]; cbn [List.filter];
    [reflexivity|].
  destruct (inFolder folderID f && String.eqb (Name f) name) eqn:E;
    cbn [negb List.filter]; [exact IH|]. now rewrite E.
Qed.

Lemma find_existsb {A} (p : A -> bool) l x :
  find p l = Some x -> existsb p l = true.
Proof.
  intros H. apply existsb_exists. exists x.
  apply find_some in H. tauto.
Qed.

(** C7: the templater deletes the files of the template's folder that
    carry the target name, however many there are and however the listing
    is cut into pages, before it copies the template; after the copy the
    folder holds exactly one file with that name, the copy.  The copy is
    made unless the template itself carries the target name. *)
Theorem template_copy_is_the_only_one (fuel : nat) (y m : Z)
    (config : Config) (st : DriveRemote) (template : File)
    (folderID : string) (parents : list string) :
  1 <= m <= 12 -> (32 <= fuel)%nat -> (length (DriveFiles st) < fuel)%nat ->
  List.NoDup (map Id (DriveFiles st)) ->
  find (fun f => String.eqb (Id f) (WorkDocumentTemplateID config))
    (DriveFiles st) = Some template ->
  Parents template = folderID :: parents ->
  let targetTime := mkTime y m 1 in
  let targetDocumentName :=
    strings_Replace1 (Name template) "yyyymm" (Format_200601 targetTime) in
  let run := updateAndDownloadWorkDocuments fuel targetTime config in
  exists stDeleted,
    deleteExisting fuel folderID targetDocumentName [] st = (stDeleted, OK tt)
    /\ DriveFiles stDeleted
       = List.filter
           (fun f => negb (inFolder folderID f
                           && String.eqb (Name f) targetDocumentName))
           (DriveFiles st)
    /\ namedInFolder folderID targetDocumentName (DriveFiles stDeleted) = []
    /\ (result run st = OK tt <-> Name template <> targetDocumentName)
    /\ (result run st = OK tt ->
        exists copy,
          DriveFiles (exec run st) = (DriveFiles stDeleted ++ [copy])%list
          /\ Name copy = targetDocumentName /\ Parents copy = [folderID]
          /\ namedInFolder folderID targetDocumentName
               (DriveFiles (exec run st)) = [copy]).
Proof.
  intros Hm Hf Hlen Hnd Hget Hpar targetTime targetDocumentName run.
  assert (length (folderFiles folderID st) < fuel)%nat as Hlen'.
  { unfold folderFiles. pose proof (filter_length_le (inFolder folderID)
                                      (DriveFiles st)). lia. }
  pose proof (deleteExisting_spec folderID targetDocumentName fuel
                (folderFiles folderID st) [] st Hlen') as Hdel.
  rewrite deleteListed_folder in Hdel by exact Hnd.
  specialize (Hdel (NoDup_map_filter Id _ _ Hnd)).
  assert (forall f, In f (folderFiles folderID st) ->
                    In (Id f) (map Id (DriveFiles st))) as Hin.
  { intros f Hfin. apply in_map. unfold folderFiles in Hfin.
    apply filter_In in Hfin. tauto. }
  specialize (Hdel Hin (or_intror (conj eq_refl eq_refl))).
  set (kept := List.filter
                 (fun f => negb (inFolder folderID f
                                 && String.eqb (Name f) targetDocumentName))
                 (DriveFiles st)) in *.
  set (copy := {| Id := freshFileId kept; Name := targetDocumentName;
                  Parents := [folderID] |}).
  exists (setDriveFiles kept st).
  split; [exact Hdel|]. split; [reflexivity|].
  split; [apply namedInFolder_deleted|].
  pose proof (find_some _ _ Hget) as [Htin Htid].
  assert (inFolder folderID template = true) as Htf
    by (unfold inFolder; rewrite Hpar; cbn [existsb];
        now rewrite String.eqb_refl).
  assert (run st
          = if existsb
                 (fun f => String.eqb (Id f) (WorkDocumentTemplateID config))
                 kept
            then
              ({| DriveFiles := kept ++ [copy]; PageSize := PageSize st;
                  DocUpdates := DocUpdates st
                                ++ [(Id copy,
                                     batchFor targetTime (slotDates y m))];
                  Downloads := Downloads st ++ [Name copy ++ ".pdf"] |},
               OK tt)
            else (setDriveFiles kept st, Fatal "Failed to copy template"))
    as Hrun.
  { unfold run, updateAndDownloadWorkDocuments.
    unfold bind at 1. unfold orFatal at 1. unfold Files_Get. rewrite Hget.
    rewrite Hpar. unfold bind at 1. unfold index0, ret at 1.
    unfold bind at 1. fold targetDocumentName. rewrite Hdel.
    unfold bind at 1. unfold orFatal at 1. unfold Files_Copy.
    cbn [setDriveFiles DriveFiles].
    destruct (existsb _ kept); [|reflexivity].
    unfold targetTime. rewrite placeholderRequests_spec by assumption.
    unfold bind at 1. unfold ret at 1.
    unfold bind at 1. unfold orFatal at 1. unfold Documents_BatchUpdate.
    unfold orFatal, exportDocument.
    cbn [setDriveFiles DriveFiles PageSize DocUpdates Downloads Id Name].
    reflexivity. }
  assert (existsb (fun f => String.eqb (Id f) (WorkDocumentTemplateID config))
            kept = true
          <-> Name template <> targetDocumentName) as Hkept.
  { rewrite existsb_exists. split.
    - intros (f & Hfk & Hfid) E. unfold kept in Hfk.
      apply filter_In in Hfk. destruct Hfk as [Hfin Hkeep].
      assert (f = template) as ->.
      { apply (NoDup_Id_inj (DriveFiles st)); try assumption.
        apply String.eqb_eq in Hfid, Htid. congruence. }
      rewrite Htf, E, String.eqb_refl in Hkeep. discriminate.
    - intros Hne. exists template. split; [|exact Htid].
      unfold kept. apply filter_In. split; [exact Htin|].
      destruct (String.eqb_spec (Name template) targetDocumentName) as [E|E];
        [contradiction|].
      now rewrite andb_false_r. }
  unfold result, exec. rewrite Hrun.
  destruct (existsb _ kept) eqn:Hex; cbn [fst snd DriveFiles setDriveFiles].
  - split; [split; [intros _; now apply Hkept | reflexivity]|].
    intros _. exists copy.
    split; [reflexivity|]. split; [reflexivity|]. split; [reflexivity|].
    unfold namedInFolder. rewrite List.filter_app.
    fold (namedInFolder folderID targetDocumentName kept).
    unfold kept. rewrite namedInFolder_deleted. cbn [app List.filter].
    unfold inFolder, copy. cbn [Parents Name existsb].
    now rewrite !String.eqb_refl.
  - split; [|discriminate].
    split; [discriminate|]. intros Hne. apply Hkept in Hne. discriminate.
Qed.

Lemma template_copy_is_the_only_one_witness :
  exists copy,
    result (updateAndDownloadWorkDocuments 32 (mkTime 2024 2 1) exampleConfig)
      exampleDrive = OK tt
    /\ namedInFolder "folder"
         (strings_Replace1 (Name exampleTemplate) "yyyymm"
            (Format_200601 (mkTime 2024 2 1)))
         (DriveFiles
            (exec (updateAndDownloadWorkDocuments 32 (mkTime 2024 2 1)
                     exampleConfig) exampleDrive))
       = [copy].
Proof.
  destruct (template_copy_is_the_only_one 32 2024 2 exampleConfig exampleDrive
              exampleTemplate "folder" [])
    as (stDeleted & _ & _ & _ & Hok & Hcopy).
  - lia.
  - lia.
  - cbn. lia.
  - cbn [exampleDrive DriveFiles map Id exampleTemplate].
    repeat (constructor; [cbn [In]; intuition discriminate|]). constructor.
  - vm_compute. reflexivity.
  - reflexivity.
  - assert (result (updateAndDownloadWorkDocuments 32 (mkTime 2024 2 1)
                      exampleConfig) exampleDrive = OK tt) as Hrun
      by (apply Hok; vm_compute; discriminate).
    destruct (Hcopy Hrun) as (copy & _ & _ & _ & Hone).
    exists copy. split; [exact Hrun | exact Hone].
Defined.

Example template_copy_example :
  map (fun f => (Id f, Name f, Parents f))
    (DriveFiles
       (exec (updateAndDownloadWorkDocuments 32 (mkTime 2024 2 1) exampleConfig)
          exampleDrive))
  = [ ("tpl", "Invoice yyyymm", ["folder"]);
      ("b", "Invoice 202401", ["folder"]);
      ("c", "Invoice 202402", ["elsewhere"]);
      ("ftplbc", "Invoice 202402", ["folder"]) ]
  /\ Downloads
       (exec (updateAndDownloadWorkDocuments 32 (mkTime 2024 2 1) exampleConfig)
          exampleDrive)
     = ["Invoice 202402.pdf"].
Proof. split; vm_compute; reflexivity. Qed.

(** ** A template without a parent folder *)

Lemma template_without_parent fuel targetTime config st template :
  find (fun f => String.eqb (Id f) (WorkDocumentTemplateID config))
    (DriveFiles st) = Some template ->
  Parents template = [] ->
  updateAndDownloadWorkDocuments fuel targetTime config st
  = (st, Panic "runtime error: index out of range [0] with length 0").
Proof.
  intros Hget Hpar. unfold updateAndDownloadWorkDocuments.
  unfold bind at 1. unfold orFatal at 1. unfold Files_Get. rewrite Hget.
  rewrite Hpar. reflexivity.
Qed.

(** C9, as the code has it: on a template whose parent list is empty the
    templater does not reach [log.Fatalf]; the unguarded
    [template.Parents[0]] ends the run with a run-time panic. *)
Theorem template_without_parent_panics :
  updateAndDownloadWorkDocuments 32 (mkTime 2024 2 1) exampleConfig
    exampleDriveOrphan
  = (exampleDriveOrphan,
     Panic "runtime error: index out of range [0] with length 0")
  /\ forall msg,
       result (updateAndDownloadWorkDocuments 32 (mkTime 2024 2 1)
                 exampleConfig) exampleDriveOrphan
       <> Fatal msg.
Proof.
  assert (updateAndDownloadWorkDocuments 32 (mkTime 2024 2 1) exampleConfig
            exampleDriveOrphan
          = (exampleDriveOrphan,
             Panic "runtime error: index out of range [0] with length 0"))
    as H by (apply (template_without_parent _ _ _ _
                      {| Id := "tpl"; Name := "Invoice yyyymm"; Parents := [] |});
             reflexivity).
  split; [exact H|]. intros msg. unfold result. rewrite H. discriminate.
Qed.

(** A template whose name has no [yyyymm] is itself the file with the
    target name: it is deleted, and the copy fails. *)
Example template_named_as_target_example :
  updateAndDownloadWorkDocuments 32 (mkTime 2024 2 1) exampleConfig
    {| DriveFiles := [ {| Id := "tpl"; Name := "Invoice"; Parents := ["folder"] |} ];
       PageSize := 100; DocUpdates := []; Downloads := [] |}
  = ({| DriveFiles := []; PageSize := 100; DocUpdates := []; Downloads := [] |},
     Fatal "Failed to copy template").
Proof. vm_compute. reflexivity. Qed.

(** * Further properties of the program *)

(** ** The extractors *)

Section ExtractorFacts.

Variable Parse_RFC3339 : string -> option Time.
Variable Parse_date : string -> option Time.

Lemma resolveDate_outcomes item :
  (exists date, resolveDate Parse_RFC3339 Parse_date item = OK date)
  \/ resolveDate Parse_RFC3339 Parse_date item
     = Fatal "Failed to parse calendar datetime"
  \/ resolveDate Parse_RFC3339 Parse_date item
     = Fatal "Failed to parse calendar date".
Proof.
  unfold resolveDate.
  destruct (negb (String.eqb (Start_DateTime item) "")).
  - destruct (Parse_RFC3339 (Start_DateTime item)); eauto.
  - destruct (Parse_date (Start_Date item)); eauto.
Qed.

Lemma collectWorkDays_failure targetTime config pre bad post msg :
  forall workDays,
  (forall item, In item pre ->
     exists date, resolveDate Parse_RFC3339 Parse_date item = OK date) ->
  resolveDate Parse_RFC3339 Parse_date bad = Fatal msg ->
  collectWorkDays Parse_RFC3339 Parse_date targetTime config
    (pre ++ bad :: post) workDays = Fatal msg.
Proof.
  induction pre as [|item pre IH]; intros workDays Hpre Hbad.
  - cbn [app collectWorkDays]. now rewrite Hbad.
  - cbn [app collectWorkDays].
    destruct (Hpre item (or_introl eq_refl)) as [date ->].
    assert (forall it, In it pre ->
              exists d, resolveDate Parse_RFC3339 Parse_date it = OK d)
      as Hpre' by (intros it Hit; apply Hpre; now right).
    destruct (negb (Year date =? Year targetTime)
              || negb (Month date =? Month targetTime));
      [now apply IH|].
    destruct (String.eqb (Summary item) (WorkDayTitle config)); now apply IH.
Qed.

(** X1: one event without a readable start ends the extraction: the result
    is the fatal error of the first such event, whatever comes after it and
    whatever was collected before; there is a list of work days exactly
    when every event has a readable start. *)
Theorem getWorkDays_first_failure (pre post : list Event) (bad : Event)
    (msg : string) (targetTime : Time) (config : Config) :
  (forall item, In item pre ->
     exists date, resolveDate Parse_RFC3339 Parse_date item = OK date) ->
  resolveDate Parse_RFC3339 Parse_date bad = Fatal msg ->
  getWorkDays Parse_RFC3339 Parse_date (Some (pre ++ bad :: post)%list)
    targetTime config = Fatal msg
  /\ (msg = "Failed to parse calendar datetime"
      \/ msg = "Failed to parse calendar date").
Proof using Type.
  intros Hpre Hbad. split.
  - cbn [getWorkDays]. now apply collectWorkDays_failure.
  - destruct (resolveDate_outcomes bad) as [[d H] | [H | H]];
      rewrite H in Hbad; [discriminate | | ]; injection Hbad as <-; auto.
Qed.

Lemma collectSchedules_label targetTime config events : forall items,
  collectSchedules Parse_RFC3339 Parse_date targetTime
    (Some (fun e => String.eqb (Summary e) (WorkDayTitle config))) events items
  = collectWorkDays Parse_RFC3339 Parse_date targetTime config events items.
Proof.
  induction events as [|item events IH]; intros items;
    cbn [collectSchedules collectWorkDays]; [reflexivity|].
  destruct (resolveDate Parse_RFC3339 Parse_date item) as [date| | |];
    try reflexivity.
  destruct (negb (Year date =? Year targetTime)
            || negb (Month date =? Month targetTime)); [apply IH|].
  destruct (String.eqb (Summary item) (WorkDayTitle config)); cbn [negb];
    apply IH.
Qed.

Lemma collectSchedules_nil_filter targetTime events : forall items,
  (forall item, In item events ->
     exists date, resolveDate Parse_RFC3339 Parse_date item = OK date) ->
  collectSchedules Parse_RFC3339 Parse_date targetTime None events items
  = OK (items
        ++ flat_map
             (fun item =>
                match resolveDate Parse_RFC3339 Parse_date item with
                | OK date =>
                    if (Year date =? Year targetTime)
                       && (Month date =? Month targetTime)
                    then [date] else []
                | _ => []
                end) events)%list.
Proof.
  induction events as [|item events IH]; intros items Hall.
  - cbn. now rewrite app_nil_r.
  - cbn [collectSchedules flat_map].
    destruct (Hall item (or_introl eq_refl)) as [date ->].
    assert (forall it, In it events ->
              exists d, resolveDate Parse_RFC3339 Parse_date it = OK d)
      as Hall' by (intros it Hit; apply Hall; now right).
    destruct (Year date =? Year targetTime); cbn [negb orb andb].
    + destruct (Month date =? Month targetTime); cbn [negb].
      * rewrite IH by exact Hall'. now rewrite <- app_assoc.
      * now rewrite IH by exact Hall'.
    + now rewrite IH by exact Hall'.
Qed.

(** X2: on every calendar answer the earlier extractor, called with the
    label test of the driver, returns what [getWorkDays] returns, failures
    included; with the [nil] filter it returns the date of every event of
    the target month, whatever its label. *)
Theorem getCalendarSchedules_agrees (events : list Event) (targetTime : Time)
    (config : Config) :
  getCalendarSchedules Parse_RFC3339 Parse_date (Some events)
    (CalendarID config) targetTime
    (Some (fun e => String.eqb (Summary e) (WorkDayTitle config)))
  = getWorkDays Parse_RFC3339 Parse_date (Some events) targetTime config
  /\ ((forall item, In item events ->
         exists date, resolveDate Parse_RFC3339 Parse_date item = OK date) ->
      exists items,
        getCalendarSchedules Parse_RFC3339 Parse_date (Some events)
          (CalendarID config) targetTime None = OK items
        /\ forall date,
             In date items <->
             exists item,
               In item events
               /\ resolveDate Parse_RFC3339 Parse_date item = OK date
               /\ Year date = Year targetTime
               /\ Month date = Month targetTime).
Proof using Type.
  split; [apply collectSchedules_label|].
  intros Hall. eexists. split.
  - cbn [getCalendarSchedules]. rewrite collectSchedules_nil_filter by exact Hall.
    reflexivity.
  - intros date. cbn [app]. rewrite in_flat_map. split.
    + intros (item & Hin & Hsel). exists item. split; [exact Hin|].
      destruct (resolveDate Parse_RFC3339 Parse_date item) as [d| | |];
        cbn [In] in Hsel; try tauto.
      destruct ((Year d =? Year targetTime) && (Month d =? Month targetTime))
        eqn:E; cbn [In] in Hsel; [|tauto].
      destruct Hsel as [-> | []].
      rewrite andb_true_iff, !Z.eqb_eq in E. tauto.
    + intros (item & Hin & Hres & Hy & Hm). exists item.
      split; [exact Hin|]. rewrite Hres, Hy, Hm, !Z.eqb_refl. now left.
Qed.

Lemma existsb_flat_map {A B} (p : B -> bool) (f : A -> list B) (l : list A) :
  existsb p (flat_map f l) = existsb (fun a => existsb p (f a)) l.
Proof.
  induction l as [|a l IH]; cbn [flat_map existsb]; [reflexivity|].
  now rewrite existsb_app, IH.
Qed.

Lemma existsb_pointwise {A} (f g : A -> bool) (l : list A) :
  (forall x, f x = g x) -> existsb f l = existsb g l.
Proof.
  intros H. induction l as [|x l IH]; cbn [existsb]; [reflexivity|].
  now rewrite H, IH.
Qed.

Lemma workTimeValue_of_events targetTime config events i :
  workTimeValue targetTime
    (flat_map (selectWorkDay Parse_RFC3339 Parse_date targetTime config) events)
    (WorkStartTime config) i
  = if existsb (eventMarksDay Parse_RFC3339 Parse_date targetTime config i)
         events
    then WorkStartTime config else "".
Proof using Type.
  rewrite workTimeValue_spec, existsb_flat_map.
  rewrite (existsb_pointwise _
             (eventMarksDay Parse_RFC3339 Parse_date targetTime config i));
    [reflexivity|].
  intros item.
  unfold selectWorkDay, eventMarksDay.
  destruct (resolveDate Parse_RFC3339 Parse_date item) as [date| | |];
    try reflexivity.
  destruct (Z.eqb_spec (Year date) (Year targetTime)) as [Ey|Ey];
    cbn [andb existsb]; [|reflexivity].
  destruct (Z.eqb_spec (Month date) (Month targetTime)) as [Em|Em];
    cbn [andb existsb]; [|reflexivity].
  destruct (String.eqb (Summary item) (WorkDayTitle config));
    cbn [andb existsb]; [|reflexivity].
  unfold isWorkDayAt. rewrite Ey, Em, !Z.eqb_refl, orb_false_r.
  cbn [andb]. apply Z.eqb_sym.
Qed.

Lemma collectWorkDays_OK_inv targetTime config items : forall workDays r,
  collectWorkDays Parse_RFC3339 Parse_date targetTime config items workDays
  = OK r ->
  forall item, In item items ->
    exists date, resolveDate Parse_RFC3339 Parse_date item = OK date.
Proof using Type.
  induction items as [|x items IH]; intros workDays r H item Hin;
    [destruct Hin|].
  cbn [collectWorkDays] in H.
  destruct (resolveDate Parse_RFC3339 Parse_date x) as [date| | |] eqn:Hx;
    try discriminate.
  destruct Hin as [<- | Hin]; [now exists date|].
  destruct (negb (Year date =? Year targetTime)
            || negb (Month date =? Month targetTime));
    [now apply (IH _ _ H)|].
  destruct (String.eqb (Summary x) (WorkDayTitle config));
    now apply (IH _ _ H).
Qed.

(** X3: from the calendar to the sheet: when every event has a readable
    start, row [i] of the attendance column built from the extracted work
    days holds the start time exactly when some event of the target month
    with the marker label falls on day [i], and is empty otherwise. *)
Theorem events_to_attendance_column (events : list Event) (targetTime : Time)
    (config : Config) :
  (forall item, In item events ->
     exists date, resolveDate Parse_RFC3339 Parse_date item = OK date) ->
  exists workDays,
    getWorkDays Parse_RFC3339 Parse_date (Some events) targetTime config
    = OK workDays
    /\ forall i, 1 <= i <= 31 ->
         nth_error (workTimeValues targetTime workDays config)
           (Z.to_nat (i - 1))
         = Some [if existsb
                      (eventMarksDay Parse_RFC3339 Parse_date targetTime
                         config i) events
                 then WorkStartTime config else ""].
Proof using Type.
  intros Hall. eexists. split.
  - cbn [getWorkDays]. rewrite collectWorkDays_spec by exact Hall. reflexivity.
  - intros i Hi. cbn [app].
    rewrite workTimeValues_spec, nth_error_map, nth_error_zrange by lia.
    cbn [option_map]. replace (1 + Z.of_nat (Z.to_nat (i - 1))) with i by lia.
    now rewrite workTimeValue_of_events.
Qed.

End ExtractorFacts.

Lemma exampleEvents_resolve item :
  In item exampleEvents ->
  exists date, resolveDate exampleParseTime exampleParseDay item = OK date.
Proof.
  intros Hin. cbn [exampleEvents In] in Hin.
  repeat (destruct Hin as [<- | Hin]; [eexists; vm_compute; reflexivity|]).
  destruct Hin.
Qed.

Lemma getWorkDays_first_failure_witness :
  getWorkDays exampleParseTime exampleParseDay
    (Some (exampleEvents ++ exampleBadEvent :: exampleEvents)%list)
    (mkTime 2024 2 1) exampleConfig
  = Fatal "Failed to parse calendar date".
Proof.
  apply (getWorkDays_first_failure exampleParseTime exampleParseDay
           exampleEvents exampleEvents exampleBadEvent).
  - exact exampleEvents_resolve.
  - vm_compute. reflexivity.
Defined.

Lemma getCalendarSchedules_agrees_witness :
  (exists items,
     getCalendarSchedules exampleParseTime exampleParseDay (Some exampleEvents)
       (CalendarID exampleConfig) (mkTime 2024 2 1) None = OK items
     /\ In (mkTime 2024 2 11) items)
  /\ getCalendarSchedules exampleParseTime exampleParseDay (Some exampleEvents)
       (CalendarID exampleConfig) (mkTime 2024 2 1)
       (Some (fun e => String.eqb (Summary e) (WorkDayTitle exampleConfig)))
     = OK [mkTime 2024 2 3; mkTime 2024 2 10].
Proof.
  destruct (getCalendarSchedules_agrees exampleParseTime exampleParseDay
              exampleEvents (mkTime 2024 2 1) exampleConfig) as [Heq Hnil].
  split.
  - destruct (Hnil exampleEvents_resolve) as (items & Hitems & Hin).
    exists items. split; [exact Hitems|]. apply Hin.
    eexists. split; [do 3 right; left; reflexivity|].
    repeat split; vm_compute; reflexivity.
  - rewrite Heq. vm_compute. reflexivity.
Defined.

Lemma events_to_attendance_column_witness :
  exists workDays,
    getWorkDays exampleParseTime exampleParseDay (Some exampleEvents)
      (mkTime 2024 2 1) exampleConfig = OK workDays
    /\ nth_error (workTimeValues (mkTime 2024 2 1) workDays exampleConfig) 9
       = Some ["09:00"]
    /\ nth_error (workTimeValues (mkTime 2024 2 1) workDays exampleConfig) 10
       = Some [""].
Proof.
  destruct (events_to_attendance_column exampleParseTime exampleParseDay
              exampleEvents (mkTime 2024 2 1) exampleConfig
              exampleEvents_resolve) as (workDays & Hw & Hcol).
  exists workDays. split; [exact Hw|]. split.
  - pose proof (Hcol 10 ltac:(lia)) as H.
    change (Z.to_nat (10 - 1)) with 9%nat in H. rewrite H.
    vm_compute. reflexivity.
  - pose proof (Hcol 11 ltac:(lia)) as H.
    change (Z.to_nat (11 - 1)) with 10%nat in H. rewrite H.
    vm_compute. reflexivity.
Defined.

(** ** The lower bound of the calendar query *)

Lemma timeMinCheck_shift y m k :
  timeMinCheck (y + 400 * k) m = timeMinCheck y m.
Proof.
  unfold timeMinCheck, twoMonthsBefore.
  rewrite Date_shift, previousMonth_shift.
  change (Year (shiftYears (400 * k) (previousMonth y m)))
    with (Year (previousMonth y m) + 400 * k).
  change (Month (shiftYears (400 * k) (previousMonth y m)))
    with (Month (previousMonth y m)).
  rewrite previousMonth_shift.
  set (q := previousMonth (Year (previousMonth y m)) (Month (previousMonth y m))).
  change (Year (shiftYears (400 * k) q)) with (Year q + 400 * k).
  change (Month (shiftYears (400 * k) q)) with (Month q).
  rewrite daysIn_shift, mkTime_shiftYears, Time_eqb_shift. reflexivity.
Qed.

Lemma timeMinYearCheck_shift y k :
  timeMinYearCheck (y + 400 * k) = timeMinYearCheck y.
Proof.
  unfold timeMinYearCheck. apply forallb_pointwise. intros m.
  apply timeMinCheck_shift.
Qed.

Lemma timeMinYearCheck_cycle : forallb timeMinYearCheck (zrange 0 400) = true.
Proof. vm_compute. reflexivity. Qed.

Lemma timeMinYearCheck_unfold y :
  forallb (timeMinCheck y) (zrange 1 12) = timeMinYearCheck y.
Proof. unfold timeMinYearCheck. reflexivity. Qed.

Lemma timeMinCheck_unfold y m :
  Time_eqb (Date y (m - 1) (1 - 1))
    (mkTime (Year (twoMonthsBefore y m)) (Month (twoMonthsBefore y m))
       (daysIn (Year (twoMonthsBefore y m)) (Month (twoMonthsBefore y m))))
  = timeMinCheck y m.
Proof. unfold timeMinCheck. reflexivity. Qed.

Lemma timeMinCheck_all y m : 1 <= m <= 12 -> timeMinCheck y m = true.
Proof.
  intros Hm.
  assert (timeMinYearCheck y = true) as H.
  { replace y with (y mod 400 + 400 * (y / 400))
      by (pose proof (Z.div_mod y 400); lia).
    rewrite timeMinYearCheck_shift.
    pose proof timeMinYearCheck_cycle as H. rewrite forallb_forall in H.
    apply H. apply In_zrange. pose proof (Z.mod_pos_bound y 400). lia. }
  rewrite <- timeMinYearCheck_unfold in H. rewrite forallb_forall in H.
  apply H. apply In_zrange. lia.
Qed.

(** X4: for the first day of any month, in any year, the lower bound of
    the calendar query is the last day of the month two months before: the
    query reaches back over the whole previous month and one day more. *)
Theorem eventsTimeMin_two_months_back (y m : Z) :
  1 <= m <= 12 ->
  let q := twoMonthsBefore y m in
  eventsTimeMin (mkTime y m 1)
  = mkTime (Year q) (Month q) (daysIn (Year q) (Month q)).
Proof.
  intros Hm q. unfold eventsTimeMin, AddDate. cbn [Year Month Day].
  rewrite Z.add_0_r. change (m + -1) with (m - 1). change (1 + -1) with (1 - 1).
  apply Time_eqb_eq. rewrite timeMinCheck_unfold. now apply timeMinCheck_all.
Qed.

Lemma eventsTimeMin_two_months_back_witness :
  eventsTimeMin (mkTime 2024 2 1) = mkTime 2023 12 31
  /\ eventsTimeMin (mkTime 2024 1 1) = mkTime 2023 11 30
  /\ eventsTimeMin (mkTime 2024 4 1) = mkTime 2024 2 29.
Proof.
  split; [|split].
  - apply (eventsTimeMin_two_months_back 2024 2). lia.
  - apply (eventsTimeMin_two_months_back 2024 1). lia.
  - apply (eventsTimeMin_two_months_back 2024 4). lia.
Defined.

(** ** The synchroniser, spreadsheet by spreadsheet *)

Lemma touchesOnly_ret {A} id (a : A) : touchesOnly id (ret a).
Proof. intros st id' _. reflexivity. Qed.

Lemma touchesOnly_fatal {A} id msg : touchesOnly id (@log_Fatalf _ A msg).
Proof. intros st id' _. reflexivity. Qed.

Lemma touchesOnly_bind {A B} id (c : M SheetsRemote A)
    (k : A -> M SheetsRemote B) :
  touchesOnly id c -> (forall a, touchesOnly id (k a)) ->
  touchesOnly id (bind c k).
Proof.
  intros Hc Hk st id' Hne. unfold bind.
  specialize (Hc st id' Hne).
  destruct (c st) as [st1 [a| | |]]; cbn [fst] in *; try exact Hc.
  rewrite (Hk a st1 id' Hne). exact Hc.
Qed.

Lemma touchesOnly_orFatal {A} id msg (c : api SheetsRemote A) :
  touchesOnly id c -> touchesOnly id (orFatal msg c).
Proof.
  intros Hc st id' Hne. unfold orFatal. specialize (Hc st id' Hne).
  destruct (c st) as [st1 [a|]]; exact Hc.
Qed.

Lemma touchesOnly_Get id : touchesOnly id (Spreadsheets_Get id).
Proof. intros st id' _. reflexivity. Qed.

Lemma touchesOnly_CopyTo id sheetID : touchesOnly id (Sheets_CopyTo id sheetID id).
Proof.
  intros st id' Hne. unfold Sheets_CopyTo. cbn [logCall Documents].
  destruct (Documents st !! id) as [sp|]; [|reflexivity].
  destruct (findSheetById sheetID (Sheets sp)); [|reflexivity].
  cbn [fst setDocument Documents]. now apply lookup_insert_ne.
Qed.

Lemma touchesOnly_UpdateSheetProperties id sheetID title index :
  touchesOnly id (BatchUpdate_UpdateSheetProperties id sheetID title index).
Proof.
  intros st id' Hne. unfold BatchUpdate_UpdateSheetProperties.
  cbn [logCall Documents].
  destruct (Documents st !! id) as [sp|]; [|reflexivity].
  destruct (findSheetById sheetID (Sheets sp)); [|reflexivity].
  destruct (existsb _ _); [reflexivity|].
  cbn [fst setDocument Documents]. now apply lookup_insert_ne.
Qed.

Lemma touchesOnly_Values_Update id range values :
  touchesOnly id (Values_Update id range values).
Proof.
  intros st id' Hne. unfold Values_Update. cbn [logCall Documents].
  destruct (Documents st !! id) as [sp|]; [|reflexivity].
  destruct (findSheetByTitle _ _); [|reflexivity].
  destruct (_ || _); [reflexivity|].
  cbn [fst setDocument Documents]. now apply lookup_insert_ne.
Qed.

Lemma touchesOnly_export id gid name :
  touchesOnly id (exportSpreadsheet id gid name).
Proof. intros st id' _. reflexivity. Qed.

Lemma touchesOnly_syncSpreadsheet targetTime workDays config id :
  touchesOnly id (syncSpreadsheet targetTime workDays config id).
Proof.
  unfold syncSpreadsheet.
  apply touchesOnly_bind;
    [apply touchesOnly_orFatal, touchesOnly_Get | intros spreadsheet].
  apply touchesOnly_bind.
  - destruct (findTargetSheetID targetTime (Sheets spreadsheet) =? 0);
      [|apply touchesOnly_ret].
    destruct (findCopyFrom targetTime (Sheets spreadsheet)) as [copyFrom|];
      [|apply touchesOnly_fatal].
    apply touchesOnly_bind;
      [apply touchesOnly_orFatal, touchesOnly_CopyTo | intros dest].
    apply touchesOnly_bind;
      [apply touchesOnly_orFatal, touchesOnly_UpdateSheetProperties
      | intros _; apply touchesOnly_ret].
  - intros targetSheetID.
    apply touchesOnly_bind;
      [apply touchesOnly_orFatal, touchesOnly_Values_Update | intros _].
    apply touchesOnly_bind;
      [apply touchesOnly_orFatal, touchesOnly_Values_Update | intros _].
    apply touchesOnly_orFatal, touchesOnly_export.
Qed.

(** X5: however a run of the synchroniser ends, a spreadsheet that is not
    listed in the configuration is left exactly as it was. *)
Theorem unlisted_spreadsheets_untouched (targetTime : Time)
    (workDays : list Time) (config : Config) (st : SheetsRemote)
    (id' : string) :
  ~ In id' (WorkSpreadsheetIDs config) ->
  Documents
    (exec (updateAndDownloadWorkSpreadsheets targetTime workDays config) st)
  !! id'
  = Documents st !! id'.
Proof.
  unfold updateAndDownloadWorkSpreadsheets, exec.
  generalize (WorkSpreadsheetIDs config) as ids. intros ids. revert st.
  induction ids as [|id ids IH]; intros st Hnot; [reflexivity|].
  cbn [In] in Hnot. rewrite syncSpreadsheets_cons.
  pose proof (touchesOnly_syncSpreadsheet targetTime workDays config id st id')
    as Hone.
  destruct (syncSpreadsheet targetTime workDays config id st) as [st1 [[]| | |]];
    cbn [fst] in *; try (apply Hone; intros E; apply Hnot; now left).
  rewrite IH by tauto. apply Hone. intros E. apply Hnot. now left.
Qed.

(** X6: the loop stops at the first spreadsheet that fails: the run ends
    with that failure, and the spreadsheets listed after it that were not
    reached before are left as they were. *)
Theorem sync_stops_at_first_failure (targetTime : Time) (workDays : list Time)
    (config : Config) (st : SheetsRemote) (done rest : list string)
    (id id' : string) :
  WorkSpreadsheetIDs config = (done ++ id :: rest)%list ->
  result (syncSpreadsheets targetTime workDays config done) st = OK tt ->
  result (syncSpreadsheet targetTime workDays config id)
    (exec (syncSpreadsheets targetTime workDays config done) st) <> OK tt ->
  ~ In id' (done ++ [id]) ->
  result (updateAndDownloadWorkSpreadsheets targetTime workDays config) st
  = result (syncSpreadsheet targetTime workDays config id)
      (exec (syncSpreadsheets targetTime workDays config done) st)
  /\ Documents
       (exec (updateAndDownloadWorkSpreadsheets targetTime workDays config) st)
     !! id'
     = Documents st !! id'.
Proof.
  unfold updateAndDownloadWorkSpreadsheets. intros ->. revert st.
  induction done as [|d done IH]; intros st Hok Hfail Hnot.
  - change (exec (syncSpreadsheets targetTime workDays config []) st)
      with st in *.
    cbn [app] in *. unfold result, exec in *. rewrite syncSpreadsheets_cons.
    pose proof (touchesOnly_syncSpreadsheet targetTime workDays config id st id')
      as Hone.
    destruct (syncSpreadsheet targetTime workDays config id st)
      as [st1 [[]| | |]]; cbn [fst snd] in *; try contradiction;
      (split; [reflexivity|]); apply Hone; intros E; apply Hnot; now left.
  - cbn [app] in *. unfold result, exec in *.
    rewrite !syncSpreadsheets_cons. rewrite syncSpreadsheets_cons in Hok, Hfail.
    pose proof (touchesOnly_syncSpreadsheet targetTime workDays config d st id')
      as Hone.
    destruct (syncSpreadsheet targetTime workDays config d st)
      as [st1 [[]| | |]]; cbn [fst snd] in *; try discriminate.
    destruct (IH st1 Hok Hfail) as [H1 H2].
    + intros Hin. apply Hnot. now right.
    + split; [exact H1|]. rewrite H2. apply Hone.
      intros E. apply Hnot. now left.
Qed.

Lemma write_phase_state targetTime workDays config id targetSheetID name st sp s :
  Documents st !! id = Some sp ->
  findSheetByTitle (Format_200601 targetTime) (Sheets sp) = Some s ->
  (orFatal "Failed to set work month to sheet"
     (Values_Update id (rangeM3 targetTime)
        [[Format_2006_01_02 targetTime]]) ;;;
   orFatal "Failed to set work times to sheet"
     (Values_Update id (rangeD7D37 targetTime)
        (workTimeValues targetTime workDays config)) ;;;
   orFatal "Failed to export spreadsheet"
     (exportSpreadsheet id targetSheetID name)) st
  = ({| Documents :=
          <[id := {| SpreadsheetTitle := SpreadsheetTitle sp;
                     Sheets := updateSheetByTitle (Format_200601 targetTime)
                                 (writeTarget targetTime workDays config)
                                 (Sheets sp) |}]> (Documents st);
        SheetsLog :=
          SheetsLog st
          ++ [CallValuesUpdate id (A1 (rangeM3 targetTime))
                [[Format_2006_01_02 targetTime]];
              CallValuesUpdate id (A1 (rangeD7D37 targetTime))
                (workTimeValues targetTime workDays config);
              CallExport id targetSheetID name] |}, OK tt).
Proof.
  intros Hdoc Hfind. unfold bind, orFatal.
  rewrite (Values_Update_eq _ _ _ _ _ Hdoc). cbv zeta.
  cbn [rangeM3 a1Sheet a1Col a1Row1 a1Row2]. rewrite Hfind.
  cbn [length existsb Nat.ltb Nat.leb orb Z.of_nat].
  change (3 - 3 + 1 <? Z.of_nat 1) with false.
  cbn [orb]. cbv beta iota zeta.
  set (sp1 := {| SpreadsheetTitle := SpreadsheetTitle sp; Sheets := _ |}).
  set (st1 := setDocument id sp1 _).
  assert (Documents st1 !! id = Some sp1) as Hdoc1
    by (unfold st1; cbn [setDocument Documents logCall]; apply lookup_insert_eq).
  rewrite (Values_Update_eq _ _ _ _ _ Hdoc1). cbv zeta.
  cbn [rangeD7D37 a1Sheet a1Col a1Row1 a1Row2].
  assert (findSheetByTitle (Format_200601 targetTime) (Sheets sp1)
          = Some (writeRange (rangeM3 targetTime)
                    [[Format_2006_01_02 targetTime]] s)) as Hfind1.
  { unfold sp1. cbn [Sheets]. apply findSheetByTitle_update; [reflexivity|].
    exact Hfind. }
  rewrite Hfind1, workTimeValues_fit. cbv beta iota zeta.
  unfold exportSpreadsheet, st1, sp1, logCall, setDocument.
  cbn [Documents SheetsLog Sheets SpreadsheetTitle].
  rewrite insert_insert_eq, updateSheetByTitle_twice by reflexivity.
  rewrite <- !app_assoc. reflexivity.
Qed.

Lemma lookup_writeColumn_after col values : forall row cells r,
  row + Z.of_nat (length values) <= r ->
  writeColumn col row values cells !! (col, r) = cells !! (col, r).
Proof.
  induction values as [|v values IH]; intros row cells r Hr;
    cbn [writeColumn]; [reflexivity|].
  cbn [length] in Hr. rewrite IH by lia. destruct v as [|x v]; [reflexivity|].
  apply lookup_insert_ne. intros [= E]. lia.
Qed.

Lemma workTimeValues_length targetTime workDays config :
  length (workTimeValues targetTime workDays config) = 31%nat.
Proof.
  rewrite workTimeValues_spec, length_map. unfold zrange.
  now rewrite length_map, length_seq.
Qed.

(** The cells outside M3 and D7 to D37 are the same before and after the
    write. *)
Lemma writeTarget_frame targetTime workDays config s col row :
  writtenCell col row = false ->
  Cells (writeTarget targetTime workDays config s) !! (col, row)
  = Cells s !! (col, row).
Proof.
  intros Hw. unfold writtenCell in Hw. apply orb_false_iff in Hw.
  destruct Hw as [HM HD].
  unfold writeTarget, writeRange.
  cbn [Cells rangeM3 rangeD7D37 a1Col a1Row1].
  assert (writeColumn "M" 3 [[Format_2006_01_02 targetTime]] (Cells s)
          !! (col, row) = Cells s !! (col, row)) as HMf.
  { destruct (String.eqb_spec col "M") as [-> | Hne].
    - cbn [andb] in HM. apply Z.eqb_neq in HM.
      destruct (Z.lt_ge_cases row 3).
      + now apply lookup_writeColumn_before.
      + apply lookup_writeColumn_after. cbn [length]. lia.
    - now apply lookup_writeColumn_other. }
  rewrite <- HMf.
  destruct (String.eqb_spec col "D") as [-> | Hne].
  - cbn [andb] in HD. apply andb_false_iff in HD.
    destruct HD as [HD | HD].
    + apply Z.leb_gt in HD. now apply lookup_writeColumn_before.
    + apply Z.leb_gt in HD. apply lookup_writeColumn_after.
      rewrite workTimeValues_length. lia.
  - now apply lookup_writeColumn_other.
Qed.

Lemma map_update_same {B} (h : Sheet -> B) title f sheets :
  (forall s, h (f s) = h s) ->
  map h (updateSheetByTitle title f sheets) = map h sheets.
Proof.
  intros Hf. induction sheets as [|s l IH]; cbn [updateSheetByTitle map];
    [reflexivity|].
  destruct (String.eqb (Title s) title); cbn [map]; now rewrite ?Hf, ?IH.
Qed.

Lemma findSheetByTitle_update_other title title' f sheets :
  (forall s, Title (f s) = Title s) -> title' <> title ->
  findSheetByTitle title' (updateSheetByTitle title f sheets)
  = findSheetByTitle title' sheets.
Proof.
  intros Hf Hne. unfold findSheetByTitle.
  induction sheets as [|s l IH]; cbn [updateSheetByTitle find]; [reflexivity|].
  destruct (String.eqb_spec (Title s) title) as [E|E]; cbn [find].
  - rewrite Hf. destruct (String.eqb_spec (Title s) title') as [E'|E'];
      [congruence | reflexivity].
  - now rewrite IH.
Qed.

(** X7: when the spreadsheet has a page for the target month with a
    non-zero identifier, the loop body ends well with four calls (read,
    the two writes, the export of that page) and no copy; the pages keep
    their number, identifiers, titles and order, and no cell changes but
    M3 and D7 to D37 of the target page. *)
Theorem sync_existing_page_overwrites_range (targetTime : Time)
    (workDays : list Time) (config : Config) (id : string)
    (st : SheetsRemote) (sp : Spreadsheet) :
  Documents st !! id = Some sp ->
  findTargetSheetID targetTime (Sheets sp) <> 0 ->
  let run := syncSpreadsheet targetTime workDays config id in
  result run st = OK tt
  /\ SheetsLog (exec run st)
     = (SheetsLog st
        ++ [CallGet id;
            CallValuesUpdate id (A1 (rangeM3 targetTime))
              [[Format_2006_01_02 targetTime]];
            CallValuesUpdate id (A1 (rangeD7D37 targetTime))
              (workTimeValues targetTime workDays config);
            CallExport id (findTargetSheetID targetTime (Sheets sp))
              (Format_200601 targetTime ++ SpreadsheetTitle sp ++ ".pdf")])%list
  /\ (exists sp',
        Documents (exec run st) !! id = Some sp'
        /\ SpreadsheetTitle sp' = SpreadsheetTitle sp
        /\ map SheetId (Sheets sp') = map SheetId (Sheets sp)
        /\ map Title (Sheets sp') = map Title (Sheets sp))
  /\ (forall title col row,
        title <> Format_200601 targetTime \/ writtenCell col row = false ->
        cellOf (exec run st) id title col row = cellOf st id title col row).
Proof.
  intros Hdoc Hne run.
  destruct (findTargetSheetID_cases targetTime (Sheets sp))
    as [H0 | (s0 & Hin & Ht & _)]; [contradiction|].
  destruct (findSheetByTitle_In _ _ _ Hin Ht) as [s Hs].
  assert (run st
          = ({| Documents :=
                  <[id := {| SpreadsheetTitle := SpreadsheetTitle sp;
                             Sheets :=
                               updateSheetByTitle (Format_200601 targetTime)
                                 (writeTarget targetTime workDays config)
                                 (Sheets sp) |}]> (Documents st);
                SheetsLog :=
                  (SheetsLog st ++ [CallGet id])
                  ++ [CallValuesUpdate id (A1 (rangeM3 targetTime))
                        [[Format_2006_01_02 targetTime]];
                      CallValuesUpdate id (A1 (rangeD7D37 targetTime))
                        (workTimeValues targetTime workDays config);
                      CallExport id (findTargetSheetID targetTime (Sheets sp))
                        (Format_200601 targetTime ++ SpreadsheetTitle sp
                         ++ ".pdf")] |}, OK tt)) as Hrun.
  { unfold run, syncSpreadsheet.
    unfold bind at 1. unfold orFatal at 1. unfold Spreadsheets_Get.
    rewrite Hdoc. apply Z.eqb_neq in Hne. rewrite Hne.
    unfold bind at 1. unfold ret at 1.
    now rewrite (write_phase_state _ _ _ _ _ _ _ sp s). }
  unfold result, exec. rewrite Hrun. cbn [fst snd Documents SheetsLog].
  split; [reflexivity|].
  split; [now rewrite <- app_assoc|].
  split.
  - eexists. split; [apply lookup_insert_eq|]. cbn [SpreadsheetTitle Sheets].
    split; [reflexivity|].
    split; apply map_update_same; reflexivity.
  - intros title col row Hcase. unfold cellOf. cbn [Documents].
    rewrite lookup_insert_eq, Hdoc. cbn [Sheets].
    destruct (String.eqb_spec title (Format_200601 targetTime)) as [-> | Hti].
    + destruct Hcase as [Hc | Hc]; [contradiction|].
      rewrite (findSheetByTitle_update _ _ _ s), Hs by
        (reflexivity || exact Hs).
      now apply writeTarget_frame.
    + now rewrite findSheetByTitle_update_other by (reflexivity || exact Hti).
Qed.

Lemma findSheetById_unique sheets s :
  List.NoDup (map SheetId sheets) -> In s sheets ->
  findSheetById (SheetId s) sheets = Some s.
Proof.
  unfold findSheetById.
  induction sheets as [|x l IH]; cbn [map In find]; [tauto|].
  intros Hnd Hin. apply List.NoDup_cons_iff in Hnd. destruct Hnd as [Hx Hnd].
  destruct Hin as [-> | Hin]; [now rewrite Z.eqb_refl|].
  destruct (Z.eqb_spec (SheetId x) (SheetId s)) as [E|E].
  - exfalso. apply Hx. rewrite E. now apply in_map.
  - now apply IH.
Qed.

(** X8: when the spreadsheet has no page titled as the target month but
    one titled as the month before, the loop body ends well with six
    calls: the page of the month before is copied, the copy is renamed to
    the target month and put first, written and exported.  The new page
    has a fresh non-zero identifier and, outside M3 and D7 to D37, the
    cells of the page it was copied from; the pages that were there follow
    it unchanged. *)
Theorem sync_clones_previous_month (targetTime : Time) (workDays : list Time)
    (config : Config) (id : string) (st : SheetsRemote) (sp : Spreadsheet)
    (copyFrom : Sheet) :
  Documents st !! id = Some sp ->
  List.NoDup (map SheetId (Sheets sp)) ->
  (forall s, In s (Sheets sp) -> Title s <> Format_200601 targetTime) ->
  findCopyFrom targetTime (Sheets sp) = Some copyFrom ->
  let run := syncSpreadsheet targetTime workDays config id in
  let newId := freshSheetId (Sheets sp) in
  result run st = OK tt
  /\ newId <> 0 /\ ~ In newId (map SheetId (Sheets sp))
  /\ SheetsLog (exec run st)
     = (SheetsLog st
        ++ [CallGet id;
            CallCopyTo id (SheetId copyFrom) id;
            CallUpdateSheetProperties id newId (Format_200601 targetTime) 0;
            CallValuesUpdate id (A1 (rangeM3 targetTime))
              [[Format_2006_01_02 targetTime]];
            CallValuesUpdate id (A1 (rangeD7D37 targetTime))
              (workTimeValues targetTime workDays config);
            CallExport id newId
              (Format_200601 targetTime ++ SpreadsheetTitle sp ++ ".pdf")])%list
  /\ exists newPage,
       Documents (exec run st) !! id
       = Some {| SpreadsheetTitle := SpreadsheetTitle sp;
                 Sheets := newPage :: Sheets sp |}
       /\ SheetId newPage = newId
       /\ Title newPage = Format_200601 targetTime
       /\ forall col row,
            writtenCell col row = false ->
            Cells newPage !! (col, row) = Cells copyFrom !! (col, row).
Proof.
  intros Hdoc Hnd Hno Hcf run newId.
  assert (In copyFrom (Sheets sp)) as Hcin
    by (unfold findCopyFrom in Hcf; apply find_some in Hcf; tauto).
  pose proof (findSheetById_unique _ _ Hnd Hcin) as Hbyid.
  pose proof (freshSheetId_pos (Sheets sp)) as Hpos.
  set (dest' := {| SheetId := freshSheetId (Sheets sp);
                   Title := Format_200601 targetTime;
                   Cells := Cells copyFrom |}).
  assert (run st
          = ({| Documents :=
                  <[id := {| SpreadsheetTitle := SpreadsheetTitle sp;
                             Sheets :=
                               writeTarget targetTime workDays config dest'
                               :: Sheets sp |}]> (Documents st);
                SheetsLog :=
                  SheetsLog st
                  ++ [CallGet id;
                      CallCopyTo id (SheetId copyFrom) id;
                      CallUpdateSheetProperties id newId
                        (Format_200601 targetTime) 0;
                      CallValuesUpdate id (A1 (rangeM3 targetTime))
                        [[Format_2006_01_02 targetTime]];
                      CallValuesUpdate id (A1 (rangeD7D37 targetTime))
                        (workTimeValues targetTime workDays config);
                      CallExport id newId
                        (Format_200601 targetTime ++ SpreadsheetTitle sp
                         ++ ".pdf")] |}, OK tt)) as Hrun.
  { unfold run, syncSpreadsheet.
    unfold bind at 1. unfold orFatal at 1. unfold Spreadsheets_Get.
    rewrite Hdoc.
    unfold findTargetSheetID. rewrite fold_target_no_match by exact Hno.
    change (0 =? 0) with true. cbv iota. rewrite Hcf.
    unfold bind at 1. unfold bind at 1. unfold orFatal at 1.
    unfold Sheets_CopyTo. cbn [logCall Documents]. rewrite Hdoc, Hbyid.
    unfold bind at 1. unfold orFatal at 1.
    unfold BatchUpdate_UpdateSheetProperties.
    cbn [logCall setDocument Documents SheetId Sheets SpreadsheetTitle].
    rewrite lookup_insert_eq. cbn [Sheets SpreadsheetTitle].
    destruct (findSheetById_fresh (Sheets sp)
                {| SheetId := freshSheetId (Sheets sp);
                   Title := copyTitle (Title copyFrom);
                   Cells := Cells copyFrom |} eq_refl) as [Hf1 Hf2].
    rewrite Hf1, Hf2.
    assert (existsb (fun s' => String.eqb (Title s') (Format_200601 targetTime))
              (Sheets sp) = false) as Hdup.
    { destruct (existsb _ (Sheets sp)) eqn:E; [|reflexivity].
      apply existsb_exists in E. destruct E as (s & Hs & Hti).
      apply String.eqb_eq in Hti. now apply Hno in Hs. }
    rewrite Hdup. change (Z.to_nat 0) with 0%nat.
    cbn [firstn skipn app Cells]. unfold ret at 1. fold dest'.
    rewrite (write_phase_state _ _ _ _ _ _ _
               {| SpreadsheetTitle := SpreadsheetTitle sp;
                  Sheets := dest' :: Sheets sp |} dest').
    - unfold logCall, setDocument.
      cbn [Documents SheetsLog Sheets SpreadsheetTitle updateSheetByTitle Title
           dest'].
      rewrite String.eqb_refl, !insert_insert_eq, <- !app_assoc.
      reflexivity.
    - cbn [Documents setDocument logCall]. apply lookup_insert_eq.
    - unfold findSheetByTitle. cbn [Sheets find Title dest'].
      now rewrite String.eqb_refl. }
  unfold result, exec. rewrite Hrun. cbn [fst snd Documents SheetsLog].
  split; [reflexivity|].
  split; [unfold newId; lia|].
  split.
  { intros Hin. apply in_map_iff in Hin. destruct Hin as (s & Hs & Hsin).
    pose proof (freshSheetId_above _ _ Hsin). unfold newId in Hs. lia. }
  split; [reflexivity|].
  eexists. split; [apply lookup_insert_eq|].
  split; [reflexivity|]. split; [reflexivity|].
  intros col row Hw. now rewrite writeTarget_frame.
Qed.

Lemma unlisted_spreadsheets_untouched_witness :
  Documents
    (exec (updateAndDownloadWorkSpreadsheets (mkTime 2024 2 1)
             [mkTime 2024 2 3] exampleConfig) exampleSheets) !! "doc2"
  = Documents exampleSheets !! "doc2".
Proof.
  apply unlisted_spreadsheets_untouched.
  cbn [exampleConfig WorkSpreadsheetIDs In]. intros [H | []]. discriminate.
Defined.

Lemma sync_existing_page_overwrites_range_witness :
  let st := exec (syncSpreadsheet (mkTime 2024 2 1) [mkTime 2024 2 3]
                    exampleConfig "doc1") exampleSheets in
  exists sp,
    Documents st !! "doc1" = Some sp
    /\ result (syncSpreadsheet (mkTime 2024 2 1) [] exampleConfig "doc1") st
       = OK tt.
Proof.
  cbv zeta.
  assert (exists sp,
            Documents
              (exec (syncSpreadsheet (mkTime 2024 2 1) [mkTime 2024 2 3]
                       exampleConfig "doc1") exampleSheets) !! "doc1"
            = Some sp
            /\ findTargetSheetID (mkTime 2024 2 1) (Sheets sp) <> 0)
    as (sp & Hdoc & Hne).
  { eexists. split; [vm_compute; reflexivity|]. vm_compute. discriminate. }
  exists sp. split; [exact Hdoc|].
  apply (sync_existing_page_overwrites_range (mkTime 2024 2 1) []
           exampleConfig "doc1" _ sp Hdoc Hne).
Defined.

Lemma sync_clones_previous_month_witness :
  result (syncSpreadsheet (mkTime 2024 2 1) [mkTime 2024 2 3] exampleConfig
            "doc1") exampleSheets = OK tt
  /\ freshSheetId [ {| SheetId := 7; Title := "202401";
                       Cells := {[ ("D", 8) := "10:00" ]} |} ] <> 0.
Proof.
  pose proof (sync_clones_previous_month (mkTime 2024 2 1) [mkTime 2024 2 3]
                exampleConfig "doc1" exampleSheets
                {| SpreadsheetTitle := "Attendance";
                   Sheets := [ {| SheetId := 7; Title := "202401";
                                  Cells := {[ ("D", 8) := "10:00" ]} |} ] |}
                {| SheetId := 7; Title := "202401";
                   Cells := {[ ("D", 8) := "10:00" ]} |}) as H.
  cbv zeta in H. cbn [Sheets] in H.
  destruct H as (H1 & H2 & _).
  - vm_compute. reflexivity.
  - cbn [map SheetId]. repeat constructor. intros [].
  - intros s [<- | []]. vm_compute. discriminate.
  - vm_compute. reflexivity.
  - split; [exact H1 | exact H2].
Defined.

Lemma sync_writes_target_cells_witness :
  cellOf
    (exec (updateAndDownloadWorkSpreadsheets (mkTime 2024 2 1)
             [mkTime 2024 2 3; mkTime 2024 2 10] exampleConfig) exampleSheets)
    "doc1" (Format_200601 (mkTime 2024 2 1)) "M" 3
  = Some (Format_2006_01_02 (mkTime 2024 2 1)).
Proof.
  pose proof (sync_writes_target_cells (mkTime 2024 2 1)
                [mkTime 2024 2 3; mkTime 2024 2 10] exampleConfig exampleSheets
                "doc1") as H.
  cbv zeta in H.
  assert (result
            (updateAndDownloadWorkSpreadsheets (mkTime 2024 2 1)
               [mkTime 2024 2 3; mkTime 2024 2 10] exampleConfig)
            exampleSheets = OK tt) as Hok by (vm_compute; reflexivity).
  assert (In "doc1" (WorkSpreadsheetIDs exampleConfig)) as Hin by (now left).
  specialize (H Hok Hin). destruct H as [HM _]. exact HM.
Defined.

Lemma sync_stops_at_first_failure_witness :
  result (updateAndDownloadWorkSpreadsheets (mkTime 2024 2 1) []
            exampleConfigThree) exampleSheetsTwo
  = Fatal "Failed to determine sheet to copy"
  /\ Documents
       (exec (updateAndDownloadWorkSpreadsheets (mkTime 2024 2 1) []
                exampleConfigThree) exampleSheetsTwo) !! "doc3"
     = Documents exampleSheetsTwo !! "doc3".
Proof.
  destruct (sync_stops_at_first_failure (mkTime 2024 2 1) [] exampleConfigThree
              exampleSheetsTwo ["doc1"] ["doc3"] "doc2" "doc3")
    as [H1 H2].
  - reflexivity.
  - vm_compute. reflexivity.
  - vm_compute. discriminate.
  - cbn [app In]. intros [H | [H | []]]; discriminate.
  - split; [|exact H2]. rewrite H1. vm_compute. reflexivity.
Defined.

(** ** The batch and the names *)

Lemma distinctStrings_NoDup l : distinctStrings l = true -> List.NoDup l.
Proof.
  induction l as [|x l IH]; cbn [distinctStrings]; [constructor|].
  intros H. apply andb_prop in H. destruct H as [Hx Hl].
  constructor; [|now apply IH].
  intros Hin. apply negb_true_iff in Hx.
  assert (existsb (String.eqb x) l = true) as E
    by (apply existsb_exists; exists x; split; [exact Hin|];
        apply String.eqb_refl).
  congruence.
Qed.

Lemma allAmong_incl l1 l2 : allAmong l1 l2 = true -> incl l1 l2.
Proof.
  unfold allAmong. rewrite forallb_forall. intros H x Hx.
  specialize (H x Hx). apply existsb_exists in H.
  destruct H as (z & Hz & E). apply String.eqb_eq in E. now subst.
Qed.

Lemma batchFor_shape targetTime dates :
  (length dates <= 12)%nat ->
  length (batchFor targetTime dates) = 28%nat
  /\ List.NoDup (map ContainsText (batchFor targetTime dates))
  /\ incl (map ContainsText (batchFor targetTime dates)) placeholderTokens
  /\ incl placeholderTokens (map ContainsText (batchFor targetTime dates)).
Proof.
  intros Hl. unfold batchFor.
  generalize (Format_2006 targetTime) (Format_1 targetTime)
    (Format_2 (AddDate targetTime 0 1 (-1))).
  intros h1 h2 h3.
  generalize (strconv_Itoa (8 * Z.of_nat (length dates))). intros tot.
  replace (length dates) with (length (map Format_1_2 dates))
    by apply length_map.
  assert (length (map Format_1_2 dates) <= 12)%nat as Hl'
    by (rewrite length_map; exact Hl).
  clear Hl. revert Hl'. generalize (map Format_1_2 dates). intros texts Hl.
  split_list texts 13%nat.
  14: (cbn [length] in Hl; lia).
  all: clear Hl.
  all: split; [reflexivity|].
  all: split; [apply distinctStrings_NoDup; vm_compute; reflexivity|].
  all: split; apply allAmong_incl; vm_compute; reflexivity.
Qed.

(** X9: for every month the batch has exactly 28 requests, one for each
    token of the template's vocabulary and none for anything else. *)
Theorem batch_addresses_each_token_once (y m : Z) (fuel : nat) :
  1 <= m <= 12 -> (32 <= fuel)%nat ->
  exists req,
    placeholderRequests fuel (mkTime y m 1) = Some req
    /\ length req = 28%nat
    /\ List.NoDup (map ContainsText req)
    /\ (forall key, In key (map ContainsText req) <-> In key placeholderTokens).
Proof.
  intros Hm Hf. eexists. split; [now apply placeholderRequests_spec|].
  destruct (batchFor_shape (mkTime y m 1) (slotDates y m)
              (slotDates_length y m)) as (H1 & H2 & H3 & H4).
  split; [exact H1|]. split; [exact H2|].
  intros key. split; [apply H3 | apply H4].
Qed.

Lemma batch_addresses_each_token_once_witness :
  exists req,
    placeholderRequests 32 (mkTime 2024 9 1) = Some req
    /\ length req = 28%nat
    /\ In "{{day12Hours}}" (map ContainsText req).
Proof.
  destruct (batch_addresses_each_token_once 2024 9 32)
    as (req & Hreq & Hlen & _ & Hkeys); [lia | lia |].
  exists req. split; [exact Hreq|]. split; [exact Hlen|].
  apply Hkeys. vm_compute. tauto.
Defined.

Lemma substring_append_left a b :
  substring 0 (String.length a) (a ++ b) = a.
Proof.
  induction a as [|c a IH]; simpl.
  - destruct b; reflexivity.
  - f_equal. exact IH.
Qed.

Lemma substring_append_right a b :
  substring (String.length a) (String.length b) (a ++ b) = b.
Proof.
  induction a as [|c a IH]; simpl; [|exact IH].
  induction b as [|c b IHb]; simpl; [reflexivity|].
  f_equal. exact IHb.
Qed.

Lemma string_length_append a b :
  String.length (a ++ b) = (String.length a + String.length b)%nat.
Proof.
  induction a as [|c a IH]; simpl; [reflexivity|].
  f_equal. exact IH.
Qed.

Lemma appendInt_month m :
  1 <= m <= 12 ->
  String.length (appendInt m 2) = 2%nat /\ atoi (appendInt m 2) = Some m.
Proof.
  intros Hm.
  assert (m = 1 \/ m = 2 \/ m = 3 \/ m = 4 \/ m = 5 \/ m = 6 \/ m = 7
          \/ m = 8 \/ m = 9 \/ m = 10 \/ m = 11 \/ m = 12) as Hc by lia.
  repeat (destruct Hc as [-> | Hc]; [split; vm_compute; reflexivity|]).
  subst. split; vm_compute; reflexivity.
Qed.

(** X10: the compact form of a month (years 0 to 9999) has six characters;
    the first four read as the year and the last two as the month.  So two
    months have the same page title only if they are the same month. *)
Theorem Format_200601_reads_back (t : Time) :
  0 <= Year t <= 9999 -> 1 <= Month t <= 12 ->
  String.length (Format_200601 t) = 6%nat
  /\ atoi (substring 0 4 (Format_200601 t)) = Some (Year t)
  /\ atoi (substring 4 2 (Format_200601 t)) = Some (Month t)
  /\ forall t',
       0 <= Year t' <= 9999 -> 1 <= Month t' <= 12 ->
       Format_200601 t = Format_200601 t' ->
       Year t = Year t' /\ Month t = Month t'.
Proof.
  assert (forall u, 0 <= Year u <= 9999 -> 1 <= Month u <= 12 ->
            String.length (Format_200601 u) = 6%nat
            /\ atoi (substring 0 4 (Format_200601 u)) = Some (Year u)
            /\ atoi (substring 4 2 (Format_200601 u)) = Some (Month u)) as H.
  { intros u Hy Hm. unfold Format_200601.
    destruct (Format_2006_four_digits u Hy) as [Hl4 Hv4].
    unfold Format_2006 in Hl4, Hv4.
    destruct (appendInt_month (Month u) Hm) as [Hl2 Hv2].
    split; [rewrite string_length_append; lia|]. split.
    - replace (substring 0 4 (appendInt (Year u) 4 ++ appendInt (Month u) 2))
        with (substring 0 (String.length (appendInt (Year u) 4))
                (appendInt (Year u) 4 ++ appendInt (Month u) 2))
        by (now rewrite Hl4).
      now rewrite substring_append_left.
    - replace (substring 4 2 (appendInt (Year u) 4 ++ appendInt (Month u) 2))
        with (substring (String.length (appendInt (Year u) 4))
                (String.length (appendInt (Month u) 2))
                (appendInt (Year u) 4 ++ appendInt (Month u) 2))
        by (now rewrite Hl4, Hl2).
      now rewrite substring_append_right. }
  intros Hy Hm. destruct (H t Hy Hm) as (H1 & H2 & H3).
  split; [exact H1|]. split; [exact H2|]. split; [exact H3|].
  intros t' Hy' Hm' E. destruct (H t' Hy' Hm') as (_ & H2' & H3').
  rewrite <- E in H2', H3'. split; congruence.
Qed.

Lemma Format_200601_reads_back_witness :
  String.length (Format_200601 (mkTime 987 3 1)) = 6%nat
  /\ atoi (substring 0 4 (Format_200601 (mkTime 987 3 1))) = Some 987.
Proof.
  destruct (Format_200601_reads_back (mkTime 987 3 1)) as (H1 & H2 & _);
    cbn [Year Month]; try lia.
  split; [exact H1 | exact H2].
Defined.

(** ** The name of the target document *)

Lemma strings_Replace1_unfold s old new :
  strings_Replace1 s old new
  = if String.prefix old s
    then new ++ substring (String.length old)
                  (String.length s - String.length old) s
    else match s with
         | EmptyString => EmptyString
         | String c s' => String c (strings_Replace1 s' old new)
         end.
Proof. destruct s; reflexivity. Qed.

Lemma prefix_append old b : String.prefix old (old ++ b) = true.
Proof.
  induction old as [|c old IH]; simpl; [destruct b; reflexivity|].
  destruct (ascii_dec c c); [exact IH | contradiction].
Qed.

Lemma prefix_inv old : forall s,
  String.prefix old s = true -> exists rest, s = old ++ rest.
Proof.
  induction old as [|c old IH]; intros s H.
  - exists s. reflexivity.
  - destruct s as [|c' s]; simpl in H; [discriminate|].
    destruct (ascii_dec c c') as [<- | Hne]; [|discriminate].
    destruct (IH s H) as [rest ->]. exists rest. reflexivity.
Qed.

Lemma strings_Replace1_head old b new :
  strings_Replace1 (old ++ b) old new = new ++ b.
Proof.
  rewrite strings_Replace1_unfold, prefix_append. f_equal.
  rewrite string_length_append.
  replace (String.length old + String.length b - String.length old)%nat
    with (String.length b) by lia.
  apply substring_append_right.
Qed.

Lemma strings_Replace1_absent s old new :
  (forall a b, s <> a ++ old ++ b) -> strings_Replace1 s old new = s.
Proof.
  induction s as [|c s IH]; intros Habs; rewrite strings_Replace1_unfold.
  - destruct (String.prefix old "") eqn:E; [|reflexivity].
    apply prefix_inv in E. destruct E as [rest E].
    exfalso. apply (Habs "" rest). exact E.
  - destruct (String.prefix old (String c s)) eqn:E.
    + apply prefix_inv in E. destruct E as [rest E].
      exfalso. apply (Habs "" rest). exact E.
    + f_equal. apply IH. intros a b E'.
      apply (Habs (String c a) b). simpl. now rewrite E'.
Qed.

Lemma strings_Replace1_leftmost a : forall old b new,
  (forall a1 c, a ++ old ++ b = a1 ++ old ++ c ->
                (String.length a <= String.length a1)%nat) ->
  strings_Replace1 (a ++ old ++ b) old new = a ++ new ++ b.
Proof.
  induction a as [|x a IH]; intros old b new Hleft.
  - change ("" ++ old ++ b) with (old ++ b).
    change ("" ++ new ++ b) with (new ++ b). apply strings_Replace1_head.
  - rewrite strings_Replace1_unfold.
    destruct (String.prefix old (String x a ++ old ++ b)) eqn:E.
    + apply prefix_inv in E. destruct E as [rest E].
      specialize (Hleft "" rest E). simpl in Hleft. lia.
    + change (String x a ++ old ++ b) with (String x (a ++ old ++ b)).
      change (String x a ++ new ++ b) with (String x (a ++ new ++ b)).
      cbv iota. f_equal. apply IH. intros a1 c E'.
      assert (String x a ++ old ++ b = String x a1 ++ old ++ c) as E2
        by (change (String x (a ++ old ++ b) = String x (a1 ++ old ++ c));
            f_equal; exact E').
      specialize (Hleft (String x a1) c E2). simpl in Hleft. lia.
Qed.

Lemma append_cancel_l a x y : a ++ x = a ++ y -> x = y.
Proof.
  induction a as [|c a IH]; simpl; [tauto|]. intros [= E]. now apply IH.
Qed.

Lemma append_cancel_r x y b :
  String.length x = String.length y -> x ++ b = y ++ b -> x = y.
Proof.
  intros Hl E.
  rewrite <- (substring_append_left x b), <- (substring_append_left y b).
  now rewrite E, Hl.
Qed.

Lemma Format_200601_not_token t b :
  0 <= Year t <= 9999 -> 1 <= Month t <= 12 ->
  "yyyymm" ++ b <> Format_200601 t ++ b.
Proof.
  intros Hy Hm E.
  assert (String.length (Format_200601 t) = 6%nat) as Hl.
  { unfold Format_200601. rewrite string_length_append.
    destruct (Format_2006_four_digits t Hy) as [Hl4 _].
    destruct (appendInt_month (Month t) Hm) as [Hl2 _].
    unfold Format_2006 in Hl4. lia. }
  apply append_cancel_r in E; [|now rewrite Hl].
  destruct (Format_2006_four_digits t Hy) as [Hl4 Hv4].
  unfold Format_2006 in Hl4, Hv4.
  assert (substring 0 4 (Format_200601 t) = appendInt (Year t) 4) as Hs.
  { unfold Format_200601.
    replace (substring 0 4 (appendInt (Year t) 4 ++ appendInt (Month t) 2))
      with (substring 0 (String.length (appendInt (Year t) 4))
              (appendInt (Year t) 4 ++ appendInt (Month t) 2))
      by (now rewrite Hl4).
    apply substring_append_left. }
  rewrite <- E in Hs. rewrite <- Hs in Hv4. vm_compute in Hv4. discriminate.
Qed.

(** ** The templater, run by run *)

Lemma freshFileId_length l f :
  In f l -> (String.length (Id f) < String.length (freshFileId l))%nat.
Proof.
  unfold freshFileId. cbn [String.length].
  induction l as [|x l IH]; cbn [In fold_right]; [tauto|].
  rewrite string_length_append. intros [-> | H]; [lia|].
  specialize (IH H). lia.
Qed.

Lemma freshFileId_fresh l : ~ In (freshFileId l) (map Id l).
Proof.
  intros Hin. apply in_map_iff in Hin. destruct Hin as (f & Hf & Hfin).
  pose proof (freshFileId_length l f Hfin) as Hl. rewrite Hf in Hl. lia.
Qed.

Lemma NoDup_snoc {A} (l : list A) x :
  List.NoDup l -> ~ In x l -> List.NoDup (l ++ [x]).
Proof.
  induction l as [|a l IH]; cbn [app]; intros Hnd Hx.
  - constructor; [tauto | constructor].
  - apply List.NoDup_cons_iff in Hnd. destruct Hnd as [Ha Hnd].
    constructor.
    + rewrite in_app_iff. cbn [In]. intros [H | [H | []]]; [tauto|].
      apply Hx. now left.
    + apply IH; [exact Hnd|]. intros H. apply Hx. now right.
Qed.

(** The deletion phase on a store with unique file identifiers, and what
    decides the copy. *)
Lemma templater_deletion fuel config st template folderID parents target :
  (length (DriveFiles st) < fuel)%nat ->
  List.NoDup (map Id (DriveFiles st)) ->
  find (fun f => String.eqb (Id f) (WorkDocumentTemplateID config))
    (DriveFiles st) = Some template ->
  Parents template = folderID :: parents ->
  let kept :=
    List.filter
      (fun f => negb (inFolder folderID f && String.eqb (Name f) target))
      (DriveFiles st) in
  deleteExisting fuel folderID target [] st = (setDriveFiles kept st, OK tt)
  /\ (existsb (fun f => String.eqb (Id f) (WorkDocumentTemplateID config)) kept
      = true <-> Name template <> target).
Proof.
  intros Hlen Hnd Hget Hpar kept.
  assert (length (folderFiles folderID st) < fuel)%nat as Hlen'.
  { unfold folderFiles. pose proof (filter_length_le (inFolder folderID)
                                      (DriveFiles st)). lia. }
  pose proof (deleteExisting_spec folderID target fuel
                (folderFiles folderID st) [] st Hlen') as Hdel.
  rewrite deleteListed_folder in Hdel by exact Hnd.
  specialize (Hdel (NoDup_map_filter Id _ _ Hnd)).
  assert (forall f, In f (folderFiles folderID st) ->
                    In (Id f) (map Id (DriveFiles st))) as Hin.
  { intros f Hfin. apply in_map. unfold folderFiles in Hfin.
    apply filter_In in Hfin. tauto. }
  specialize (Hdel Hin (or_intror (conj eq_refl eq_refl))).
  split; [exact Hdel|].
  pose proof (find_some _ _ Hget) as [Htin Htid].
  assert (inFolder folderID template = true) as Htf
    by (unfold inFolder; rewrite Hpar; cbn [existsb];
        now rewrite String.eqb_refl).
  rewrite existsb_exists. split.
  - intros (f & Hfk & Hfid) E. unfold kept in Hfk.
    apply filter_In in Hfk. destruct Hfk as [Hfin Hkeep].
    assert (f = template) as ->.
    { apply (NoDup_Id_inj (DriveFiles st)); try assumption.
      apply String.eqb_eq in Hfid, Htid. congruence. }
    rewrite Htf, E, String.eqb_refl in Hkeep. discriminate.
  - intros Hne. exists template. split; [|exact Htid].
    unfold kept. apply filter_In. split; [exact Htin|].
    destruct (String.eqb_spec (Name template) target) as [E|E];
      [contradiction|].
    now rewrite andb_false_r.
Qed.

(** The whole run, once the deletion phase is known. *)
Lemma templater_run fuel y m config st template folderID parents :
  1 <= m <= 12 -> (32 <= fuel)%nat -> (length (DriveFiles st) < fuel)%nat ->
  List.NoDup (map Id (DriveFiles st)) ->
  find (fun f => String.eqb (Id f) (WorkDocumentTemplateID config))
    (DriveFiles st) = Some template ->
  Parents template = folderID :: parents ->
  let target :=
    strings_Replace1 (Name template) "yyyymm" (Format_200601 (mkTime y m 1)) in
  let kept :=
    List.filter
      (fun f => negb (inFolder folderID f && String.eqb (Name f) target))
      (DriveFiles st) in
  let copy :=
    {| Id := freshFileId kept; Name := target; Parents := [folderID] |} in
  updateAndDownloadWorkDocuments fuel (mkTime y m 1) config st
  = if existsb (fun f => String.eqb (Id f) (WorkDocumentTemplateID config)) kept
    then
      ({| DriveFiles := kept ++ [copy]; PageSize := PageSize st;
          DocUpdates := DocUpdates st
                        ++ [(Id copy, batchFor (mkTime y m 1) (slotDates y m))];
          Downloads := Downloads st ++ [Name copy ++ ".pdf"] |}, OK tt)
    else (setDriveFiles kept st, Fatal "Failed to copy template").
Proof.
  intros Hm Hf Hlen Hnd Hget Hpar target kept copy.
  destruct (templater_deletion fuel config st template folderID parents target
              Hlen Hnd Hget Hpar) as [Hdel _].
  fold kept in Hdel.
  unfold updateAndDownloadWorkDocuments.
  unfold bind at 1. unfold orFatal at 1. unfold Files_Get. rewrite Hget.
  rewrite Hpar. unfold bind at 1. unfold index0, ret at 1.
  unfold bind at 1. fold target. rewrite Hdel.
  unfold bind at 1. unfold orFatal at 1. unfold Files_Copy.
  cbn [setDriveFiles DriveFiles].
  destruct (existsb _ kept); [|reflexivity].
  rewrite placeholderRequests_spec by assumption.
  unfold bind at 1. unfold ret at 1.
  unfold bind at 1. unfold orFatal at 1. unfold Documents_BatchUpdate.
  unfold orFatal, exportDocument.
  cbn [setDriveFiles DriveFiles PageSize DocUpdates Downloads Id Name].
  reflexivity.
Qed.

(** X11: when the template's name holds [yyyymm], the run ends well and
    the copy is named as the template with the leftmost [yyyymm] replaced
    by the compact month; the copy lies in the template's folder alone,
    the batch of the month is applied once, to the copy and not to the
    template, the PDF is saved under the copy's name, the template stays,
    and the file identifiers stay unique. *)
Theorem templater_names_and_fills_the_copy (fuel : nat) (y m : Z)
    (config : Config) (st : DriveRemote) (template : File)
    (folderID : string) (parents : list string) (a b : string) :
  1 <= m <= 12 -> 0 <= y <= 9999 -> (32 <= fuel)%nat ->
  (length (DriveFiles st) < fuel)%nat ->
  List.NoDup (map Id (DriveFiles st)) ->
  find (fun f => String.eqb (Id f) (WorkDocumentTemplateID config))
    (DriveFiles st) = Some template ->
  Parents template = folderID :: parents ->
  Name template = a ++ "yyyymm" ++ b ->
  (forall a1 c, a ++ "yyyymm" ++ b = a1 ++ "yyyymm" ++ c ->
                (String.length a <= String.length a1)%nat) ->
  let targetTime := mkTime y m 1 in
  let run := updateAndDownloadWorkDocuments fuel targetTime config in
  exists copy req,
    result run st = OK tt
    /\ placeholderRequests fuel targetTime = Some req
    /\ Name copy = a ++ Format_200601 targetTime ++ b
    /\ Parents copy = [folderID]
    /\ In copy (DriveFiles (exec run st))
    /\ In template (DriveFiles (exec run st))
    /\ List.NoDup (map Id (DriveFiles (exec run st)))
    /\ DocUpdates (exec run st) = (DocUpdates st ++ [(Id copy, req)])%list
    /\ Id copy <> Id template
    /\ Downloads (exec run st) = (Downloads st ++ [(Name copy ++ ".pdf")%string])%list.
Proof.
  intros Hm Hy Hf Hlen Hnd Hget Hpar Hname Hleft targetTime run.
  pose proof (templater_run fuel y m config st template folderID parents
                Hm Hf Hlen Hnd Hget Hpar) as Hrun.
  cbv zeta in Hrun.
  assert (strings_Replace1 (Name template) "yyyymm"
            (Format_200601 (mkTime y m 1))
          = a ++ Format_200601 (mkTime y m 1) ++ b) as Htarget
    by (rewrite Hname; now apply strings_Replace1_leftmost).
  rewrite Htarget in Hrun.
  destruct (templater_deletion fuel config st template folderID parents
              (a ++ Format_200601 (mkTime y m 1) ++ b) Hlen Hnd Hget Hpar)
    as [_ Hkept].
  set (kept := List.filter _ (DriveFiles st)) in *.
  assert (Name template <> a ++ Format_200601 (mkTime y m 1) ++ b) as Hne.
  { rewrite Hname. intros E. apply append_cancel_l in E.
    now apply (Format_200601_not_token (mkTime y m 1) b). }
  apply Hkept in Hne. rewrite Hne in Hrun.
  set (copy := {| Id := freshFileId kept;
                  Name := a ++ Format_200601 (mkTime y m 1) ++ b;
                  Parents := [folderID] |}) in *.
  exists copy, (batchFor (mkTime y m 1) (slotDates y m)).
  unfold run, targetTime, result, exec. rewrite Hrun.
  cbn [fst snd DriveFiles DocUpdates Downloads].
  apply existsb_exists in Hne. destruct Hne as (t' & Htk & Hti).
  pose proof (find_some _ _ Hget) as [Htin Htid].
  assert (t' = template) as ->.
  { apply (NoDup_Id_inj (DriveFiles st)); try assumption.
    - unfold kept in Htk. apply filter_In in Htk. tauto.
    - apply String.eqb_eq in Hti, Htid. congruence. }
  split; [reflexivity|].
  split; [now apply placeholderRequests_spec|].
  split; [reflexivity|]. split; [reflexivity|].
  split; [apply in_or_app; right; now left|].
  split; [apply in_or_app; now left|].
  split.
  { rewrite map_app. cbn [map]. apply NoDup_snoc.
    - unfold kept. now apply NoDup_map_filter.
    - apply freshFileId_fresh. }
  split; [reflexivity|].
  split; [|reflexivity].
  intros E. apply (freshFileId_fresh kept). cbn [Id copy] in E. rewrite E.
  now apply in_map.
Qed.

(** X12: a template whose name does not hold [yyyymm] is itself the file
    with the target name: the run deletes it with the other files of that
    name, finds nothing to copy and ends with the fatal error, leaving
    the store without the template. *)
Theorem template_without_token_is_deleted (fuel : nat) (targetTime : Time)
    (config : Config) (st : DriveRemote) (template : File)
    (folderID : string) (parents : list string) :
  (length (DriveFiles st) < fuel)%nat ->
  List.NoDup (map Id (DriveFiles st)) ->
  find (fun f => String.eqb (Id f) (WorkDocumentTemplateID config))
    (DriveFiles st) = Some template ->
  Parents template = folderID :: parents ->
  (forall a b, Name template <> a ++ "yyyymm" ++ b) ->
  let run := updateAndDownloadWorkDocuments fuel targetTime config in
  result run st = Fatal "Failed to copy template"
  /\ DriveFiles (exec run st)
     = List.filter
         (fun f => negb (inFolder folderID f
                         && String.eqb (Name f) (Name template)))
         (DriveFiles st)
  /\ ~ In template (DriveFiles (exec run st))
  /\ DocUpdates (exec run st) = DocUpdates st
  /\ Downloads (exec run st) = Downloads st.
Proof.
  intros Hlen Hnd Hget Hpar Habs run.
  pose proof (strings_Replace1_absent (Name template) "yyyymm"
                (Format_200601 targetTime) Habs) as Htarget.
  destruct (templater_deletion fuel config st template folderID parents
              (Name template) Hlen Hnd Hget Hpar) as [Hdel Hkept].
  set (kept := List.filter _ (DriveFiles st)) in *.
  assert (existsb (fun f => String.eqb (Id f) (WorkDocumentTemplateID config))
            kept = false) as Hex.
  { destruct (existsb _ kept); [|reflexivity].
    destruct Hkept as [Hk _]. now destruct (Hk eq_refl). }
  assert (run st = (setDriveFiles kept st, Fatal "Failed to copy template"))
    as Hrun.
  { unfold run, updateAndDownloadWorkDocuments.
    unfold bind at 1. unfold orFatal at 1. unfold Files_Get. rewrite Hget.
    rewrite Hpar. unfold bind at 1. unfold index0, ret at 1.
    unfold bind at 1. rewrite Htarget, Hdel.
    unfold bind at 1. unfold orFatal at 1. unfold Files_Copy.
    cbn [setDriveFiles DriveFiles]. rewrite Hex. reflexivity. }
  unfold result, exec. rewrite Hrun.
  cbn [fst snd setDriveFiles DriveFiles DocUpdates Downloads].
  split; [reflexivity|]. split; [reflexivity|].
  split; [|split; reflexivity].
  unfold kept. intros Hin. apply filter_In in Hin. destruct Hin as [_ Hk].
  assert (inFolder folderID template = true) as Htf
    by (unfold inFolder; rewrite Hpar; cbn [existsb];
        now rewrite String.eqb_refl).
  rewrite Htf, String.eqb_refl in Hk. discriminate.
Qed.

Lemma find_by_Id (l : list File) t fileID :
  List.NoDup (map Id l) -> In t l -> Id t = fileID ->
  find (fun f => String.eqb (Id f) fileID) l = Some t.
Proof.
  intros Hnd Hin Hid.
  destruct (find (fun f => String.eqb (Id f) fileID) l) as [g|] eqn:E.
  - apply find_some in E. destruct E as [Hg Hgid].
    apply String.eqb_eq in Hgid. f_equal.
    apply (NoDup_Id_inj l); try assumption. congruence.
  - exfalso. pose proof (find_none _ _ E t Hin) as H. cbv beta in H.
    rewrite Hid, String.eqb_refl in H. discriminate.
Qed.

Lemma find_app_found {A} (p : A -> bool) l l' x :
  find p l = Some x -> find p (l ++ l') = Some x.
Proof.
  induction l as [|a l IH]; cbn [find app]; [discriminate|].
  destruct (p a); [tauto | exact IH].
Qed.

Lemma filter_idem {A} (p : A -> bool) l :
  List.filter p (List.filter p l) = List.filter p l.
Proof.
  rewrite List_filter_filter. apply filter_ext. intros x. now destruct (p x).
Qed.

(** X13: running the templater a second time on the store the first run
    left ends well again and leaves the folder as it was: the copy of the
    first run is deleted and made anew, so the folder holds one file of
    the target name after either run, while the batch is applied and the
    PDF is saved once per run. *)
Theorem templater_rerun_keeps_one_target (fuel : nat) (y m : Z)
    (config : Config) (st : DriveRemote) (template : File)
    (folderID : string) (parents : list string) :
  1 <= m <= 12 -> (32 <= fuel)%nat ->
  (length (DriveFiles st) + 1 < fuel)%nat ->
  List.NoDup (map Id (DriveFiles st)) ->
  find (fun f => String.eqb (Id f) (WorkDocumentTemplateID config))
    (DriveFiles st) = Some template ->
  Parents template = folderID :: parents ->
  let targetTime := mkTime y m 1 in
  let target :=
    strings_Replace1 (Name template) "yyyymm" (Format_200601 targetTime) in
  Name template <> target ->
  let run := updateAndDownloadWorkDocuments fuel targetTime config in
  let st1 := exec run st in
  let st2 := exec run st1 in
  result run st = OK tt
  /\ result run st1 = OK tt
  /\ length (namedInFolder folderID target (DriveFiles st1)) = 1%nat
  /\ length (namedInFolder folderID target (DriveFiles st2)) = 1%nat
  /\ map (fun f => (Name f, Parents f)) (DriveFiles st2)
     = map (fun f => (Name f, Parents f)) (DriveFiles st1)
  /\ length (DocUpdates st2) = (length (DocUpdates st) + 2)%nat
  /\ Downloads st2
     = (Downloads st ++ [(target ++ ".pdf")%string; (target ++ ".pdf")%string])%list.
Proof.
  intros Hm Hf Hlen Hnd Hget Hpar targetTime target Hne run st1 st2.
  assert (length (DriveFiles st) < fuel)%nat as Hlen0 by lia.
  pose proof (templater_run fuel y m config st template folderID parents
                Hm Hf Hlen0 Hnd Hget Hpar) as Hrun.
  cbv zeta in Hrun. fold targetTime in Hrun. fold target in Hrun.
  fold run in Hrun.
  destruct (templater_deletion fuel config st template folderID parents
              target Hlen0 Hnd Hget Hpar) as [_ Hkept].
  set (P := fun f => negb (inFolder folderID f && String.eqb (Name f) target))
    in *.
  set (kept := List.filter P (DriveFiles st)) in *.
  pose proof (proj2 Hkept Hne) as Hex. rewrite Hex in Hrun.
  set (copy := {| Id := freshFileId kept; Name := target;
                  Parents := [folderID] |}) in *.
  (* the store after the first run *)
  assert (DriveFiles st1 = (kept ++ [copy])%list) as Hfiles1
    by (unfold st1, exec; now rewrite Hrun).
  assert (DocUpdates st1
          = (DocUpdates st ++ [(Id copy, batchFor targetTime (slotDates y m))])%list)
    as Hdocs1 by (unfold st1, exec; now rewrite Hrun).
  assert (Downloads st1 = (Downloads st ++ [(Name copy ++ ".pdf")%string])%list)
    as Hdown1 by (unfold st1, exec; now rewrite Hrun).
  assert (In template kept /\ Id template = WorkDocumentTemplateID config)
    as [Htk Htid].
  { apply existsb_exists in Hex. destruct Hex as (t' & Ht' & Hid').
    pose proof (find_some _ _ Hget) as [Htin Hid].
    apply String.eqb_eq in Hid, Hid'. split; [|exact Hid].
    replace template with t'; [exact Ht'|].
    apply (NoDup_Id_inj (DriveFiles st)); try assumption; [|congruence].
    unfold kept in Ht'. apply filter_In in Ht'. tauto. }
  assert (List.NoDup (map Id kept)) as Hndk
    by (unfold kept; now apply NoDup_map_filter).
  assert (P copy = false) as HPc.
  { unfold P, inFolder. cbn [copy Parents Name existsb].
    now rewrite !String.eqb_refl. }
  assert (List.filter P (DriveFiles st1) = kept) as Hkept1.
  { rewrite Hfiles1, List.filter_app. cbn [List.filter]. rewrite HPc, app_nil_r.
    apply filter_idem. }
  (* the second run *)
  assert (length (DriveFiles st1) < fuel)%nat as Hlen1.
  { rewrite Hfiles1, length_app. cbn [length].
    pose proof (filter_length_le P (DriveFiles st)). fold kept in H. lia. }
  assert (List.NoDup (map Id (DriveFiles st1))) as Hnd1.
  { rewrite Hfiles1, map_app. cbn [map]. apply NoDup_snoc; [exact Hndk|].
    apply freshFileId_fresh. }
  assert (find (fun f => String.eqb (Id f) (WorkDocumentTemplateID config))
            (DriveFiles st1) = Some template) as Hget1.
  { rewrite Hfiles1. apply find_app_found. now apply find_by_Id. }
  pose proof (templater_run fuel y m config st1 template folderID parents
                Hm Hf Hlen1 Hnd1 Hget1 Hpar) as Hrun2.
  cbv zeta in Hrun2. fold targetTime in Hrun2. fold target in Hrun2.
  fold run in Hrun2. fold P in Hrun2. rewrite Hkept1 in Hrun2.
  rewrite Hex in Hrun2. fold copy in Hrun2.
  assert (namedInFolder folderID target (kept ++ [copy]) = [copy]) as Hone.
  { unfold namedInFolder. rewrite List.filter_app.
    pose proof (namedInFolder_deleted folderID target (DriveFiles st)) as Hd.
    unfold namedInFolder in Hd. fold P in Hd. fold kept in Hd. rewrite Hd.
    cbn [List.filter app]. unfold P in HPc.
    apply negb_false_iff in HPc. now rewrite HPc. }
  split; [unfold result; now rewrite Hrun|].
  split; [unfold result; now rewrite Hrun2|].
  split; [rewrite Hfiles1, Hone; reflexivity|].
  unfold st2, exec. rewrite Hrun2.
  cbn [fst DriveFiles DocUpdates Downloads].
  split; [rewrite Hone; reflexivity|].
  split; [now rewrite Hfiles1|].
  split.
  - rewrite Hdocs1, !length_app. cbn [length]. lia.
  - rewrite Hdown1, <- app_assoc. reflexivity.
Qed.

Ltac distinct_ids :=
  vm_compute; repeat constructor;
  cbn [In]; intros H; repeat (destruct H as [H | H]; try discriminate H);
  exact H.

Lemma templater_names_and_fills_the_copy_witness :
  exists copy req,
    result (updateAndDownloadWorkDocuments 40 (mkTime 2024 2 1) exampleConfig)
      exampleDrive = OK tt
    /\ placeholderRequests 40 (mkTime 2024 2 1) = Some req
    /\ Name copy = "Invoice " ++ Format_200601 (mkTime 2024 2 1) ++ ""
    /\ Parents copy = ["folder"]
    /\ In copy (DriveFiles
                  (exec (updateAndDownloadWorkDocuments 40 (mkTime 2024 2 1)
                           exampleConfig) exampleDrive))
    /\ In exampleTemplate
         (DriveFiles
            (exec (updateAndDownloadWorkDocuments 40 (mkTime 2024 2 1)
                     exampleConfig) exampleDrive))
    /\ List.NoDup
         (map Id
            (DriveFiles
               (exec (updateAndDownloadWorkDocuments 40 (mkTime 2024 2 1)
                        exampleConfig) exampleDrive)))
    /\ DocUpdates
         (exec (updateAndDownloadWorkDocuments 40 (mkTime 2024 2 1)
                  exampleConfig) exampleDrive)
       = (DocUpdates exampleDrive ++ [(Id copy, req)])%list
    /\ Id copy <> Id exampleTemplate
    /\ Downloads
         (exec (updateAndDownloadWorkDocuments 40 (mkTime 2024 2 1)
                  exampleConfig) exampleDrive)
       = (Downloads exampleDrive ++ [(Name copy ++ ".pdf")%string])%list.
Proof.
  apply (templater_names_and_fills_the_copy 40 2024 2 exampleConfig
           exampleDrive exampleTemplate "folder" [] "Invoice " "").
  - lia.
  - lia.
  - lia.
  - vm_compute. lia.
  - distinct_ids.
  - reflexivity.
  - reflexivity.
  - reflexivity.
  - intros a1 c E.
    do 8 (destruct a1 as [|? a1]; [simpl in E; now inversion E|]).
    simpl. lia.
Defined.

Lemma template_without_token_is_deleted_witness :
  result (updateAndDownloadWorkDocuments 3 (mkTime 2024 2 1) exampleConfig)
    exampleDrivePlain = Fatal "Failed to copy template"
  /\ DriveFiles
       (exec (updateAndDownloadWorkDocuments 3 (mkTime 2024 2 1) exampleConfig)
          exampleDrivePlain)
     = List.filter
         (fun f => negb (inFolder "folder" f
                         && String.eqb (Name f) "Invoice"))
         (DriveFiles exampleDrivePlain)
  /\ ~ In {| Id := "tpl"; Name := "Invoice"; Parents := ["folder"] |}
       (DriveFiles
          (exec (updateAndDownloadWorkDocuments 3 (mkTime 2024 2 1)
                   exampleConfig) exampleDrivePlain))
  /\ DocUpdates
       (exec (updateAndDownloadWorkDocuments 3 (mkTime 2024 2 1) exampleConfig)
          exampleDrivePlain) = DocUpdates exampleDrivePlain
  /\ Downloads
       (exec (updateAndDownloadWorkDocuments 3 (mkTime 2024 2 1) exampleConfig)
          exampleDrivePlain) = Downloads exampleDrivePlain.
Proof.
  apply (template_without_token_is_deleted 3 (mkTime 2024 2 1) exampleConfig
           exampleDrivePlain
           {| Id := "tpl"; Name := "Invoice"; Parents := ["folder"] |}
           "folder" []).
  - vm_compute. lia.
  - distinct_ids.
  - reflexivity.
  - reflexivity.
  - intros a b E. cbn [Name] in E.
    do 8 (destruct a as [|? a]; [simpl in E; now inversion E|]).
    simpl in E. now inversion E.
Defined.

Lemma templater_rerun_keeps_one_target_witness :
  length
    (namedInFolder "folder"
       (strings_Replace1 (Name exampleTemplate) "yyyymm"
          (Format_200601 (mkTime 2024 2 1)))
       (DriveFiles
          (exec (updateAndDownloadWorkDocuments 40 (mkTime 2024 2 1)
                   exampleConfig)
             (exec (updateAndDownloadWorkDocuments 40 (mkTime 2024 2 1)
                      exampleConfig) exampleDrive)))) = 1%nat.
Proof.
  assert (Name exampleTemplate
          <> strings_Replace1 (Name exampleTemplate) "yyyymm"
               (Format_200601 (mkTime 2024 2 1))) as Hne
    by (vm_compute; congruence).
  pose proof (templater_rerun_keeps_one_target 40 2024 2 exampleConfig
                exampleDrive exampleTemplate "folder" []
                ltac:(lia) ltac:(lia) ltac:(vm_compute; lia)
                ltac:(distinct_ids) eq_refl eq_refl Hne) as H.
  cbv zeta in H. exact (proj1 (proj2 (proj2 (proj2 H)))).
Defined.

(** ** The driver *)

Section DriverFacts.

Variable Parse_RFC3339 : string -> option Time.
Variable Parse_date : string -> option Time.

(** The run of the driver, phase by phase. *)
Lemma main_run fuel events targetTime config w :
  let t := normalizeTargetTime targetTime in
  main Parse_RFC3339 Parse_date fuel events targetTime config w
  = match getWorkDays Parse_RFC3339 Parse_date events t config with
    | OK days =>
        let sheetsRun := updateAndDownloadWorkSpreadsheets t days config in
        let driveRun := updateAndDownloadWorkDocuments fuel t config in
        match result sheetsRun (SheetsSide w) with
        | OK _ =>
            ({| SheetsSide := exec sheetsRun (SheetsSide w);
                DriveSide := exec driveRun (DriveSide w) |},
             result driveRun (DriveSide w))
        | Fatal msg =>
            ({| SheetsSide := exec sheetsRun (SheetsSide w);
                DriveSide := DriveSide w |}, Fatal msg)
        | Panic msg =>
            ({| SheetsSide := exec sheetsRun (SheetsSide w);
                DriveSide := DriveSide w |}, Panic msg)
        | Diverge =>
            ({| SheetsSide := exec sheetsRun (SheetsSide w);
                DriveSide := DriveSide w |}, Diverge)
        end
    | Fatal msg => (w, Fatal msg)
    | Panic msg => (w, Panic msg)
    | Diverge => (w, Diverge)
    end.
Proof using Type.
  intros t. unfold main. fold t. unfold bind at 1. unfold ended.
  destruct (getWorkDays Parse_RFC3339 Parse_date events t config)
    as [days| | |]; try reflexivity.
  cbv zeta. unfold bind, onSheets, onDrive, result, exec.
  destruct (updateAndDownloadWorkSpreadsheets t days config (SheetsSide w))
    as [st [[]| | |]]; cbn [fst snd SheetsSide DriveSide]; try reflexivity.
  destruct (updateAndDownloadWorkDocuments fuel t config (DriveSide w))
    as [dr o]. cbn [fst snd]. now destruct o.
Qed.

(** X14: when the driver ends well, the calendar was answered, every
    event had a readable start, and in every spreadsheet of the
    configuration the page of the target month holds the first day of the
    month in M3 and, in row [6 + i] of column D, the start time exactly
    when an event of that month with the marker label falls on day [i]. *)
Theorem main_ok_fills_every_sheet (fuel : nat) (events : option (list Event))
    (targetTime : Time) (config : Config) (w : Remotes) :
  let t := normalizeTargetTime targetTime in
  let run := main Parse_RFC3339 Parse_date fuel events targetTime config in
  result run w = OK tt ->
  exists items,
    events = Some items
    /\ (forall item, In item items ->
          exists date, resolveDate Parse_RFC3339 Parse_date item = OK date)
    /\ forall id, In id (WorkSpreadsheetIDs config) ->
         cellOf (SheetsSide (exec run w)) id (Format_200601 t) "M" 3
         = Some (Format_2006_01_02 t)
         /\ forall i, 1 <= i <= 31 ->
              cellOf (SheetsSide (exec run w)) id (Format_200601 t) "D" (6 + i)
              = Some (if existsb
                           (eventMarksDay Parse_RFC3339 Parse_date t config i)
                           items
                      then WorkStartTime config else "").
Proof using Type.
  intros t run Hok. unfold run, result, exec in *.
  pose proof (main_run fuel events targetTime config w) as Hrun.
  cbv zeta in Hrun. fold t in Hrun. rewrite Hrun in *. clear Hrun.
  destruct events as [items|]; [|discriminate Hok].
  exists items. split; [reflexivity|].
  cbn [getWorkDays] in *.
  destruct (collectWorkDays Parse_RFC3339 Parse_date t config items [])
    as [days| | |] eqn:Hdays; try discriminate Hok.
  pose proof (collectWorkDays_OK_inv Parse_RFC3339 Parse_date t config items
                [] days Hdays) as Hall.
  split; [exact Hall|].
  rewrite collectWorkDays_spec in Hdays by exact Hall.
  cbn [app] in Hdays. injection Hdays as <-.
  set (days := flat_map (selectWorkDay Parse_RFC3339 Parse_date t config) items)
    in *.
  destruct (result (updateAndDownloadWorkSpreadsheets t days config)
              (SheetsSide w)) as [[]| | |] eqn:Hsheets; try discriminate Hok.
  cbn [fst SheetsSide].
  intros id Hin.
  unfold updateAndDownloadWorkSpreadsheets in *.
  destruct (syncSpreadsheets_settles t days config
              (WorkSpreadsheetIDs config) (SheetsSide w) []
              (fun id0 (H : In id0 []) => match H with end) Hsheets id)
    as (sp & Hdoc & Hset).
  { rewrite app_nil_r. exact Hin. }
  destruct (settled_cells _ _ _ _ Hset) as (s & Hs & HM & HD).
  unfold cellOf. rewrite Hdoc, Hs. split; [exact HM|].
  intros i Hi. rewrite (HD i Hi). f_equal.
  apply workTimeValue_of_events.
Qed.


End DriverFacts.

Lemma main_ok_fills_every_sheet_witness :
  exists items,
    Some exampleEvents = Some items
    /\ (forall item, In item items ->
          exists date, resolveDate exampleParseTime exampleParseDay item = OK date)
    /\ forall id, In id (WorkSpreadsheetIDs exampleConfig) ->
         cellOf
           (SheetsSide
              (exec (main exampleParseTime exampleParseDay 40
                       (Some exampleEvents) (mkTime 2024 2 15) exampleConfig)
                 exampleRemotes))
           id (Format_200601 (normalizeTargetTime (mkTime 2024 2 15))) "M" 3
         = Some (Format_2006_01_02 (normalizeTargetTime (mkTime 2024 2 15)))
         /\ forall i, 1 <= i <= 31 ->
              cellOf
                (SheetsSide
                   (exec (main exampleParseTime exampleParseDay 40
                            (Some exampleEvents) (mkTime 2024 2 15)
                            exampleConfig) exampleRemotes))
                id (Format_200601 (normalizeTargetTime (mkTime 2024 2 15)))
                "D" (6 + i)
              = Some (if existsb
                           (eventMarksDay exampleParseTime exampleParseDay
                              (normalizeTargetTime (mkTime 2024 2 15))
                              exampleConfig i) exampleEvents
                      then WorkStartTime exampleConfig else "").
Proof.
  pose proof (main_ok_fills_every_sheet exampleParseTime exampleParseDay 40
                (Some exampleEvents) (mkTime 2024 2 15) exampleConfig
                exampleRemotes) as H.
  cbv zeta in H.
  assert (result
            (main exampleParseTime exampleParseDay 40 (Some exampleEvents)
               (mkTime 2024 2 15) exampleConfig) exampleRemotes = OK tt)
    as Hok by (vm_compute; reflexivity).
  destruct (H Hok) as (items & Hitems & Hall & Hcells).
  injection Hitems as <-.
  exists exampleEvents. split; [reflexivity|]. split; [exact Hall|].
  exact Hcells.
Defined.
